(** * sen/tui.py: the view-stack controller and the log-streaming view

    A shallow embedding of [src/sen/tui.py].  Python objects live in a
    heap and are named by references, because the program shares them:
    the list of views of the [UI] holds the very widget that a streaming
    thread keeps appending to.  Methods are state transformers over the
    whole [World] that either return or raise. *)

From Stdlib Require Import ZArith NArith Lia Ascii String.
From stdpp Require Import base option list relations.

Local Open Scope Z_scope.

(** ** Python values *)

(** A Python [str] is a sequence of Unicode code points. *)
Definition str := list N.

(** A literal written in the source, all of them ASCII. *)
Definition u (s : string) : str := N_of_ascii <$> list_ascii_of_string s.

(** A Python [bytes] object, one number below 256 per byte. *)
Definition bytes := list N.

Inductive exn :=
| IndexError
| ValueError
| AttributeError
| UnicodeDecodeError
| RuntimeError (msg : str)
| ExitMainLoop
| BackendError (msg : str).

(** [l[i]] on a Python list: negative indices count from the end, and
    an index outside [-len, len) raises [IndexError] ([None] here). *)
Definition py_getitem {A} (l : list A) (i : Z) : option A :=
  let n := Z.of_nat (length l) in
  if 0 <=? i then l !! Z.to_nat i
  else if - n <=? i then l !! Z.to_nat (n + i)
  else None.

(** [x in l], by equality of references. *)
Definition py_in (x : nat) (l : list nat) : bool := existsb (Nat.eqb x) l.

(** [l.remove(x)]: drops the first element equal to [x]; [ValueError]
    ([None] here) when there is none. *)
Fixpoint py_remove (x : nat) (l : list nat) : option (list nat) :=
  match l with
  | [] => None
  | y :: l' => if Nat.eqb y x then Some l' else cons y <$> py_remove x l'
  end.

(** [l.index(x)]: position of the first element equal to [x];
    [ValueError] ([None] here) when there is none. *)
Fixpoint py_index (x : nat) (l : list nat) : option nat :=
  match l with
  | [] => None
  | y :: l' => if Nat.eqb y x then Some 0%nat else S <$> py_index x l'
  end.

(** [s[:n]] on a [str]. *)
Definition py_slice_to (n : nat) (s : str) : str := take n s.

(** [bytes.decode("utf-8")] with the default strict error handling:
    shortest-form sequences only, no surrogates, nothing above
    U+10FFFF. *)
Definition is_cont (b : N) : bool := ((0x80 <=? b) && (b <=? 0xBF))%N.

Fixpoint decode_utf8 (bs : bytes) : option str :=
  match bs with
  | [] => Some []
  | b0 :: r0 =>
    if (b0 <? 0x80)%N then cons b0 <$> decode_utf8 r0
    else if ((0xC2 <=? b0) && (b0 <=? 0xDF))%N then
      match r0 with
      | b1 :: r1 =>
        if is_cont b1
        then cons ((b0 - 0xC0) * 64 + (b1 - 0x80))%N <$> decode_utf8 r1
        else None
      | _ => None
      end
    else if ((0xE0 <=? b0) && (b0 <=? 0xEF))%N then
      match r0 with
      | b1 :: b2 :: r2 =>
        let lo := if (b0 =? 0xE0)%N then 0xA0%N else 0x80%N in
        let hi := if (b0 =? 0xED)%N then 0x9F%N else 0xBF%N in
        if ((lo <=? b1) && (b1 <=? hi) && is_cont b2)%N
        then cons ((b0 - 0xE0) * 4096 + (b1 - 0x80) * 64 + (b2 - 0x80))%N
               <$> decode_utf8 r2
        else None
      | _ => None
      end
    else if ((0xF0 <=? b0) && (b0 <=? 0xF4))%N then
      match r0 with
      | b1 :: b2 :: b3 :: r3 =>
        let lo := if (b0 =? 0xF0)%N then 0x90%N else 0x80%N in
        let hi := if (b0 =? 0xF4)%N then 0x8F%N else 0xBF%N in
        if ((lo <=? b1) && (b1 <=? hi) && is_cont b2 && is_cont b3)%N
        then cons ((b0 - 0xF0) * 262144 + (b1 - 0x80) * 4096
                   + (b2 - 0x80) * 64 + (b3 - 0x80))%N
               <$> decode_utf8 r3
        else None
      | _ => None
      end
    else None
  end.

(** [str.isspace] on one code point, the set [str.strip()] removes. *)
Definition is_space (c : N) : bool :=
  (((0x09 <=? c) && (c <=? 0x0D)) || ((0x1C <=? c) && (c <=? 0x20))
   || (c =? 0x85) || (c =? 0xA0) || (c =? 0x1680)
   || ((0x2000 <=? c) && (c <=? 0x200A))
   || (c =? 0x2028) || (c =? 0x2029) || (c =? 0x202F) || (c =? 0x205F)
   || (c =? 0x3000))%N.

Fixpoint lstrip (s : str) : str :=
  match s with
  | c :: s' => if is_space c then lstrip s' else s
  | [] => []
  end.

Definition rstrip (s : str) : str := reverse (lstrip (reverse s)).

(** [s.strip()] *)
Definition strip (s : str) : str := rstrip (lstrip s).

(** [s.split("\n")]: always at least one piece, the empty ones kept. *)
Fixpoint split_newline (s : str) : list str :=
  match s with
  | [] => [[]]
  | c :: s' =>
    if (c =? 10)%N then [] :: split_newline s'
    else match split_newline s' with
         | piece :: pieces => (c :: piece) :: pieces
         | [] => [[c]]
         end
  end.

(** Truth value of a [str]: the empty one is false. *)
Definition truthy (s : str) : bool :=
  match s with [] => false | _ => true end.

(** ** Domain objects *)

(** Modelled from the spec: [sen.docker_backend] is imported by the
    source but is not part of it.  An image carries an identifier, a
    creation time as displayed and its names (possibly absent); a
    container carries an identifier, a creation time as displayed, a
    name, a command and a status.  [OtherObject] stands for any value
    that is an instance of neither class. *)
Inductive docker_object :=
| DockerImage (image_id : str) (display_time_created : str)
    (names : option str)
| DockerContainer (container_id : str) (display_time_created : str)
    (name command status : str)
| OtherObject.

(** ** Widgets *)

(** [urwid.Text((attr, text), align=..., wrap=...)] *)
Record Text := { attr : str; text : str; align : str; wrap : str }.

(** An entry of [urwid.Columns]: [(13, widget)] or a bare widget. *)
Inductive column :=
| Given (width : nat) (t : Text)
| Weighted (t : Text).

Record DockerImageColumns :=
  { docker_object_of : docker_object; contents : list column }.

(** [urwid.AttrMap(line, 'image_id', focus_map='reversed')]; [line] is
    [None] for an object that is neither an image nor a container. *)
Record AttrMap :=
  { original_widget : option DockerImageColumns;
    attr_map : str; focus_map : str }.

(** Where the thread running [fetch_logs] stands. *)
Inductive thread_pc :=
| AtNext                   (* about to ask the generator for a line *)
| AtCheck (line : str)     (* holds a line, about to test [self.stop] *)
| AtAppend (line : str)    (* flag seen clear, about to append *)
| AtSetFocus               (* about to move the focus to the last line *)
| AtNotify                 (* about to call [ui.add_and_set_main_widget] *)
| Broke                    (* saw the flag set and left the loop *)
| Exhausted.               (* the generator ended *)

Record AsyncScrollableListBox :=
  { log_texts : list Text;
    walker : list Text;
    walker_focus : nat;
    stop : bool;
    (* the generator as the sequence it will yield: [None] when it ends
       (or fails, which ends the thread just the same) *)
    generator : nat -> option str;
    consumed : nat;
    thread : thread_pc }.

Definition set_walker (ws : list Text) (a : AsyncScrollableListBox) :=
  {| log_texts := log_texts a; walker := ws;
     walker_focus := walker_focus a; stop := stop a;
     generator := generator a; consumed := consumed a;
     thread := thread a |}.

Definition set_walker_focus (i : nat) (a : AsyncScrollableListBox) :=
  {| log_texts := log_texts a; walker := walker a;
     walker_focus := i; stop := stop a;
     generator := generator a; consumed := consumed a;
     thread := thread a |}.

Definition set_stop (a : AsyncScrollableListBox) :=
  {| log_texts := log_texts a; walker := walker a;
     walker_focus := walker_focus a; stop := true;
     generator := generator a; consumed := consumed a;
     thread := thread a |}.

Definition set_consumed (n : nat) (a : AsyncScrollableListBox) :=
  {| log_texts := log_texts a; walker := walker a;
     walker_focus := walker_focus a; stop := stop a;
     generator := generator a; consumed := n;
     thread := thread a |}.

Definition set_thread (pc : thread_pc) (a : AsyncScrollableListBox) :=
  {| log_texts := log_texts a; walker := walker a;
     walker_focus := walker_focus a; stop := stop a;
     generator := generator a; consumed := consumed a;
     thread := pc |}.

Inductive obj :=
| SolidFill
| MainListBox (body : list AttrMap) (focus : nat)
| ScrollableListBox (body : list Text)
| AsyncBox (a : AsyncScrollableListBox).

(** ** The world *)

Inductive level := Debug | Warning.

Inductive backend_call :=
| InspectImage (id : str)
| InspectContainer (id : str)
| Logs (id : str).

(** What the program does to its surroundings, in order: what it
    logs, the screens it draws, the calls to the backend; and, to count
    them, the calls of [destroy]. *)
Inductive event :=
| Log (lvl : level) (fmt : str)
| DrawScreen
| Destroy (r : nat)
| Backend (c : backend_call).

(** The [UI] singleton ([main_list], the body of [mainframe],
    [widgets]), the heap of widgets, and the events so far. *)
Record World :=
  { main_list : nat;
    mainframe_body : nat;
    widgets : list nat;
    heap : list obj;
    trace : list event }.

Definition with_body (r : nat) (w : World) : World :=
  {| main_list := main_list w; mainframe_body := r; widgets := widgets w;
     heap := heap w; trace := trace w |}.

Definition with_widgets (ws : list nat) (w : World) : World :=
  {| main_list := main_list w; mainframe_body := mainframe_body w;
     widgets := ws; heap := heap w; trace := trace w |}.

Definition with_heap (h : list obj) (w : World) : World :=
  {| main_list := main_list w; mainframe_body := mainframe_body w;
     widgets := widgets w; heap := h; trace := trace w |}.

Definition with_trace (t : list event) (w : World) : World :=
  {| main_list := main_list w; mainframe_body := mainframe_body w;
     widgets := widgets w; heap := heap w; trace := t |}.

(** ** Methods: return or raise, over the world *)

Inductive result (A : Type) :=
| Return (a : A) (w : World)
| Raise (e : exn) (w : World).
Arguments Return {A} a w.
Arguments Raise {A} e w.

Definition M (A : Type) : Type := World -> result A.

#[global] Instance M_ret : MRet M := fun A a w => Return a w.
#[global] Instance M_bind : MBind M := fun A B f m w =>
  match m w with
  | Return a w' => f a w'
  | Raise e w' => Raise e w'
  end.

Definition raise {A} (e : exn) : M A := fun w => Raise e w.
Definition get {A} (f : World -> A) : M A := fun w => Return (f w) w.
Definition modify (f : World -> World) : M unit := fun w => Return tt (f w).
Definition emit (e : event) : M unit :=
  modify (fun w => with_trace (trace w ++ [e]) w).

(** [try: m  except IndexError: h] *)
Definition try_except_IndexError {A} (m h : M A) : M A := fun w =>
  match m w with
  | Raise IndexError w' => h w'
  | r => r
  end.

(** The world a call leaves behind, however it ended. *)
Definition world_of {A} (r : result A) : World :=
  match r with Return _ w => w | Raise _ w => w end.

Definition alloc (o : obj) : M nat := fun w =>
  Return (length (heap w)) (with_heap (heap w ++ [o]) w).

(** *** class UI *)
Module UI.

Definition draw_screen : M unit := emit DrawScreen.

Definition _set_main_widget (widget : nat) (redraw : bool) : M unit :=
  modify (with_body widget) ;;
  if redraw then draw_screen else mret tt.

Definition add_and_set_main_widget (widget : nat) (redraw : bool) : M unit :=
  ws ← get widgets;
  (if negb (py_in widget ws) then
     emit (Log Debug (u "adding new widget %r")) ;;
     modify (fun w => with_widgets (widgets w ++ [widget]) w)
   else mret tt) ;;
  _set_main_widget widget redraw.

(** [self.widgets[i]] *)
Definition widgets_getitem (i : Z) : M nat :=
  ws ← get widgets;
  match py_getitem ws i with
  | Some x => mret x
  | None => raise IndexError
  end.

Definition pick_main_widget (i : Z) : M unit :=
  ws ← get widgets;
  if (length ws =? 1)%nat then mret tt
  else
    try_except_IndexError
      (x ← widgets_getitem i; _set_main_widget x true)
      (x ← widgets_getitem 0; _set_main_widget x true).

Definition current_widget : M nat := get mainframe_body.

Definition current_widget_index : M nat :=
  cur ← current_widget;
  ws ← get widgets;
  match py_index cur ws with
  | Some i => mret i
  | None => raise ValueError
  end.

(** [AsyncScrollableListBox.destroy]: [self.stop.set()].  The call
    itself is recorded in the trace. *)
Definition destroy (self : nat) : M unit :=
  emit (Destroy self) ;;
  modify (fun w =>
    match heap w !! self with
    | Some (AsyncBox a) =>
      with_heap (<[self := AsyncBox (set_stop a)]> (heap w)) w
    | _ => w
    end).

(** [getattr(widget, "destroy", None)]: only the streaming list box
    defines the method. *)
Definition getattr_destroy (widget : nat) : M (option (M unit)) :=
  h ← get heap;
  match h !! widget with
  | Some (AsyncBox _) => mret (Some (destroy widget))
  | _ => mret None
  end.

Definition remove_current_widget : M unit :=
  cur ← current_widget;
  ml ← get main_list;
  if (cur =? ml)%nat then
    emit (Log Warning (u "you can't remove main list widget"))
  else
    ws ← get widgets;
    match py_remove cur ws with
    | None => raise ValueError
    | Some ws' =>
      modify (with_widgets ws') ;;
      cur' ← current_widget;
      destroy_method ← getattr_destroy cur';
      match destroy_method with
      | Some call => call
      | None => mret tt
      end ;;
      ml' ← get main_list;
      _set_main_widget ml' true
    end.

Definition unhandled_input (key : str) : M unit :=
  emit (Log Debug (u "got %r")) ;;
  if bool_decide (key = u "q") || bool_decide (key = u "Q") then
    raise ExitMainLoop
  else if bool_decide (key = u "p") then
    i ← current_widget_index; pick_main_widget (Z.of_nat i - 1)
  else if bool_decide (key = u "n") then
    i ← current_widget_index; pick_main_widget (Z.of_nat i + 1)
  else if bool_decide (key = u "x") then
    remove_current_widget
  else mret tt.

End UI.

(** ** What the program is given *)

(** Modelled from the spec: the backend adapter ([DockerBackend] of
    [sen.docker_backend], not part of the source).  It lists the
    inventory, returns inspection payloads and returns the logs of a
    container as an initial block of bytes and a lazy sequence of
    lines; every call may fail.  An answer may depend on everything
    that happened before the call. *)
Record DockerBackend (json : Type) :=
  { initial_content : list docker_object;
    inspect_image : list event -> str -> exn + json;
    inspect_container : list event -> str -> exn + json;
    logs : list event -> str -> exn + (bytes * (nat -> option str)) }.
Arguments initial_content {json} _.
Arguments inspect_image {json} _ _ _.
Arguments inspect_container {json} _ _ _.
Arguments logs {json} _ _ _.

(** The backend, [json.dumps(_, indent=2)], and the key handler that
    [urwid.ListBox] gives every list box: from the size, the key, the
    number of rows and the focus to the new focus and the key when it
    was not used. *)
Record Env :=
  { json : Type;
    d : DockerBackend json;
    json_dumps : json -> str;
    listbox_keypress :
      nat * nat -> str -> nat -> nat -> nat * option str }.

(** [urwid.Text(("text", s), align="left", wrap="any")] *)
Definition line_text (s : str) : Text :=
  {| attr := u "text"; text := s; align := u "left"; wrap := u "any" |}.

(** *** class ScrollableListBox *)
Module ScrollableListBox.

Definition __init__ (text : str) : M nat :=
  alloc (ScrollableListBox [line_text text]).

End ScrollableListBox.

(** *** class AsyncScrollableListBox *)
Module AsyncScrollableListBox.

(** The loop of the constructor over the pieces of the decoded data. *)
Definition seed_log_texts (pieces : list str) : list Text :=
  fold_left
    (fun log_texts d =>
       let log_entry := strip d in
       if truthy log_entry then log_texts ++ [line_text log_entry]
       else log_texts)
    pieces [].

(** The thread is started by the constructor: it stands before its
    first line. *)
Definition __init__ (static_data : bytes) (generator : nat -> option str)
  : M nat :=
  match decode_utf8 static_data with
  | None => raise UnicodeDecodeError
  | Some decoded =>
    let log_texts := seed_log_texts (split_newline decoded) in
    alloc (AsyncBox
      {| log_texts := log_texts; walker := log_texts; walker_focus := 0;
         stop := false; generator := generator; consumed := 0;
         thread := AtNext |})
  end.

Definition store (self : nat) (a : AsyncScrollableListBox) (w : World)
  : World :=
  with_heap (<[self := AsyncBox a]> (heap w)) w.

(** One step of the thread that runs [fetch_logs] for the box [self];
    [None] when there is no such thread or it has ended.  A generator
    that blocks is a thread that does not step. *)
Definition fetch_logs_step (self : nat) (w : World) : option World :=
  match heap w !! self with
  | Some (AsyncBox a) =>
    match thread a with
    | AtNext =>
      match generator a (consumed a) with
      | Some line =>
        Some (store self
                (set_thread (AtCheck line) (set_consumed (S (consumed a)) a))
                w)
      | None => Some (store self (set_thread Exhausted a) w)
      end
    | AtCheck line =>
      if stop a then Some (store self (set_thread Broke a) w)
      else Some (world_of
                   (emit (Log Debug (u "log line emitted: %r"))
                      (store self (set_thread (AtAppend line) a) w)))
    | AtAppend line =>
      Some (store self
              (set_thread AtSetFocus
                 (set_walker (walker a ++ [line_text (strip line)]) a))
              w)
    | AtSetFocus =>
      Some (store self
              (set_thread AtNotify
                 (set_walker_focus (length (walker a) - 1) a))
              w)
    | AtNotify =>
      Some (world_of
              (UI.add_and_set_main_widget self true
                 (store self (set_thread AtNext a) w)))
    | Broke | Exhausted => None
    end
  | _ => None
  end.

End AsyncScrollableListBox.

(** *** class MainListBox *)
Module MainListBox.

(** The body of the loop of [_assemble_initial_content]. *)
Definition line_of (o : docker_object) : option DockerImageColumns :=
  match o with
  | DockerImage image_id display_time_created names =>
    let image_id_w :=
      {| attr := u "image_id"; text := py_slice_to 12 image_id;
         align := u "left"; wrap := u "any" |} in
    let time :=
      {| attr := u "image_id"; text := display_time_created;
         align := u "left"; wrap := u "any" |} in
    let names_w :=
      {| attr := u "image_names";
         text := match names with
                 | Some s => if truthy s then s else u ""
                 | None => u ""
                 end;
         align := u "left"; wrap := u "clip" |} in
    Some {| docker_object_of := o;
            contents := [Given 13 image_id_w; Weighted names_w;
                         Weighted time] |}
  | DockerContainer container_id display_time_created name command status =>
    let container_id_w :=
      {| attr := u "image_id"; text := py_slice_to 12 container_id;
         align := u "left"; wrap := u "any" |} in
    let time :=
      {| attr := u "image_id"; text := display_time_created;
         align := u "left"; wrap := u "any" |} in
    let name_w :=
      {| attr := u "image_names"; text := name;
         align := u "left"; wrap := u "clip" |} in
    let command_w :=
      {| attr := u "image_names"; text := command;
         align := u "left"; wrap := u "clip" |} in
    let status_w :=
      {| attr := u "image_names"; text := status;
         align := u "left"; wrap := u "clip" |} in
    Some {| docker_object_of := o;
            contents := [Given 13 container_id_w; Weighted command_w;
                         Weighted time; Weighted status_w;
                         Weighted name_w] |}
  | OtherObject => None
  end.

Definition _assemble_initial_content {json} (d : DockerBackend json)
  : list AttrMap :=
  fold_left
    (fun widgets o =>
       widgets ++ [{| original_widget := line_of o;
                      attr_map := u "image_id";
                      focus_map := u "reversed" |}])
    (initial_content d) [].

(** [self.get_focus()[0].original_widget.docker_object]: the focus
    widget is [None] on an empty list, and [None] has no attributes. *)
Definition focus_docker_object (self : nat) : M docker_object :=
  h ← get heap;
  match h !! self with
  | Some (MainListBox body focus) =>
    match body !! focus with
    | Some row =>
      match original_widget row with
      | Some line => mret (docker_object_of line)
      | None => raise AttributeError
      end
    | None => raise AttributeError
    end
  | _ => raise AttributeError
  end.

(** A call to the backend: recorded, then answered or failed. *)
Definition call {A} (c : backend_call)
    (answer : list event -> exn + A) : M A :=
  t ← get trace;
  emit (Backend c) ;;
  match answer t with
  | inl e => raise e
  | inr a => mret a
  end.

(** [super(MainListBox, self).keypress(size, key)] *)
Definition super_keypress (env : Env) (self : nat) (size : nat * nat)
    (key : str) : M (option str) :=
  h ← get heap;
  match h !! self with
  | Some (MainListBox body focus) =>
    let '(focus', key') :=
      listbox_keypress env size key (length body) focus in
    modify (with_heap (<[self := MainListBox body focus']> h)) ;;
    mret key'
  | _ => raise AttributeError
  end.

Definition keypress (env : Env) (self : nat) (size : nat * nat)
    (key : str) : M (option str) :=
  emit (Log Debug (u "size %r, key %r")) ;;
  if bool_decide (key = u "i") then
    docker_object ← focus_docker_object self;
    inspect_data ←
      match docker_object with
      | DockerImage image_id _ _ =>
        call (InspectImage image_id)
          (fun t => inspect_image (d env) t image_id)
      | DockerContainer container_id _ _ _ _ =>
        call (InspectContainer container_id)
          (fun t => inspect_container (d env) t container_id)
      | OtherObject => raise (RuntimeError (u "wat"))
      end;
    let rendered_json := json_dumps env inspect_data in
    w ← ScrollableListBox.__init__ rendered_json;
    UI.add_and_set_main_widget w true ;;
    mret None
  else if bool_decide (key = u "l") then
    docker_object ← focus_docker_object self;
    match docker_object with
    | DockerContainer container_id _ _ _ _ =>
      '(logs_data, logs_generator) ←
        call (Logs container_id) (fun t => logs (d env) t container_id);
      w ← AsyncScrollableListBox.__init__ logs_data logs_generator;
      UI.add_and_set_main_widget w true
    | _ => mret tt
    end ;;
    mret None
  else
    super_keypress env self size key.

End MainListBox.

(** ** The running program *)

(** [UI.__init__]: the main list is built from the inventory, the frame
    shows a [SolidFill], no view is registered yet. *)
Definition UI__init__ (env : Env) : World :=
  {| main_list := 0;
     mainframe_body := 1;
     widgets := [];
     heap := [MainListBox (MainListBox._assemble_initial_content (d env)) 0;
              SolidFill];
     trace := [] |}.

(** [UI.run], up to the point where the loop of the toolkit starts. *)
Definition UI_run : M unit :=
  ml ← get main_list;
  UI.add_and_set_main_widget ml false.

(** What can happen next: the loop hands a key to the main list or to
    [unhandled_input], or one of the streaming threads moves.  A call
    that raises leaves the world as it was when it raised.  A handler
    runs as one step; a thread is cut between any two of its
    statements, so that its test of the flag and its append are two
    steps with anything in between. *)
Inductive step (env : Env) : World -> World -> Prop :=
| step_keypress self size key w :
    step env w (world_of (MainListBox.keypress env self size key w))
| step_unhandled_input key w :
    step env w (world_of (UI.unhandled_input key w))
| step_fetch_logs self w w' :
    AsyncScrollableListBox.fetch_logs_step self w = Some w' ->
    step env w w'.

(** The worlds the program can be in once it runs. *)
Definition reachable (env : Env) (w : World) : Prop :=
  rtc (step env) (world_of (UI_run (UI__init__ env))) w.

(** [n] steps of the thread of [self], nothing else moving. *)
Fixpoint run_thread (n : nat) (self : nat) (w : World) : World :=
  match n with
  | O => w
  | S n' =>
    match AsyncScrollableListBox.fetch_logs_step self w with
    | Some w' => run_thread n' self w'
    | None => w
    end
  end.

(** ** Observations *)

(** The calls made to the backend, in order. *)
Definition backend_calls (t : list event) : list backend_call :=
  omap (fun e => match e with Backend c => Some c | _ => None end) t.

(** The full identifier of an image or a container. *)
Definition identifier (o : docker_object) : option str :=
  match o with
  | DockerImage image_id _ _ => Some image_id
  | DockerContainer container_id _ _ _ _ => Some container_id
  | OtherObject => None
  end.

(** The text of the first column of a row, where the identifier is
    shown. *)
Definition shown_identifier (line : DockerImageColumns) : option str :=
  match contents line with
  | Given _ t :: _ => Some (text t)
  | Weighted t :: _ => Some (text t)
  | [] => None
  end.

(** The backend call that inspecting an object makes, and the one that
    asking for its logs makes. *)
Definition inspect_call (o : docker_object) : list backend_call :=
  match o with
  | DockerImage image_id _ _ => [InspectImage image_id]
  | DockerContainer container_id _ _ _ _ => [InspectContainer container_id]
  | OtherObject => []
  end.

Definition logs_call (o : docker_object) : list backend_call :=
  match o with
  | DockerContainer container_id _ _ _ _ => [Logs container_id]
  | _ => []
  end.

(** What the backend answers when the object is inspected after the
    events [t]. *)
Definition inspect_answer (env : Env) (t : list event) (o : docker_object)
  : option (exn + json env) :=
  match o with
  | DockerImage image_id _ _ => Some (inspect_image (d env) t image_id)
  | DockerContainer container_id _ _ _ _ =>
    Some (inspect_container (d env) t container_id)
  | OtherObject => None
  end.

(** The first [n] lines of a generator. *)
Definition yielded (g : nat -> option str) (n : nat) : list str :=
  omap g (seq 0 n).

(** How many of the lines it has taken the thread has appended: all of
    them, but for the one it still holds or has dropped. *)
Definition appended (a : AsyncScrollableListBox) : nat :=
  match thread a with
  | AtCheck _ | AtAppend _ | Broke => consumed a - 1
  | _ => consumed a
  end.

(** The non-empty trimmed lines of a block of text. *)
Definition initial_lines (decoded : str) : list str :=
  List.filter truthy (strip <$> split_newline decoded).

(** The buffer of a box is its initial lines followed by the lines its
    thread has appended, which are the first lines of its generator,
    trimmed, in the order the generator gave them; and the thread
    stands where its count of lines says. *)
Definition streams_in_order (a : AsyncScrollableListBox) : Prop :=
  walker a
  = log_texts a
      ++ (line_text <$> (strip <$> yielded (generator a) (appended a)))
  /\ (forall i, (i < consumed a)%nat -> is_Some (generator a i))
  /\ match thread a with
     | AtCheck line | AtAppend line =>
       exists n, consumed a = S n /\ generator a n = Some line
     | Broke => consumed a ≠ 0%nat
     | Exhausted => generator a (consumed a) = None
     | _ => True
     end.

(** What a step of its thread makes of a box. *)
Definition box_step (a : AsyncScrollableListBox)
  : option AsyncScrollableListBox :=
  match thread a with
  | AtNext =>
    match generator a (consumed a) with
    | Some line =>
      Some (set_thread (AtCheck line) (set_consumed (S (consumed a)) a))
    | None => Some (set_thread Exhausted a)
    end
  | AtCheck line =>
    if stop a then Some (set_thread Broke a)
    else Some (set_thread (AtAppend line) a)
  | AtAppend line =>
    Some (set_thread AtSetFocus
            (set_walker (walker a ++ [line_text (strip line)]) a))
  | AtSetFocus =>
    Some (set_thread AtNotify (set_walker_focus (length (walker a) - 1) a))
  | AtNotify => Some (set_thread AtNext a)
  | Broke | Exhausted => None
  end.

(** The line a thread is about to append, if it is past the check. *)
Definition pending (a : AsyncScrollableListBox) : list Text :=
  match thread a with
  | AtAppend line => [line_text (strip line)]
  | _ => []
  end.

(** How many more lines a thread can take once the flag is set: none
    when it holds one or has ended, one otherwise. *)
Definition budget (a : AsyncScrollableListBox) : nat :=
  match thread a with
  | AtCheck _ | Broke | Exhausted => 0
  | _ => 1
  end.

(** Once its flag is set a box winds down: the flag stays set, nothing
    is appended but a line that was already past the check, a line is
    taken only out of the budget, the thread does not get past the
    check again, and a thread that has left the loop leaves the box as
    it is. *)
Definition winds_down (a a' : AsyncScrollableListBox) : Prop :=
  stop a' = true
  /\ walker a' ++ pending a' = walker a ++ pending a
  /\ (consumed a <= consumed a' <= consumed a + budget a - budget a')%nat
  /\ (budget a' <= budget a)%nat
  /\ (pending a = [] -> pending a' = [])
  /\ (thread a = Broke -> a' = a).

(** A method keeps a relation between the world it starts in and the
    one it leaves, however it ends. *)
Definition preserves {A} (R : World -> World -> Prop) (m : M A) : Prop :=
  forall w, R w (world_of (m w)).

(** The streaming boxes of a world are those of an earlier one, some
    with their flag set since. *)
Definition boxes_kept (w w' : World) : Prop :=
  forall r a,
    heap w !! r = Some (AsyncBox a) ->
    heap w' !! r = Some (AsyncBox a)
    \/ heap w' !! r = Some (AsyncBox (set_stop a)).

(** The main list is the first view of the stack and the displayed
    view is on the stack. *)
Definition stack_ok (w : World) : Prop :=
  widgets w !! 0%nat = Some (main_list w)
  /\ mainframe_body w ∈ widgets w.

(** A world keeps the stack in order if the earlier one had it so. *)
Definition stack_kept (w w' : World) : Prop := stack_ok w -> stack_ok w'.

(** ** Sample inputs *)

(** A generator that yields the given lines and ends. *)
Definition generator_of (lines : list str) : nat -> option str :=
  fun n => lines !! n.

Definition sample_image : docker_object :=
  DockerImage (u "abc123def4567890abc123def4567890") (u "2 days ago")
    (Some (u "x")).

Definition sample_container : docker_object :=
  DockerContainer (u "0123456789abcdef0123456789abcdef") (u "an hour ago")
    (u "web") (u "nginx") (u "Up 1 hour").

(** A backend that knows its images, fails to inspect containers, and
    has logs that start with two lines and then stream two more. *)
Definition sample_env : Env :=
  {| json := str;
     d := {| initial_content :=
               [sample_image; sample_container; OtherObject];
             inspect_image := fun _ _ => inr (u "{}");
             inspect_container :=
               fun _ _ => inl (BackendError (u "no such container"));
             logs := fun _ _ =>
               inr ([97; 10; 98; 10]%N,
                    generator_of [u "c"; u "d"]) |};
     json_dumps := fun s => s;
     listbox_keypress := fun _ key _ focus => (focus, Some key) |}.

(** The main list, an inspection view and a streaming view, the
    inspection view displayed. *)
Definition sample_stack : World :=
  {| main_list := 0;
     mainframe_body := 2;
     widgets := [0; 2; 3]%nat;
     heap := [MainListBox
                (MainListBox._assemble_initial_content (d sample_env)) 0;
              SolidFill;
              ScrollableListBox [line_text (u "{}")];
              AsyncBox
                {| log_texts := [line_text (u "a")];
                   walker := [line_text (u "a")];
                   walker_focus := 0; stop := false;
                   generator := generator_of [u "c"];
                   consumed := 0; thread := AtNext |}];
     trace := [] |}.

(** The main list alone, as [UI.run] leaves it, with the focus on the
    row of the given position. *)
Definition sample_started (focus : nat) : World :=
  {| main_list := 0;
     mainframe_body := 0;
     widgets := [0%nat];
     heap := [MainListBox
                (MainListBox._assemble_initial_content (d sample_env)) focus;
              SolidFill];
     trace := [Log Debug (u "adding new widget %r")] |}.

(** A main list whose only row is bound to an object that is neither
    an image nor a container. *)
Definition sample_other_row : World :=
  {| main_list := 0;
     mainframe_body := 0;
     widgets := [0%nat];
     heap := [MainListBox
                [{| original_widget :=
                      Some {| docker_object_of := OtherObject;
                              contents := [] |};
                    attr_map := u "image_id";
                    focus_map := u "reversed" |}] 0;
              SolidFill];
     trace := [] |}.

(** ** Further observations *)

(** A widget against the same widget earlier in a run: of the same
    class; the rows of a main list and the text of a static view as
    they were; a streaming view with its initial lines and generator
    as they were, its earlier buffer at the head of its buffer, no
    fewer lines taken, and its flag still set if it was. *)
Definition widget_kept (o o' : obj) : Prop :=
  match o, o' with
  | SolidFill, SolidFill => True
  | MainListBox body _, MainListBox body' _ => body' = body
  | ScrollableListBox body, ScrollableListBox body' => body' = body
  | AsyncBox a, AsyncBox a' =>
    log_texts a' = log_texts a
    /\ generator a' = generator a
    /\ walker a `prefix_of` walker a'
    /\ (consumed a <= consumed a')%nat
    /\ (stop a = true -> stop a' = true)
  | _, _ => False
  end.

(** Every widget of a world is still there, kept, in a later one, and
    the main list is the same widget. *)
Definition heap_kept (w w' : World) : Prop :=
  main_list w' = main_list w
  /\ forall r o,
      heap w !! r = Some o ->
      exists o', heap w' !! r = Some o' /\ widget_kept o o'.

(** A list box, as opposed to the filler of the empty frame. *)
Definition is_view (o : obj) : bool :=
  match o with SolidFill => false | _ => true end.


(** The stack of a later world holds views of the earlier stack only,
    in their order. *)
Definition stack_shrinks (w w' : World) : Prop :=
  widgets w' `sublist_of` widgets w.

(** The backend is not called between two worlds. *)
Definition backend_quiet (w w' : World) : Prop :=
  backend_calls (trace w') = backend_calls (trace w).

(** How many steps a thread whose flag is set can still take. *)
Definition steps_left (a : AsyncScrollableListBox) : nat :=
  match thread a with
  | Broke | Exhausted => 0
  | AtCheck _ => 1
  | AtNext => 2
  | AtNotify => 3
  | AtSetFocus => 4
  | AtAppend _ => 5
  end.

(** ** Further sample inputs *)

(** The sample backend, but with logs whose initial block is not
    UTF-8. *)
Definition sample_env_bad_logs : Env :=
  {| json := str;
     d := {| initial_content :=
               [sample_image; sample_container; OtherObject];
             inspect_image := fun _ _ => inr (u "{}");
             inspect_container :=
               fun _ _ => inl (BackendError (u "no such container"));
             logs := fun _ _ => inr ([255]%N, generator_of []) |};
     json_dumps := fun s => s;
     listbox_keypress := fun _ key _ focus => (focus, Some key) |}.

(** The sample stack with the streaming view displayed, its thread
    past the check with a line in hand. *)
Definition sample_in_flight : World :=
  {| main_list := 0;
     mainframe_body := 3;
     widgets := [0; 2; 3]%nat;
     heap := [MainListBox
                (MainListBox._assemble_initial_content (d sample_env)) 0;
              SolidFill;
              ScrollableListBox [line_text (u "{}")];
              AsyncBox
                {| log_texts := [line_text (u "a")];
                   walker := [line_text (u "a")];
                   walker_focus := 0; stop := false;
                   generator := generator_of [u " c "; u "d"];
                   consumed := 1; thread := AtAppend (u " c ") |}];
     trace := [] |}.

(** * Properties *)

(** ** Python lists and strings *)

Example split_newline_ab :
  split_newline (u "a
b
") = [u "a"; u "b"; u ""].
Proof. reflexivity. Qed.

Example strip_padded : strip (u "  a b 	") = u "a b".
Proof. reflexivity. Qed.

Example decode_euro : decode_utf8 [0xE2; 0x82; 0xAC]%N = Some [0x20AC%N].
Proof. reflexivity. Qed.

Example decode_overlong : decode_utf8 [0xC0; 0x80]%N = None.
Proof. reflexivity. Qed.

Section PyList.
Context {A : Type}.
Implicit Types (l : list A) (i : Z).

Lemma py_getitem_nonneg l i :
  0 <= i -> py_getitem l i = l !! Z.to_nat i.
Proof.
  intros Hi. unfold py_getitem.
  destruct (Z.leb_spec 0 i); [done | lia].
Qed.

Lemma py_getitem_past_end l i :
  Z.of_nat (length l) <= i -> py_getitem l i = None.
Proof.
  intros Hi. rewrite py_getitem_nonneg by lia.
  apply lookup_ge_None_2. lia.
Qed.

Lemma py_getitem_negative l i :
  - Z.of_nat (length l) <= i < 0 ->
  py_getitem l i = l !! Z.to_nat (Z.of_nat (length l) + i).
Proof.
  intros Hi. unfold py_getitem.
  destruct (Z.leb_spec 0 i); [lia |].
  destruct (Z.leb_spec (- Z.of_nat (length l)) i); [done | lia].
Qed.

Lemma py_getitem_before_start l i :
  i < - Z.of_nat (length l) -> py_getitem l i = None.
Proof.
  intros Hi. unfold py_getitem.
  destruct (Z.leb_spec 0 i); [lia |].
  destruct (Z.leb_spec (- Z.of_nat (length l)) i); [lia | done].
Qed.

Lemma py_getitem_elem_of l i x : py_getitem l i = Some x -> x ∈ l.
Proof.
  unfold py_getitem. intros H.
  destruct (0 <=? i); [by eapply list_elem_of_lookup_2 |].
  destruct (- Z.of_nat (length l) <=? i); [| done].
  by eapply list_elem_of_lookup_2.
Qed.
End PyList.

Lemma py_in_true x l : py_in x l = true <-> x ∈ l.
Proof.
  unfold py_in. rewrite existsb_exists. split.
  - intros (y & Hy & Heq). apply Nat.eqb_eq in Heq. subst y.
    by apply list_elem_of_In.
  - intros Hx. exists x. split; [by apply list_elem_of_In |].
    apply Nat.eqb_refl.
Qed.

Lemma py_in_app_same x l : py_in x (l ++ [x]) = true.
Proof.
  apply py_in_true, elem_of_app. right. by apply list_elem_of_singleton.
Qed.

Lemma py_remove_Some x l : x ∈ l -> is_Some (py_remove x l).
Proof.
  induction l as [| y l IH]; intros Hx; [by apply elem_of_nil in Hx |].
  simpl. destruct (Nat.eqb_spec y x) as [-> | Hne]; [by eexists |].
  apply elem_of_cons in Hx as [-> | Hx]; [done |].
  destruct (IH Hx) as [l' ->]. by eexists.
Qed.

Lemma py_remove_elem_of x l l' : py_remove x l = Some l' -> x ∈ l.
Proof.
  revert l'. induction l as [| y l IH]; intros l'; simpl; [done |].
  destruct (Nat.eqb_spec y x) as [-> | Hne]; [intros _; by left |].
  destruct (py_remove x l) eqn:E; simpl; [| done].
  intros _. right. by eapply IH.
Qed.

Lemma py_remove_None x l : py_remove x l = None -> x ∉ l.
Proof.
  intros Hrm Hx. apply py_remove_Some in Hx as [l' Hl']. congruence.
Qed.

Lemma py_remove_length x l l' :
  py_remove x l = Some l' -> S (length l') = length l.
Proof.
  revert l'. induction l as [| y l IH]; intros l'; simpl; [done |].
  destruct (Nat.eqb y x); [by intros [= ->] |].
  destruct (py_remove x l) as [l0 |] eqn:E; simpl; [| done].
  intros [= <-]. simpl. f_equal. by apply IH.
Qed.

Lemma py_remove_other x y l l' :
  py_remove x l = Some l' -> y ≠ x -> y ∈ l -> y ∈ l'.
Proof.
  revert l'. induction l as [| z l IH]; intros l'; simpl; [done |].
  destruct (Nat.eqb_spec z x) as [-> | Hne].
  - intros [= ->] Hy Hin. apply elem_of_cons in Hin as [-> | Hin]; done.
  - destruct (py_remove x l) as [l0 |] eqn:E; simpl; [| done].
    intros [= <-] Hy Hin. apply elem_of_cons in Hin as [-> | Hin].
    + by left.
    + right. by apply IH.
Qed.

Lemma py_remove_head x y l l' :
  py_remove x (y :: l) = Some l' -> y ≠ x -> l' !! 0%nat = Some y.
Proof.
  simpl. destruct (Nat.eqb_spec y x) as [-> | Hne]; [done |].
  destruct (py_remove x l); simpl; [| done]. by intros [= <-].
Qed.

Lemma py_index_lookup x l i :
  NoDup l -> l !! i = Some x -> py_index x l = Some i.
Proof.
  intros Hnd. revert i. induction Hnd as [| y l Hy Hnd IH]; intros i; [done |].
  destruct i as [| i]; simpl.
  - intros [= ->]. by rewrite Nat.eqb_refl.
  - intros Hi. destruct (Nat.eqb_spec y x) as [-> | Hne].
    + exfalso. apply Hy. by eapply list_elem_of_lookup_2.
    + by rewrite (IH _ Hi).
Qed.

(** ** The view stack *)

Ltac unfold_m :=
  unfold mbind, M_bind, mret, M_ret, get, modify, emit, raise,
    try_except_IndexError.

Lemma _set_main_widget_redraw x w :
  UI._set_main_widget x true w
  = Return tt (with_trace (trace w ++ [DrawScreen]) (with_body x w)).
Proof. reflexivity. Qed.

(** What [pick_main_widget] does on a stack that does not hold exactly
    one view: the view at [i] when there is one, the first view
    otherwise, and [IndexError] out of the handler on an empty stack. *)
Lemma pick_main_widget_unfold i w :
  length (widgets w) ≠ 1%nat ->
  UI.pick_main_widget i w =
  match py_getitem (widgets w) i with
  | Some x => Return tt (with_trace (trace w ++ [DrawScreen]) (with_body x w))
  | None =>
    match widgets w !! 0%nat with
    | Some x =>
      Return tt (with_trace (trace w ++ [DrawScreen]) (with_body x w))
    | None => Raise IndexError w
    end
  end.
Proof.
  intros Hlen. unfold UI.pick_main_widget, UI.widgets_getitem. unfold_m.
  destruct (Nat.eqb_spec (length (widgets w)) 1); [done |].
  destruct (py_getitem (widgets w) i) as [x |] eqn:Hi; [done |].
  simpl. unfold py_getitem. simpl.
  destruct (widgets w) as [| y ws]; done.
Qed.

Lemma current_widget_index_at (w : World) (i : nat) :
  NoDup (widgets w) ->
  widgets w !! i = Some (mainframe_body w) ->
  UI.current_widget_index w = Return i w.
Proof.
  intros Hnd Hi. unfold UI.current_widget_index, UI.current_widget. unfold_m.
  by rewrite (py_index_lookup _ _ _ Hnd Hi).
Qed.

(** C1: on a stack of [N > 1] views, [show(N)] displays the view at
    index 0 and [show(-1)] displays the view at index [N - 1]; the
    stack itself is untouched, and where no view is registered twice
    the index of the displayed view is 0, respectively [N - 1]. *)
Theorem show_wraps_both_ways (w : World) :
  (1 < length (widgets w))%nat ->
  (exists w',
      UI.pick_main_widget (Z.of_nat (length (widgets w))) w = Return tt w'
      /\ widgets w' = widgets w
      /\ widgets w !! 0%nat = Some (mainframe_body w')
      /\ (NoDup (widgets w) ->
          UI.current_widget_index w' = Return 0%nat w'))
  /\ (exists w',
      UI.pick_main_widget (-1) w = Return tt w'
      /\ widgets w' = widgets w
      /\ widgets w !! (length (widgets w) - 1)%nat = Some (mainframe_body w')
      /\ (NoDup (widgets w) ->
          UI.current_widget_index w'
          = Return (length (widgets w) - 1)%nat w')).
Proof.
  intros HN. split.
  - rewrite pick_main_widget_unfold by lia.
    rewrite py_getitem_past_end by lia.
    destruct (widgets w !! 0%nat) as [x |] eqn:H0.
    + eexists. split; [done |]. split; [done |]. split; [done |].
      intros Hnd. by apply current_widget_index_at.
    + apply lookup_ge_None in H0. lia.
  - rewrite pick_main_widget_unfold by lia.
    rewrite py_getitem_negative by lia.
    replace (Z.to_nat (Z.of_nat (length (widgets w)) + -1))
      with (length (widgets w) - 1)%nat by lia.
    destruct (widgets w !! (length (widgets w) - 1)%nat) as [x |] eqn:Hl.
    + eexists. split; [done |]. split; [done |]. split; [done |].
      intros Hnd. by apply current_widget_index_at.
    + apply lookup_ge_None in Hl. lia.
Qed.

(** C10: on a stack of [N > 1] views, [show(i)] for [-N <= i <= -1]
    displays the view at index [N + i]; for [i >= N] and for [i < -N]
    it displays the view at index 0, and for no other [i]: for
    [0 <= i < N] it displays the view at index [i]. *)
Theorem show_negative_counts_from_end (w : World) (i : Z) :
  (1 < length (widgets w))%nat ->
  exists w',
    UI.pick_main_widget i w = Return tt w'
    /\ widgets w' = widgets w
    /\ (- Z.of_nat (length (widgets w)) <= i <= -1 ->
        widgets w !! Z.to_nat (Z.of_nat (length (widgets w)) + i)
        = Some (mainframe_body w'))
    /\ (Z.of_nat (length (widgets w)) <= i
        \/ i < - Z.of_nat (length (widgets w)) ->
        widgets w !! 0%nat = Some (mainframe_body w'))
    /\ (0 <= i < Z.of_nat (length (widgets w)) ->
        widgets w !! Z.to_nat i = Some (mainframe_body w')).
Proof.
  intros HN. rewrite pick_main_widget_unfold by lia.
  destruct (widgets w !! 0%nat) as [x0 |] eqn:H0;
    [| apply lookup_ge_None in H0; lia].
  destruct (py_getitem (widgets w) i) as [x |] eqn:Hi.
  - eexists. split; [done |]. split; [done |]. split; [| split].
    + intros Hr. by rewrite <- py_getitem_negative by lia.
    + intros [Hr | Hr].
      * rewrite py_getitem_past_end in Hi by lia. done.
      * rewrite py_getitem_before_start in Hi by lia. done.
    + intros Hr. by rewrite <- py_getitem_nonneg by lia.
  - eexists. split; [done |]. split; [done |]. split; [| split].
    + intros Hr. rewrite py_getitem_negative in Hi by lia.
      apply lookup_ge_None in Hi. lia.
    + done.
    + intros Hr. rewrite py_getitem_nonneg in Hi by lia.
      apply lookup_ge_None in Hi. lia.
Qed.

Lemma show_wraps_both_ways_witness :
  (1 < length (widgets sample_stack))%nat
  /\ (exists w',
        UI.pick_main_widget 3 sample_stack = Return tt w'
        /\ Some 0%nat = Some (mainframe_body w'))
  /\ (exists w',
        UI.pick_main_widget (-1) sample_stack = Return tt w'
        /\ Some 3%nat = Some (mainframe_body w')).
Proof.
  assert (Hlen : (1 < length (widgets sample_stack))%nat) by (simpl; lia).
  split; [exact Hlen |].
  destruct (show_wraps_both_ways sample_stack Hlen)
    as [(w1 & H1 & _ & B1 & _) (w2 & H2 & _ & B2 & _)].
  split; [exists w1 | exists w2]; split; assumption.
Defined.

Lemma show_negative_counts_from_end_witness :
  (1 < length (widgets sample_stack))%nat
  /\ exists w',
      UI.pick_main_widget (-2) sample_stack = Return tt w'
      /\ mainframe_body w' = 2%nat.
Proof.
  assert (Hlen : (1 < length (widgets sample_stack))%nat) by (simpl; lia).
  split; [exact Hlen |].
  destruct (show_negative_counts_from_end sample_stack (-2) Hlen)
    as (w' & Hrun & _ & Hneg & _ & _).
  exists w'. split; [exact Hrun |].
  assert (Hi : - Z.of_nat (length (widgets sample_stack)) <= -2 <= -1)
    by (simpl; lia).
  specialize (Hneg Hi). simpl in Hneg. congruence.
Defined.

Lemma remove_current_widget_on_main_list (w : World) :
  mainframe_body w = main_list w ->
  UI.remove_current_widget w
  = Return tt
      (with_trace
         (trace w ++ [Log Warning (u "you can't remove main list widget")])
         w).
Proof.
  intros Hcur. unfold UI.remove_current_widget, UI.current_widget. unfold_m.
  by rewrite Hcur, Nat.eqb_refl.
Qed.

(** C2: when the displayed view is the main list, [removeCurrent()]
    returns normally, reports one warning, and changes neither the
    stack nor the displayed view nor any widget. *)
Theorem remove_refused_on_main_list (w : World) :
  mainframe_body w = main_list w ->
  exists w',
    UI.remove_current_widget w = Return tt w'
    /\ widgets w' = widgets w
    /\ mainframe_body w' = mainframe_body w
    /\ main_list w' = main_list w
    /\ heap w' = heap w
    /\ trace w'
       = trace w ++ [Log Warning (u "you can't remove main list widget")]
    /\ mainframe_body w' = main_list w'.
Proof.
  intros Hcur. rewrite remove_current_widget_on_main_list by done.
  eexists. split; [done |]. by simpl.
Qed.

Lemma remove_refused_on_main_list_witness :
  mainframe_body (with_body 0%nat sample_stack)
  = main_list (with_body 0%nat sample_stack)
  /\ exists w',
      UI.remove_current_widget (with_body 0%nat sample_stack) = Return tt w'
      /\ widgets w' = [0; 2; 3]%nat
      /\ mainframe_body w' = 0%nat.
Proof.
  split; [reflexivity |].
  destruct (remove_refused_on_main_list (with_body 0%nat sample_stack)
              eq_refl) as (w' & Hrun & Hws & Hbody & _).
  exists w'. split; [exact Hrun |]. split; [exact Hws | exact Hbody].
Defined.

(** When the displayed view is not registered, [widgets.remove] raises
    and nothing has changed. *)
Lemma remove_current_widget_unregistered (w : World) :
  mainframe_body w ≠ main_list w ->
  mainframe_body w ∉ widgets w ->
  UI.remove_current_widget w = Raise ValueError w.
Proof.
  intros Hcur Hout. unfold UI.remove_current_widget, UI.current_widget.
  unfold_m. destruct (Nat.eqb_spec (mainframe_body w) (main_list w)); [done |].
  destruct (py_remove (mainframe_body w) (widgets w)) as [ws |] eqn:Hrm;
    [| done].
  exfalso. apply Hout. by eapply py_remove_elem_of.
Qed.

(** What [remove_current_widget] does once [widgets.remove] has gone
    through: the flag of a streaming box is set, and the main list is
    displayed and drawn. *)
Lemma remove_current_widget_on_other_view (w : World) (ws : list nat) :
  mainframe_body w ≠ main_list w ->
  py_remove (mainframe_body w) (widgets w) = Some ws ->
  UI.remove_current_widget w
  = Return tt
      (match heap w !! mainframe_body w with
       | Some (AsyncBox a) =>
         {| main_list := main_list w;
            mainframe_body := main_list w;
            widgets := ws;
            heap := <[mainframe_body w := AsyncBox (set_stop a)]> (heap w);
            trace := trace w ++ [Destroy (mainframe_body w); DrawScreen] |}
       | _ =>
         {| main_list := main_list w;
            mainframe_body := main_list w;
            widgets := ws;
            heap := heap w;
            trace := trace w ++ [DrawScreen] |}
       end).
Proof.
  intros Hcur Hrm. unfold UI.remove_current_widget, UI.current_widget.
  unfold_m. destruct (Nat.eqb_spec (mainframe_body w) (main_list w)); [done |].
  rewrite Hrm. simpl. unfold UI.getattr_destroy. unfold_m. simpl.
  destruct (heap w !! mainframe_body w) as [[| | | a] |] eqn:Hobj; simpl;
    try done.
  rewrite Hobj. unfold with_trace, with_body, with_heap. simpl.
  rewrite _set_main_widget_redraw. unfold with_trace, with_body. simpl.
  by rewrite <- app_assoc.
Qed.

(** C3: when the displayed view is a registered view other than the
    main list, [removeCurrent()] returns normally, the stack is the old
    one without the first occurrence of that view (one view fewer), the
    main list is displayed, and a view with a [destroy] method has it
    called exactly once, after which its flag is set, before the main
    list is drawn; a view without one has nothing called. *)
Theorem remove_current_on_other_view (w : World) :
  mainframe_body w ≠ main_list w ->
  mainframe_body w ∈ widgets w ->
  exists w',
    UI.remove_current_widget w = Return tt w'
    /\ S (length (widgets w')) = length (widgets w)
    /\ py_remove (mainframe_body w) (widgets w) = Some (widgets w')
    /\ mainframe_body w' = main_list w
    /\ main_list w' = main_list w
    /\ match heap w !! mainframe_body w with
       | Some (AsyncBox a) =>
         trace w' = trace w ++ [Destroy (mainframe_body w); DrawScreen]
         /\ heap w' !! mainframe_body w = Some (AsyncBox (set_stop a))
       | _ =>
         trace w' = trace w ++ [DrawScreen] /\ heap w' = heap w
       end.
Proof.
  intros Hcur Hin. destruct (py_remove_Some _ _ Hin) as [ws Hrm].
  rewrite (remove_current_widget_on_other_view w ws Hcur Hrm).
  eexists. split; [reflexivity |].
  destruct (heap w !! mainframe_body w) as [[| | | a] |] eqn:Hobj; simpl;
    (split; [by eapply py_remove_length |]); repeat split; try done.
  apply list_lookup_insert_eq. by eapply lookup_lt_Some.
Qed.

Lemma remove_current_on_other_view_witness :
  mainframe_body (with_body 3%nat sample_stack)
  ≠ main_list (with_body 3%nat sample_stack)
  /\ mainframe_body (with_body 3%nat sample_stack)
     ∈ widgets (with_body 3%nat sample_stack)
  /\ exists w',
      UI.remove_current_widget (with_body 3%nat sample_stack) = Return tt w'
      /\ Some [0; 2]%nat = Some (widgets w')
      /\ mainframe_body w' = 0%nat
      /\ trace w' = [Destroy 3%nat; DrawScreen].
Proof.
  assert (Hcur : mainframe_body (with_body 3%nat sample_stack)
                 ≠ main_list (with_body 3%nat sample_stack))
    by (simpl; lia).
  assert (Hin : mainframe_body (with_body 3%nat sample_stack)
                ∈ widgets (with_body 3%nat sample_stack))
    by (apply py_in_true; reflexivity).
  split; [exact Hcur |]. split; [exact Hin |].
  destruct (remove_current_on_other_view _ Hcur Hin)
    as (w' & Hrun & _ & Hws & Hbody & _ & Htrace & _).
  exists w'. split; [exact Hrun |]. split; [exact Hws |].
  split; [exact Hbody | exact Htrace].
Defined.

(** C4: [addAndShow(v)] always returns; after a first call [v] is
    displayed, and a second call leaves the stack as the first one left
    it, of the same length, with [v] still displayed. *)
Theorem add_and_show_twice (v : nat) (redraw1 redraw2 : bool) (w : World) :
  exists w1 w2,
    UI.add_and_set_main_widget v redraw1 w = Return tt w1
    /\ UI.add_and_set_main_widget v redraw2 w1 = Return tt w2
    /\ mainframe_body w1 = v
    /\ mainframe_body w2 = v
    /\ v ∈ widgets w1
    /\ widgets w2 = widgets w1
    /\ length (widgets w2) = length (widgets w1).
Proof.
  assert (Hadd : forall r w0, exists w0',
    UI.add_and_set_main_widget v r w0 = Return tt w0'
    /\ mainframe_body w0' = v
    /\ widgets w0' = (if py_in v (widgets w0) then widgets w0
                      else widgets w0 ++ [v])).
  { intros r w0. unfold UI.add_and_set_main_widget, UI._set_main_widget,
      UI.draw_screen. unfold_m.
    destruct (py_in v (widgets w0)); destruct r; simpl;
      eexists; (split; [done |]); by simpl. }
  destruct (Hadd redraw1 w) as (w1 & H1 & B1 & W1).
  destruct (Hadd redraw2 w1) as (w2 & H2 & B2 & W2).
  assert (Hin : py_in v (widgets w1) = true).
  { rewrite W1. destruct (py_in v (widgets w)) eqn:E; [done |].
    apply py_in_app_same. }
  rewrite Hin in W2.
  exists w1, w2. repeat split; try done.
  - by apply py_in_true.
  - by rewrite W2.
Qed.

(** ** The main list *)

Example sample_started_is_run :
  world_of (UI_run (UI__init__ sample_env)) = sample_started 0.
Proof. reflexivity. Qed.

Lemma backend_calls_app t1 t2 :
  backend_calls (t1 ++ t2) = backend_calls t1 ++ backend_calls t2.
Proof. apply omap_app. Qed.

Lemma _assemble_initial_content_rows {json} (d : DockerBackend json) :
  MainListBox._assemble_initial_content d
  = (fun o => {| original_widget := MainListBox.line_of o;
                 attr_map := u "image_id";
                 focus_map := u "reversed" |}) <$> initial_content d.
Proof.
  unfold MainListBox._assemble_initial_content.
  set (row := fun o => {| original_widget := MainListBox.line_of o;
                          attr_map := u "image_id";
                          focus_map := u "reversed" |}).
  enough (Hfold : forall os acc,
    fold_left (fun widgets o => widgets ++ [row o]) os acc
    = acc ++ (row <$> os)) by apply Hfold.
  induction os as [| o os IH]; intros acc; simpl.
  - by rewrite app_nil_r.
  - rewrite IH. by rewrite <- app_assoc.
Qed.

Lemma focus_docker_object_bound self w body focus row line :
  heap w !! self = Some (MainListBox body focus) ->
  body !! focus = Some row ->
  original_widget row = Some line ->
  MainListBox.focus_docker_object self w = Return (docker_object_of line) w.
Proof.
  intros Hself Hrow Hline. unfold MainListBox.focus_docker_object. unfold_m.
  by rewrite Hself, Hrow, Hline.
Qed.

Lemma focus_docker_object_unbound self w body focus row :
  heap w !! self = Some (MainListBox body focus) ->
  body !! focus = Some row ->
  original_widget row = None ->
  MainListBox.focus_docker_object self w = Raise AttributeError w.
Proof.
  intros Hself Hrow Hline. unfold MainListBox.focus_docker_object. unfold_m.
  by rewrite Hself, Hrow, Hline.
Qed.

(** C7: [i] on a row that is bound to neither an image nor a container
    raises and changes nothing but the debug log: [RuntimeError("wat")]
    when the row carries such an object, [AttributeError] when it
    carries none, which is how the list is built for such an object. *)
Theorem inspect_on_other_object_raises
    (env : Env) (self : nat) (size : nat * nat) (w : World)
    (body : list AttrMap) (focus : nat) (row : AttrMap) :
  heap w !! self = Some (MainListBox body focus) ->
  body !! focus = Some row ->
  (forall line,
      original_widget row = Some line -> docker_object_of line = OtherObject) ->
  exists e,
    MainListBox.keypress env self size (u "i") w
    = Raise e (with_trace (trace w ++ [Log Debug (u "size %r, key %r")]) w)
    /\ (is_Some (original_widget row) -> e = RuntimeError (u "wat"))
    /\ (original_widget row = None -> e = AttributeError).
Proof.
  intros Hself Hrow Hother. unfold MainListBox.keypress. unfold_m. simpl.
  destruct (original_widget row) as [line |] eqn:Hline.
  - erewrite focus_docker_object_bound by (simpl; eassumption).
    rewrite (Hother line eq_refl). eexists. split; [done |].
    split; [done | intros [=]].
  - erewrite focus_docker_object_unbound by (simpl; eassumption).
    eexists. split; [done |]. split; [intros [? [=]] | done].
Qed.

Lemma inspect_on_other_object_raises_witness :
  (exists e,
      MainListBox.keypress sample_env 0 (80, 24)%nat (u "i") sample_other_row
      = Raise e (with_trace [Log Debug (u "size %r, key %r")]
                   sample_other_row)
      /\ e = RuntimeError (u "wat"))
  /\ (exists e,
      MainListBox.keypress sample_env 0 (80, 24)%nat (u "i")
        (sample_started 2)
      = Raise e (with_trace [Log Debug (u "adding new widget %r");
                             Log Debug (u "size %r, key %r")]
                   (sample_started 2))
      /\ e = AttributeError).
Proof.
  split.
  - destruct (inspect_on_other_object_raises sample_env 0 (80, 24)%nat
                sample_other_row _ 0%nat _ eq_refl eq_refl)
      as (e & Hrun & Hsome & _).
    { simpl. by intros line [= <-]. }
    exists e. split; [exact Hrun |]. apply Hsome. by eexists.
  - destruct (inspect_on_other_object_raises sample_env 0 (80, 24)%nat
                (sample_started 2) _ 2%nat _ eq_refl eq_refl)
      as (e & Hrun & _ & Hnone).
    { simpl. by intros line [=]. }
    exists e. split; [exact Hrun |]. by apply Hnone.
Defined.

(** C8, as the code has it: when the backend fails to inspect the
    object of the focused row, [i] raises that very exception out of
    the key handler, after the debug log and the call; no view is
    built, nothing is drawn, and the stack, the displayed view and the
    widgets are as before. *)
Theorem inspect_backend_failure_propagates
    (env : Env) (self : nat) (size : nat * nat) (w : World)
    (body : list AttrMap) (focus : nat) (row : AttrMap)
    (line : DockerImageColumns) (e : exn) :
  heap w !! self = Some (MainListBox body focus) ->
  body !! focus = Some row ->
  original_widget row = Some line ->
  inspect_answer env (trace w ++ [Log Debug (u "size %r, key %r")])
    (docker_object_of line) = Some (inl e) ->
  MainListBox.keypress env self size (u "i") w
  = Raise e
      (with_trace
         (trace w ++ Log Debug (u "size %r, key %r")
            :: (Backend <$> inspect_call (docker_object_of line)))
         w).
Proof.
  intros Hself Hrow Hline Hans. unfold MainListBox.keypress. unfold_m. simpl.
  erewrite focus_docker_object_bound by (simpl; eassumption).
  unfold MainListBox.call. unfold_m.
  destruct (docker_object_of line) as [id t n | id t n c st |]; simpl in *;
    [| | done];
    injection Hans as Hans; rewrite Hans; simpl;
    unfold with_trace; simpl; by rewrite <- app_assoc.
Qed.

Lemma inspect_backend_failure_propagates_witness :
  MainListBox.keypress sample_env 0 (80, 24)%nat (u "i") (sample_started 1)
  = Raise (BackendError (u "no such container"))
      (with_trace
         [Log Debug (u "adding new widget %r");
          Log Debug (u "size %r, key %r");
          Backend (InspectContainer (u "0123456789abcdef0123456789abcdef"))]
         (sample_started 1)).
Proof.
  exact (inspect_backend_failure_propagates sample_env 0 (80, 24)%nat
           (sample_started 1) _ 1%nat _ _ _ eq_refl eq_refl eq_refl eq_refl).
Defined.

(** C8, as stated, fails: with a backend that cannot inspect the
    focused container, [i] does not return to the loop, and nothing
    was drawn for the user. *)
Lemma inspect_backend_failure_not_absorbed :
  inspect_answer sample_env
    [Log Debug (u "adding new widget %r"); Log Debug (u "size %r, key %r")]
    sample_container
  = Some (inl (BackendError (u "no such container")))
  /\ ~ (exists k w',
         MainListBox.keypress sample_env 0 (80, 24)%nat (u "i")
           (sample_started 1) = Return k w')
  /\ DrawScreen
     ∉ trace (world_of (MainListBox.keypress sample_env 0 (80, 24)%nat
                          (u "i") (sample_started 1))).
Proof.
  split; [reflexivity |]. split.
  - intros (k & w' & Hrun). vm_compute in Hrun. discriminate Hrun.
  - intros Hin. vm_compute in Hin.
    repeat (apply elem_of_cons in Hin as [Hin | Hin]; [discriminate Hin |]).
    by apply elem_of_nil in Hin.
Qed.

Lemma line_of_identifier (o : docker_object) (id : str) :
  identifier o = Some id ->
  exists line,
    MainListBox.line_of o = Some line
    /\ docker_object_of line = o
    /\ shown_identifier line = Some (py_slice_to 12 id).
Proof.
  destruct o as [i t n | i t n c st |]; simpl; intros [= <-];
    eexists; (split; [done |]); by simpl.
Qed.

(** The backend calls of [i]: the one that inspects the bound object,
    whatever the backend answers. *)
Lemma keypress_i_backend_calls
    (env : Env) (self : nat) (size : nat * nat) (w : World)
    (body : list AttrMap) (focus : nat) (row : AttrMap)
    (line : DockerImageColumns) :
  heap w !! self = Some (MainListBox body focus) ->
  body !! focus = Some row ->
  original_widget row = Some line ->
  backend_calls
    (trace (world_of (MainListBox.keypress env self size (u "i") w)))
  = backend_calls (trace w) ++ inspect_call (docker_object_of line).
Proof.
  intros Hself Hrow Hline. unfold MainListBox.keypress. unfold_m. simpl.
  erewrite focus_docker_object_bound by (simpl; eassumption).
  unfold MainListBox.call, ScrollableListBox.__init__, alloc,
    UI.add_and_set_main_widget, UI._set_main_widget, UI.draw_screen.
  unfold_m.
  destruct (docker_object_of line) as [id t n | id t n c st |]; simpl;
    [destruct (inspect_image _ _ _) | destruct (inspect_container _ _ _) |];
    simpl; try destruct (py_in _ _); simpl;
    rewrite ?backend_calls_app; simpl; by rewrite ?app_nil_r.
Qed.

(** The backend calls of [l]: the one that asks for the logs of the
    bound container, and none for anything else. *)
Lemma keypress_l_backend_calls
    (env : Env) (self : nat) (size : nat * nat) (w : World)
    (body : list AttrMap) (focus : nat) (row : AttrMap)
    (line : DockerImageColumns) :
  heap w !! self = Some (MainListBox body focus) ->
  body !! focus = Some row ->
  original_widget row = Some line ->
  backend_calls
    (trace (world_of (MainListBox.keypress env self size (u "l") w)))
  = backend_calls (trace w) ++ logs_call (docker_object_of line).
Proof.
  intros Hself Hrow Hline. unfold MainListBox.keypress. unfold_m. simpl.
  erewrite focus_docker_object_bound by (simpl; eassumption).
  unfold MainListBox.call, AsyncScrollableListBox.__init__, alloc,
    UI.add_and_set_main_widget, UI._set_main_widget, UI.draw_screen.
  unfold_m.
  destruct (docker_object_of line) as [id t n | id t n c st |]; simpl;
    [| destruct (logs _ _ _) as [e | [logs_data logs_generator]] |];
    simpl; try destruct (decode_utf8 _); simpl;
    try destruct (py_in _ _); simpl;
    rewrite ?backend_calls_app; simpl; by rewrite ?app_nil_r.
Qed.

(** C9: the row of an image or a container shows the first 12
    characters of its identifier, and the backend calls made from that
    row, by [i] and by [l], carry the identifier itself. *)
Theorem row_shows_short_id_calls_use_full_id
    (env : Env) (o : docker_object) (id : str) :
  identifier o = Some id ->
  exists line,
    MainListBox.line_of o = Some line
    /\ shown_identifier line = Some (take 12 id)
    /\ forall self size w body focus row,
        heap w !! self = Some (MainListBox body focus) ->
        body !! focus = Some row ->
        original_widget row = Some line ->
        backend_calls
          (trace (world_of (MainListBox.keypress env self size (u "i") w)))
        = backend_calls (trace w)
            ++ [match o with
                | DockerContainer _ _ _ _ _ => InspectContainer id
                | _ => InspectImage id
                end]
        /\ backend_calls
             (trace (world_of (MainListBox.keypress env self size (u "l") w)))
           = backend_calls (trace w)
               ++ match o with
                  | DockerContainer _ _ _ _ _ => [Logs id]
                  | _ => []
                  end.
Proof.
  intros Hid. destruct (line_of_identifier o id Hid) as (line & Hl & Ho & Hs).
  exists line. split; [done |]. split; [done |].
  intros self size w body focus row Hself Hrow Hline.
  erewrite keypress_i_backend_calls, keypress_l_backend_calls by eassumption.
  rewrite Ho. destruct o; simpl in *; by simplify_eq.
Qed.

Lemma row_shows_short_id_calls_use_full_id_witness :
  identifier sample_container
  = Some (u "0123456789abcdef0123456789abcdef")
  /\ exists line,
      MainListBox.line_of sample_container = Some line
      /\ shown_identifier line = Some (u "0123456789ab")
      /\ backend_calls
           (trace (world_of (MainListBox.keypress sample_env 0 (80, 24)%nat
                               (u "l") (sample_started 1))))
         = [Logs (u "0123456789abcdef0123456789abcdef")].
Proof.
  split; [reflexivity |].
  destruct (row_shows_short_id_calls_use_full_id sample_env sample_container
              _ eq_refl) as (line & Hline & Hshown & Hcalls).
  exists line. split; [exact Hline |]. split; [exact Hshown |].
  assert (Hrow : original_widget
                   {| original_widget := MainListBox.line_of sample_container;
                      attr_map := u "image_id";
                      focus_map := u "reversed" |} = Some line)
    by exact Hline.
  exact (proj2 (Hcalls 0%nat (80, 24)%nat (sample_started 1) _ 1%nat _
                  eq_refl eq_refl Hrow)).
Defined.

(** ** Methods that keep a relation *)

Section Preserves.
Context (R : World -> World -> Prop).
Context `{!Reflexive R} `{!Transitive R}.

Lemma preserves_ret {A} (a : A) : preserves R (mret a).
Proof. intros w. simpl. reflexivity. Qed.

Lemma preserves_raise {A} (e : exn) : preserves R (@raise A e).
Proof. intros w. simpl. reflexivity. Qed.

Lemma preserves_get {A} (f : World -> A) : preserves R (get f).
Proof. intros w. simpl. reflexivity. Qed.

Lemma preserves_modify (f : World -> World) :
  (forall w, R w (f w)) -> preserves R (modify f).
Proof. intros Hf w. simpl. apply Hf. Qed.

Lemma preserves_bind {A B} (m : M A) (f : A -> M B) :
  preserves R m -> (forall a, preserves R (f a)) -> preserves R (m ≫= f).
Proof.
  intros Hm Hf w. specialize (Hm w). unfold mbind, M_bind.
  destruct (m w) as [a w1 | e w1]; simpl in *; [| done].
  etrans; [exact Hm | apply Hf].
Qed.

Lemma preserves_try {A} (m h : M A) :
  preserves R m -> preserves R h -> preserves R (try_except_IndexError m h).
Proof.
  intros Hm Hh w. specialize (Hm w). unfold try_except_IndexError.
  destruct (m w) as [a w1 | [] w1]; simpl in *; try done.
  etrans; [exact Hm | apply Hh].
Qed.
End Preserves.

Create HintDb preserves.

Ltac preserves_go :=
  repeat match goal with
  | |- preserves _ (mbind _ _) =>
    eapply preserves_bind; [.. | intros ?]; try tc_solve
  | |- preserves _ (mret _) => apply preserves_ret; tc_solve
  | |- preserves _ (raise _) => apply preserves_raise; tc_solve
  | |- preserves _ (get _) => apply preserves_get; tc_solve
  | |- preserves _ (try_except_IndexError _ _) =>
    apply preserves_try; try tc_solve
  | |- preserves _ (if ?b then _ else _) => destruct b eqn:?
  | |- preserves _ (match ?x with _ => _ end) => destruct x eqn:?
  | |- preserves _ _ => solve [eauto with preserves]
  end.

(** *** The streaming boxes are kept *)

#[local] Instance boxes_kept_refl : Reflexive boxes_kept.
Proof. intros w r a Hr. by left. Qed.

#[local] Instance boxes_kept_trans : Transitive boxes_kept.
Proof.
  intros w1 w2 w3 H12 H23 r a Hr.
  destruct (H12 r a Hr) as [H2 | H2]; destruct (H23 _ _ H2) as [H3 | H3];
    auto.
Qed.

Lemma boxes_kept_same_heap (w w' : World) :
  heap w' = heap w -> boxes_kept w w'.
Proof. intros Hh r a Hr. left. by rewrite Hh. Qed.

Lemma emit_boxes_kept e : preserves boxes_kept (emit e).
Proof. intros w. by apply boxes_kept_same_heap. Qed.

Lemma with_body_boxes_kept x : preserves boxes_kept (modify (with_body x)).
Proof. intros w. by apply boxes_kept_same_heap. Qed.

Lemma with_widgets_boxes_kept (f : World -> list nat) :
  preserves boxes_kept (modify (fun w => with_widgets (f w) w)).
Proof. intros w. by apply boxes_kept_same_heap. Qed.

Lemma alloc_boxes_kept o : preserves boxes_kept (alloc o).
Proof.
  intros w r a Hr. left. simpl. rewrite lookup_app_l; [done |].
  by eapply lookup_lt_Some.
Qed.

Lemma destroy_boxes_kept self : preserves boxes_kept (UI.destroy self).
Proof.
  intros w r a Hr. unfold UI.destroy. unfold_m. simpl.
  destruct (heap w !! self) as [[| | | b] |] eqn:Hself; simpl; auto.
  destruct (decide (r = self)) as [-> | Hne].
  - right. rewrite list_lookup_insert_eq by by eapply lookup_lt_Some.
    congruence.
  - left. by rewrite list_lookup_insert_ne.
Qed.

Lemma draw_screen_boxes_kept : preserves boxes_kept UI.draw_screen.
Proof. apply emit_boxes_kept. Qed.

#[local] Hint Resolve emit_boxes_kept with_body_boxes_kept
  with_widgets_boxes_kept alloc_boxes_kept destroy_boxes_kept
  draw_screen_boxes_kept : preserves.

Lemma _set_main_widget_boxes_kept x redraw :
  preserves boxes_kept (UI._set_main_widget x redraw).
Proof. unfold UI._set_main_widget. preserves_go. Qed.

#[local] Hint Resolve _set_main_widget_boxes_kept : preserves.

Lemma add_and_set_main_widget_boxes_kept x redraw :
  preserves boxes_kept (UI.add_and_set_main_widget x redraw).
Proof.
  unfold UI.add_and_set_main_widget. preserves_go.
Qed.

Lemma pick_main_widget_boxes_kept i :
  preserves boxes_kept (UI.pick_main_widget i).
Proof. unfold UI.pick_main_widget, UI.widgets_getitem. preserves_go. Qed.

Lemma current_widget_index_boxes_kept :
  preserves boxes_kept UI.current_widget_index.
Proof. unfold UI.current_widget_index, UI.current_widget. preserves_go. Qed.

Lemma remove_current_widget_boxes_kept :
  preserves boxes_kept UI.remove_current_widget.
Proof.
  intros w. unfold UI.remove_current_widget, UI.current_widget. unfold_m.
  destruct (mainframe_body w =? main_list w)%nat; simpl;
    [by apply boxes_kept_same_heap |].
  destruct (py_remove (mainframe_body w) (widgets w)) as [ws |]; simpl;
    [| reflexivity].
  unfold UI.getattr_destroy. unfold_m. simpl.
  destruct (heap w !! mainframe_body w) as [[| | | b] |] eqn:Hobj; simpl;
    try by apply boxes_kept_same_heap.
  rewrite Hobj. simpl. intros r a Hr. simpl.
  destruct (decide (r = mainframe_body w)) as [-> | Hne].
  - right. rewrite list_lookup_insert_eq by by eapply lookup_lt_Some.
    congruence.
  - left. by rewrite list_lookup_insert_ne.
Qed.

#[local] Hint Resolve add_and_set_main_widget_boxes_kept
  pick_main_widget_boxes_kept current_widget_index_boxes_kept
  remove_current_widget_boxes_kept : preserves.

Lemma unhandled_input_boxes_kept key :
  preserves boxes_kept (UI.unhandled_input key).
Proof. unfold UI.unhandled_input. preserves_go. Qed.

Lemma focus_docker_object_boxes_kept self :
  preserves boxes_kept (MainListBox.focus_docker_object self).
Proof. unfold MainListBox.focus_docker_object. preserves_go. Qed.

Lemma call_boxes_kept {A} c (answer : list event -> exn + A) :
  preserves boxes_kept (MainListBox.call c answer).
Proof. unfold MainListBox.call. preserves_go. Qed.

Lemma super_keypress_boxes_kept env self size key :
  preserves boxes_kept (MainListBox.super_keypress env self size key).
Proof.
  intros w. unfold MainListBox.super_keypress. unfold_m.
  destruct (heap w !! self) as [[| body focus | |] |] eqn:Hself; simpl;
    try reflexivity.
  destruct (listbox_keypress env size key (length body) focus)
    as [focus' key']. simpl.
  intros r a Hr. left. simpl.
  rewrite list_lookup_insert_ne; [done | congruence].
Qed.

Lemma ScrollableListBox_init_boxes_kept text :
  preserves boxes_kept (ScrollableListBox.__init__ text).
Proof. unfold ScrollableListBox.__init__. preserves_go. Qed.

Lemma AsyncScrollableListBox_init_boxes_kept static_data generator :
  preserves boxes_kept
    (AsyncScrollableListBox.__init__ static_data generator).
Proof. unfold AsyncScrollableListBox.__init__. preserves_go. Qed.

#[local] Hint Resolve focus_docker_object_boxes_kept call_boxes_kept
  super_keypress_boxes_kept ScrollableListBox_init_boxes_kept
  AsyncScrollableListBox_init_boxes_kept : preserves.

Lemma keypress_boxes_kept env self size key :
  preserves boxes_kept (MainListBox.keypress env self size key).
Proof. unfold MainListBox.keypress. preserves_go. Qed.

(** *** One step, seen from a streaming box *)

Lemma add_and_set_main_widget_heap x redraw w :
  heap (world_of (UI.add_and_set_main_widget x redraw w)) = heap w.
Proof.
  unfold UI.add_and_set_main_widget, UI._set_main_widget, UI.draw_screen.
  unfold_m. destruct (py_in x (widgets w)), redraw; reflexivity.
Qed.

(** A step of a thread is a step of its box and touches no other
    widget. *)
Lemma fetch_logs_step_heap self w w' :
  AsyncScrollableListBox.fetch_logs_step self w = Some w' ->
  exists a a',
    heap w !! self = Some (AsyncBox a)
    /\ box_step a = Some a'
    /\ heap w' = <[self := AsyncBox a']> (heap w).
Proof.
  unfold AsyncScrollableListBox.fetch_logs_step, box_step.
  destruct (heap w !! self) as [[| | | a] |] eqn:Hself; try done.
  intros Hstep. exists a.
  destruct (thread a) as [| line | line | | | |]; try done.
  - destruct (generator a (consumed a)); injection Hstep as <-;
      eexists; done.
  - destruct (stop a); injection Hstep as <-; eexists; done.
  - injection Hstep as <-. eexists; done.
  - injection Hstep as <-. eexists; done.
  - injection Hstep as <-. eexists. split; [done |]. split; [done |].
    by rewrite add_and_set_main_widget_heap.
Qed.

(** Whatever happens next, a streaming box stays where it is, and it
    is left alone, or its flag is set, or its thread moves. *)
Lemma step_box env w w' r a :
  step env w w' ->
  heap w !! r = Some (AsyncBox a) ->
  exists a',
    heap w' !! r = Some (AsyncBox a')
    /\ (a' = a \/ a' = set_stop a \/ box_step a = Some a').
Proof.
  intros Hstep Hr. destruct Hstep as [self size key w | key w | self w w' Hth].
  - destruct (keypress_boxes_kept env self size key w r a Hr) as [H | H];
      eauto.
  - destruct (unhandled_input_boxes_kept key w r a Hr) as [H | H]; eauto.
  - destruct (fetch_logs_step_heap _ _ _ Hth) as (b & b' & Hb & Hbs & Hh).
    rewrite Hh. destruct (decide (r = self)) as [-> | Hne].
    + rewrite list_lookup_insert_eq by by eapply lookup_lt_Some.
      exists b'. split; [done |]. right; right. congruence.
    + rewrite list_lookup_insert_ne by done. eauto.
Qed.

(** ** Cancellation *)

Lemma set_stop_stopped a : stop a = true -> set_stop a = a.
Proof. destruct a. simpl. by intros ->. Qed.

Lemma winds_down_refl a : stop a = true -> winds_down a a.
Proof. intros Hs. repeat split; auto; lia. Qed.

Lemma winds_down_trans a1 a2 a3 :
  winds_down a1 a2 -> winds_down a2 a3 -> winds_down a1 a3.
Proof.
  intros (S2 & W2 & C2 & G2 & P2 & B2) (S3 & W3 & C3 & G3 & P3 & B3).
  repeat split; auto; try lia.
  - by rewrite W3.
  - intros Hb. specialize (B2 Hb). subst a2. auto.
Qed.

(** With the flag set, a step of the thread appends only a line that
    was past the check, and takes a line only while none is held. *)
Lemma box_step_winds_down a a' :
  stop a = true -> box_step a = Some a' -> winds_down a a'.
Proof.
  intros Hs. unfold box_step, winds_down, pending, budget.
  destruct a as [lt wk wf st g c pc]. simpl in *. subst st.
  destruct pc as [| line | line | | | |]; simpl; try done;
    try destruct (g c); intros [= <-]; simpl; rewrite ?app_nil_r;
    repeat split; auto; try lia; done.
Qed.

Lemma step_winds_down env w w' r a :
  step env w w' ->
  heap w !! r = Some (AsyncBox a) ->
  stop a = true ->
  exists a', heap w' !! r = Some (AsyncBox a') /\ winds_down a a'.
Proof.
  intros Hstep Hr Hs.
  destruct (step_box env w w' r a Hstep Hr) as (a' & Hr' & [-> | [-> | Hb]]).
  - exists a. split; [done |]. by apply winds_down_refl.
  - exists (set_stop a). split; [done |]. rewrite set_stop_stopped by done.
    by apply winds_down_refl.
  - exists a'. split; [done |]. by apply box_step_winds_down.
Qed.

Lemma steps_wind_down env w w' r a :
  rtc (step env) w w' ->
  heap w !! r = Some (AsyncBox a) ->
  stop a = true ->
  exists a', heap w' !! r = Some (AsyncBox a') /\ winds_down a a'.
Proof.
  intros Hsteps. revert a.
  induction Hsteps as [w | w w1 w' Hstep Hsteps IH]; intros a Hr Hs.
  - exists a. split; [done |]. by apply winds_down_refl.
  - destruct (step_winds_down env w w1 r a Hstep Hr Hs) as (a1 & Hr1 & H1).
    destruct (IH a1 Hr1 (proj1 H1)) as (a' & Hr' & H').
    exists a'. split; [done |]. by eapply winds_down_trans.
Qed.

(** The flag is tested before every append: a thread gets to append a
    line only by a step that tested the flag with that line in hand
    and found it clear, and only such a thread changes the buffer. *)
Lemma append_only_after_clear_check self w w' a a' :
  AsyncScrollableListBox.fetch_logs_step self w = Some w' ->
  heap w !! self = Some (AsyncBox a) ->
  heap w' !! self = Some (AsyncBox a') ->
  (forall line,
      thread a' = AtAppend line -> thread a = AtCheck line /\ stop a = false)
  /\ (walker a' ≠ walker a ->
      exists line,
        thread a = AtAppend line
        /\ walker a' = walker a ++ [line_text (strip line)]).
Proof.
  intros Hstep Ha Ha'.
  destruct (fetch_logs_step_heap _ _ _ Hstep) as (b & b' & Hb & Hbs & Hh).
  rewrite Hh, list_lookup_insert_eq in Ha' by by eapply lookup_lt_Some.
  assert (b = a) as -> by congruence. assert (b' = a') as -> by congruence.
  clear Hstep Ha Ha' Hb Hh. unfold box_step in Hbs.
  destruct a as [lt wk wf st g c pc]. simpl in *.
  destruct pc as [| line | line | | | |]; simpl in *; try done.
  - destruct (g c); injection Hbs as <-; simpl; split; done.
  - destruct st; injection Hbs as <-; simpl; split; try done.
    by intros l [= ->].
  - injection Hbs as <-; simpl. split; [done |]. intros _. by exists line.
  - injection Hbs as <-; simpl; split; done.
  - injection Hbs as <-; simpl; split; done.
Qed.

Lemma destroy_sets_stop r w a :
  heap w !! r = Some (AsyncBox a) ->
  heap (world_of (UI.destroy r w)) !! r = Some (AsyncBox (set_stop a)).
Proof.
  intros Hr. unfold UI.destroy. unfold_m. simpl. rewrite Hr. simpl.
  apply list_lookup_insert_eq. by eapply lookup_lt_Some.
Qed.

(** C6: after [destroy()] has set the flag of a streaming view,
    whatever the program does next, the flag stays set; a thread that
    has seen it and left the loop changes nothing any more; a thread
    that was not already past its check appends nothing, and takes at
    most one more line, none if it already holds one; a thread that was
    past its check with a line appends that line at most, and nothing
    else. *)
Theorem cancellation_is_effective
    (env : Env) (r : nat) (w w' : World) (a : AsyncScrollableListBox) :
  heap w !! r = Some (AsyncBox a) ->
  rtc (step env) (world_of (UI.destroy r w)) w' ->
  exists a',
    heap w' !! r = Some (AsyncBox a')
    /\ stop a' = true
    /\ (thread a = Broke -> a' = set_stop a)
    /\ ((forall line, thread a ≠ AtAppend line) ->
        walker a' = walker a
        /\ (consumed a' <= consumed a + 1)%nat
        /\ (forall line, thread a = AtCheck line -> consumed a' = consumed a))
    /\ (forall line,
           thread a = AtAppend line ->
           (walker a' = walker a
            \/ walker a' = walker a ++ [line_text (strip line)])
           /\ (consumed a' <= consumed a + 1)%nat).
Proof.
  intros Hr Hsteps.
  destruct (steps_wind_down env _ w' r (set_stop a) Hsteps
              (destroy_sets_stop r w a Hr) eq_refl)
    as (a' & Hr' & Hs & Hw & Hc & Hg & Hp & Hb).
  exists a'. split; [done |]. split; [done |].
  unfold pending, budget in *. simpl in *.
  split; [exact Hb |]. split.
  - intros Hna.
    assert (Hpa : match thread a with
                  | AtAppend line => [line_text (strip line)]
                  | _ => []
                  end = []).
    { destruct (thread a) eqn:E; try done. by destruct (Hna line). }
    rewrite Hpa, (Hp Hpa), !app_nil_r in Hw.
    split; [done |]. split.
    + destruct (thread a), (thread a'); simpl in *; lia.
    + intros line Hline. rewrite Hline in Hc, Hg.
      destruct (thread a'); simpl in *; lia.
  - intros line Hline. rewrite Hline in Hw, Hc, Hg. split.
    + destruct (thread a') eqn:E; rewrite ?app_nil_r in Hw; auto.
      left. by apply app_inj_tail in Hw as [? _].
    + destruct (thread a'); simpl in *; lia.
Qed.

(** ** The order of the buffer *)

Lemma seed_log_texts_initial_lines (decoded : str) :
  AsyncScrollableListBox.seed_log_texts (split_newline decoded)
  = line_text <$> initial_lines decoded.
Proof.
  unfold AsyncScrollableListBox.seed_log_texts, initial_lines.
  enough (Hfold : forall pieces acc,
    fold_left
      (fun log_texts d =>
         let log_entry := strip d in
         if truthy log_entry then log_texts ++ [line_text log_entry]
         else log_texts) pieces acc
    = acc ++ (line_text <$> List.filter truthy (strip <$> pieces)))
    by apply Hfold.
  induction pieces as [| d pieces IH]; intros acc; simpl.
  - by rewrite app_nil_r.
  - rewrite IH. destruct (truthy (strip d)); simpl; [| done].
    by rewrite <- app_assoc.
Qed.

Lemma text_line_text (lines : list str) :
  text <$> (line_text <$> lines) = lines.
Proof.
  induction lines as [| l lines IH]; [done |].
  rewrite !fmap_cons. by rewrite IH.
Qed.

Lemma yielded_S g n line :
  g n = Some line -> yielded g (S n) = yielded g n ++ [line].
Proof.
  intros Hn. unfold yielded. rewrite seq_S, omap_app. simpl. by rewrite Hn.
Qed.

Lemma yielded_length g n :
  (forall i, (i < n)%nat -> is_Some (g i)) -> length (yielded g n) = n.
Proof.
  induction n as [| n IH]; intros Hg; [done |].
  destruct (Hg n) as [line Hline]; [lia |].
  rewrite (yielded_S _ _ _ Hline), length_app, IH; [simpl; lia |].
  intros i Hi. apply Hg. lia.
Qed.

Lemma set_stop_in_order a : streams_in_order a -> streams_in_order (set_stop a).
Proof. done. Qed.

Lemma box_step_in_order a a' :
  box_step a = Some a' ->
  streams_in_order a ->
  streams_in_order a'
  /\ log_texts a' = log_texts a /\ generator a' = generator a.
Proof.
  unfold box_step, streams_in_order, appended.
  destruct a as [lt wk wf st g c pc]. simpl.
  destruct pc as [| line | line | | | |]; simpl; try done.
  - destruct (g c) as [line |] eqn:Hc; intros [= <-] (Hw & Hg & _); simpl.
    + rewrite Nat.sub_0_r. repeat split; eauto.
      intros i Hi. destruct (decide (i = c)) as [-> | Hne]; [by eexists |].
      apply Hg. lia.
    + repeat split; eauto.
  - destruct st; intros [= <-] (Hw & Hg & n & -> & Hn); simpl;
      repeat split; eauto.
  - intros [= <-] (Hw & Hg & n & -> & Hn); simpl.
    replace (S n - 1)%nat with n in Hw by lia. repeat split; auto.
    rewrite (yielded_S _ _ _ Hn), !fmap_app, Hw. simpl.
    by rewrite <- app_assoc.
  - intros [= <-] (Hw & Hg & _); simpl. repeat split; auto.
  - intros [= <-] (Hw & Hg & _); simpl. repeat split; auto.
Qed.

Lemma steps_in_order env w w' r a :
  rtc (step env) w w' ->
  heap w !! r = Some (AsyncBox a) ->
  streams_in_order a ->
  exists a',
    heap w' !! r = Some (AsyncBox a')
    /\ streams_in_order a'
    /\ log_texts a' = log_texts a /\ generator a' = generator a.
Proof.
  intros Hsteps. revert a.
  induction Hsteps as [w | w w1 w' Hstep Hsteps IH]; intros a Hr Hok.
  - exists a. done.
  - destruct (step_box env w w1 r a Hstep Hr)
      as (a1 & Hr1 & [-> | [-> | Hb]]).
    + by apply IH.
    + destruct (IH _ Hr1 (set_stop_in_order a Hok)) as (a' & ? & ? & ? & ?).
      exists a'. done.
    + destruct (box_step_in_order a a1 Hb Hok) as (Hok1 & Hl1 & Hg1).
      destruct (IH _ Hr1 Hok1) as (a' & ? & ? & ? & ?).
      exists a'. split; [done |]. split; [done |]. split; congruence.
Qed.

Lemma run_thread_steps env n r w : rtc (step env) w (run_thread n r w).
Proof.
  revert w. induction n as [| n IH]; intros w; simpl; [done |].
  destruct (AsyncScrollableListBox.fetch_logs_step r w) as [w1 |] eqn:Hstep;
    [| done].
  eapply rtc_l; [| apply IH]. by apply (step_fetch_logs env r).
Qed.

Lemma fetch_logs_step_total r w a a' :
  heap w !! r = Some (AsyncBox a) ->
  box_step a = Some a' ->
  exists w1,
    AsyncScrollableListBox.fetch_logs_step r w = Some w1
    /\ heap w1 !! r = Some (AsyncBox a').
Proof.
  intros Hr Hb.
  assert (Hsome : is_Some (AsyncScrollableListBox.fetch_logs_step r w)).
  { unfold AsyncScrollableListBox.fetch_logs_step. rewrite Hr.
    unfold box_step in Hb.
    destruct (thread a); try done;
      try destruct (generator a (consumed a)); try destruct (stop a);
      by eexists. }
  destruct Hsome as [w1 Hw1]. exists w1. split; [done |].
  destruct (fetch_logs_step_heap _ _ _ Hw1) as (b & b' & Hb0 & Hbs & Hh).
  rewrite Hh, list_lookup_insert_eq by by eapply lookup_lt_Some.
  congruence.
Qed.

Lemma run_thread_step n r w a a' :
  heap w !! r = Some (AsyncBox a) ->
  box_step a = Some a' ->
  exists w1,
    heap w1 !! r = Some (AsyncBox a')
    /\ run_thread (S n) r w = run_thread n r w1.
Proof.
  intros Hr Hb. destruct (fetch_logs_step_total r w a a' Hr Hb)
    as (w1 & Hstep & Hr1).
  exists w1. split; [done |]. simpl. by rewrite Hstep.
Qed.

(** Left alone and not cancelled, the thread of a box appends every
    line of a generator that ends and then ends itself: five steps for
    each line and one to find the end. *)
Lemma run_thread_to_end r m :
  forall w a,
    heap w !! r = Some (AsyncBox a) ->
    thread a = AtNext ->
    stop a = false ->
    (forall i, (i < consumed a + m)%nat -> is_Some (generator a i)) ->
    generator a (consumed a + m) = None ->
    exists a',
      heap (run_thread (5 * m + 1) r w) !! r = Some (AsyncBox a')
      /\ thread a' = Exhausted.
Proof.
  induction m as [| m IH]; intros w a Hr Hpc Hstop Hlines Hend.
  - rewrite Nat.add_0_r in Hend.
    destruct (run_thread_step 0 r w a (set_thread Exhausted a) Hr)
      as (w1 & Hr1 & Hrun).
    { unfold box_step. by rewrite Hpc, Hend. }
    simpl (5 * 0 + 1)%nat. rewrite Hrun. simpl. by eexists.
  - destruct (Hlines (consumed a)) as [line Hline]; [lia |].
    destruct a as [lt wk wf st g c pc].
    simpl in Hpc, Hstop, Hlines, Hend, Hline. subst pc st.
    replace (5 * S m + 1)%nat with (S (S (S (S (S (5 * m + 1)))))) by lia.
    edestruct (run_thread_step (S (S (S (S (5 * m + 1))))) r w) as (w1 & Hr1 & ->);
      [exact Hr | unfold box_step; simpl; rewrite Hline; reflexivity |].
    edestruct (run_thread_step (S (S (S (5 * m + 1)))) r w1)
      as (w2 & Hr2 & ->); [exact Hr1 | reflexivity |].
    edestruct (run_thread_step (S (S (5 * m + 1))) r w2)
      as (w3 & Hr3 & ->); [exact Hr2 | reflexivity |].
    edestruct (run_thread_step (S (5 * m + 1)) r w3)
      as (w4 & Hr4 & ->); [exact Hr3 | reflexivity |].
    edestruct (run_thread_step (5 * m + 1) r w4)
      as (w5 & Hr5 & ->); [exact Hr4 | reflexivity |].
    eapply IH; [exact Hr5 | done | done | |]; simpl.
    + intros i Hi. apply Hlines. lia.
    + replace (S (c + m)) with (c + S m)%nat by lia. exact Hend.
Qed.

Lemma AsyncScrollableListBox_init_box static_data gen w r w1 :
  AsyncScrollableListBox.__init__ static_data gen w = Return r w1 ->
  exists decoded a,
    decode_utf8 static_data = Some decoded
    /\ heap w1 !! r = Some (AsyncBox a)
    /\ log_texts a = line_text <$> initial_lines decoded
    /\ walker a = log_texts a
    /\ generator a = gen
    /\ consumed a = 0%nat /\ thread a = AtNext /\ stop a = false.
Proof.
  unfold AsyncScrollableListBox.__init__, alloc, raise.
  destruct (decode_utf8 static_data) as [decoded |]; [| done].
  intros [= <- <-]. exists decoded. eexists. split; [done |]. simpl.
  split; [apply list_lookup_middle; done |]. simpl.
  by rewrite seed_log_texts_initial_lines.
Qed.

(** C5: the buffer of a streaming view is, at every moment of any run
    of the program, the non-empty trimmed lines of its initial block
    followed by the first lines of its generator, trimmed, in the order
    the generator gave them; and when the generator ends after [n]
    lines and nothing cancels the view, its thread ends after
    [5 * n + 1] steps with all [n] of them in the buffer. *)
Theorem streamed_lines_follow_initial_block
    (env : Env) (static_data : bytes) (gen : nat -> option str)
    (w0 w1 : World) (r : nat) :
  AsyncScrollableListBox.__init__ static_data gen w0 = Return r w1 ->
  exists decoded,
    decode_utf8 static_data = Some decoded
    /\ (forall w',
           rtc (step env) w1 w' ->
           exists a k,
             heap w' !! r = Some (AsyncBox a)
             /\ (forall i, (i < k)%nat -> is_Some (gen i))
             /\ (k <= consumed a <= k + 1)%nat
             /\ text <$> walker a
                = initial_lines decoded ++ (strip <$> yielded gen k)
             /\ (thread a = Exhausted -> gen k = None))
    /\ (forall n,
           (forall i, (i < n)%nat -> is_Some (gen i)) ->
           gen n = None ->
           exists a,
             heap (run_thread (5 * n + 1) r w1) !! r = Some (AsyncBox a)
             /\ thread a = Exhausted
             /\ text <$> walker a
                = initial_lines decoded ++ (strip <$> yielded gen n)).
Proof.
  intros Hinit.
  destruct (AsyncScrollableListBox_init_box _ _ _ _ _ Hinit)
    as (decoded & a0 & Hdec & Hr0 & Hlt & Hwk & Hgen & Hc & Hpc & Hst).
  assert (Hok0 : streams_in_order a0).
  { unfold streams_in_order, appended. rewrite Hpc, Hc, Hwk. simpl.
    rewrite app_nil_r. split; [done |]. split; [| done]. intros i Hi. lia. }
  assert (Hinv : forall w',
    rtc (step env) w1 w' ->
    exists a k,
      heap w' !! r = Some (AsyncBox a)
      /\ (forall i, (i < k)%nat -> is_Some (gen i))
      /\ (k <= consumed a <= k + 1)%nat
      /\ text <$> walker a
         = initial_lines decoded ++ (strip <$> yielded gen k)
      /\ (thread a = Exhausted -> gen k = None)).
  { intros w' Hsteps.
    destruct (steps_in_order env w1 w' r a0 Hsteps Hr0 Hok0)
      as (a & Hr & (Hw & Hg & Hth) & Hlt' & Hgen').
    exists a, (appended a). split; [done |].
    rewrite Hgen' , Hgen in *. unfold appended in *.
    split; [intros i Hi; apply Hg; destruct (thread a); lia |].
    split; [destruct (thread a); lia |].
    split.
    - rewrite Hw, Hlt', Hlt, fmap_app, !text_line_text. done.
    - intros Hex. by rewrite Hex in Hth |- *. }
  exists decoded. split; [done |]. split; [exact Hinv |].
  intros n Hlines Hend.
  destruct (run_thread_to_end r n w1 a0 Hr0 Hpc Hst) as (a & Hr & Hex).
  { rewrite Hgen, Hc. exact Hlines. }
  { by rewrite Hgen, Hc. }
  destruct (Hinv _ (run_thread_steps env (5 * n + 1) r w1))
    as (a' & k & Hr' & Hk & _ & Hw & Hkend).
  assert (a' = a) as -> by congruence.
  exists a. split; [done |]. split; [done |].
  specialize (Hkend Hex).
  assert (k = n) as ->; [| done].
  destruct (Nat.lt_trichotomy k n) as [Hlt0 | [-> | Hgt]]; [| done |].
  - destruct (Hlines k Hlt0) as [? ?]. congruence.
  - destruct (Hk n Hgt) as [? ?]. congruence.
Qed.

Lemma streamed_lines_follow_initial_block_witness :
  exists w1 a,
    AsyncScrollableListBox.__init__ [97; 10; 98; 10]%N
      (generator_of [u "c"; u "d"]) (sample_started 0) = Return 2%nat w1
    /\ heap (run_thread 11 2 w1) !! 2%nat = Some (AsyncBox a)
    /\ thread a = Exhausted
    /\ text <$> walker a = [u "a"; u "b"; u "c"; u "d"].
Proof.
  exists (world_of (AsyncScrollableListBox.__init__ [97; 10; 98; 10]%N
                      (generator_of [u "c"; u "d"]) (sample_started 0))).
  destruct (streamed_lines_follow_initial_block sample_env
              [97; 10; 98; 10]%N (generator_of [u "c"; u "d"])
              (sample_started 0) _ 2%nat eq_refl)
    as (decoded & Hdec & _ & Hend).
  injection Hdec as <-.
  destruct (Hend 2%nat) as (a & Hr & Hex & Hw).
  - intros [| [| i]] Hi; [by eexists | by eexists | lia].
  - reflexivity.
  - exists a. split; [reflexivity |]. split; [exact Hr |].
    split; [exact Hex | exact Hw].
Defined.

Lemma cancellation_is_effective_witness :
  exists a',
    heap (run_thread 2 3 (world_of (UI.destroy 3 sample_stack))) !! 3%nat
    = Some (AsyncBox a')
    /\ stop a' = true
    /\ walker a' = [line_text (u "a")]
    /\ (consumed a' <= 1)%nat.
Proof.
  destruct (cancellation_is_effective sample_env 3 sample_stack
              (run_thread 2 3 (world_of (UI.destroy 3 sample_stack)))
              _ eq_refl (run_thread_steps sample_env 2 3 _))
    as (a' & Hr & Hs & _ & Hquiet & _).
  destruct Hquiet as (Hw & Hc & _); [intros line; discriminate |].
  exists a'. split; [exact Hr |]. split; [exact Hs |].
  split; [exact Hw | exact Hc].
Defined.

(** ** The stack of a running program *)

#[local] Instance stack_kept_refl : Reflexive stack_kept.
Proof. intros w Hw. exact Hw. Qed.

#[local] Instance stack_kept_trans : Transitive stack_kept.
Proof. intros w1 w2 w3 H12 H23 Hw. auto. Qed.

Lemma stack_kept_same_ui (w w' : World) :
  main_list w' = main_list w ->
  mainframe_body w' = mainframe_body w ->
  widgets w' = widgets w ->
  stack_kept w w'.
Proof. intros Hm Hb Hw [H0 Hin]. split; congruence. Qed.

Lemma emit_stack_kept e : preserves stack_kept (emit e).
Proof. intros w. by apply stack_kept_same_ui. Qed.

Lemma alloc_stack_kept o : preserves stack_kept (alloc o).
Proof. intros w. by apply stack_kept_same_ui. Qed.

Lemma add_and_set_main_widget_stack_kept x redraw :
  preserves stack_kept (UI.add_and_set_main_widget x redraw).
Proof.
  intros w [H0 Hin].
  unfold UI.add_and_set_main_widget, UI._set_main_widget, UI.draw_screen.
  unfold_m. destruct (py_in x (widgets w)) eqn:Hx, redraw; simpl;
    (split; simpl;
     [ try done; by apply lookup_app_l_Some
     | try (by apply py_in_true);
       apply elem_of_app; right; by apply list_elem_of_singleton ]).
Qed.

Lemma pick_main_widget_stack_kept i :
  preserves stack_kept (UI.pick_main_widget i).
Proof.
  intros w [H0 Hin].
  destruct (decide (length (widgets w) = 1%nat)) as [Hone | Hmany].
  - unfold UI.pick_main_widget. unfold_m. rewrite Hone. simpl. done.
  - rewrite pick_main_widget_unfold, H0 by done.
    destruct (py_getitem (widgets w) i) as [x |] eqn:Hi; simpl.
    + split; [done |]. simpl. by eapply py_getitem_elem_of.
    + split; [done |]. simpl. by eapply list_elem_of_lookup_2.
Qed.

Lemma current_widget_index_stack_kept :
  preserves stack_kept UI.current_widget_index.
Proof. unfold UI.current_widget_index, UI.current_widget. preserves_go. Qed.

Lemma remove_current_widget_stack_kept :
  preserves stack_kept UI.remove_current_widget.
Proof.
  intros w [H0 Hin].
  destruct (decide (mainframe_body w = main_list w)) as [Hml | Hother].
  - rewrite remove_current_widget_on_main_list by done.
    simpl. split; simpl; congruence.
  - destruct (py_remove_Some _ _ Hin) as [ws' Hrm].
    rewrite (remove_current_widget_on_other_view w ws' Hother Hrm).
    assert (Hhead : ws' !! 0%nat = Some (main_list w)).
    { destruct (widgets w) as [| y ws] eqn:Hws; [done |].
      injection H0 as ->. eapply py_remove_head; [exact Hrm | congruence]. }
    destruct (heap w !! mainframe_body w) as [[| | | a] |]; simpl;
      (split; simpl; [done | by eapply list_elem_of_lookup_2]).
Qed.

#[local] Hint Resolve emit_stack_kept alloc_stack_kept
  add_and_set_main_widget_stack_kept pick_main_widget_stack_kept
  current_widget_index_stack_kept remove_current_widget_stack_kept
  : preserves.

Lemma unhandled_input_stack_kept key :
  preserves stack_kept (UI.unhandled_input key).
Proof. unfold UI.unhandled_input. preserves_go. Qed.

Lemma focus_docker_object_stack_kept self :
  preserves stack_kept (MainListBox.focus_docker_object self).
Proof. unfold MainListBox.focus_docker_object. preserves_go. Qed.

Lemma call_stack_kept {A} c (answer : list event -> exn + A) :
  preserves stack_kept (MainListBox.call c answer).
Proof. unfold MainListBox.call. preserves_go. Qed.

Lemma super_keypress_stack_kept env self size key :
  preserves stack_kept (MainListBox.super_keypress env self size key).
Proof.
  intros w. unfold MainListBox.super_keypress. unfold_m.
  destruct (heap w !! self) as [[| body focus | |] |]; simpl;
    try reflexivity.
  destruct (listbox_keypress env size key (length body) focus).
  by apply stack_kept_same_ui.
Qed.

Lemma ScrollableListBox_init_stack_kept text :
  preserves stack_kept (ScrollableListBox.__init__ text).
Proof. unfold ScrollableListBox.__init__. preserves_go. Qed.

Lemma AsyncScrollableListBox_init_stack_kept static_data generator :
  preserves stack_kept
    (AsyncScrollableListBox.__init__ static_data generator).
Proof. unfold AsyncScrollableListBox.__init__. preserves_go. Qed.

#[local] Hint Resolve focus_docker_object_stack_kept call_stack_kept
  super_keypress_stack_kept ScrollableListBox_init_stack_kept
  AsyncScrollableListBox_init_stack_kept : preserves.

Lemma keypress_stack_kept env self size key :
  preserves stack_kept (MainListBox.keypress env self size key).
Proof. unfold MainListBox.keypress. preserves_go. Qed.

Lemma fetch_logs_step_stack_kept self w w' :
  AsyncScrollableListBox.fetch_logs_step self w = Some w' ->
  stack_kept w w'.
Proof.
  unfold AsyncScrollableListBox.fetch_logs_step.
  destruct (heap w !! self) as [[| | | a] |]; try done.
  destruct (thread a); try done;
    try destruct (generator a (consumed a)); try destruct (stop a);
    intros [= <-]; try by apply stack_kept_same_ui.
  all: etrans; [| apply add_and_set_main_widget_stack_kept];
    by apply stack_kept_same_ui.
Qed.

Lemma steps_stack_ok env w w' :
  rtc (step env) w w' -> stack_ok w -> stack_ok w'.
Proof.
  induction 1 as [w | w w1 w' Hstep Hsteps IH]; intros Hok; [done |].
  apply IH. destruct Hstep as [self size key w | key w | self w w1 Hth].
  - by apply keypress_stack_kept.
  - by apply unhandled_input_stack_kept.
  - by eapply fetch_logs_step_stack_kept.
Qed.

(** In every world the running program can be in, the main list is
    the first view of the stack and the displayed view is on the
    stack. *)
Lemma reachable_stack_ok env w : reachable env w -> stack_ok w.
Proof.
  intros Hsteps. eapply steps_stack_ok; [exact Hsteps |].
  split; simpl; [done |]. by apply list_elem_of_singleton.
Qed.

(** So on a running program, closing any view but the main list goes
    through. *)
Corollary reachable_remove_current env w :
  reachable env w ->
  mainframe_body w ≠ main_list w ->
  exists w',
    UI.remove_current_widget w = Return tt w'
    /\ S (length (widgets w')) = length (widgets w)
    /\ mainframe_body w' = main_list w.
Proof.
  intros Hreach Hother. destruct (reachable_stack_ok env w Hreach) as [_ Hin].
  destruct (py_remove_Some _ _ Hin) as [ws Hrm].
  rewrite (remove_current_widget_on_other_view w ws Hother Hrm).
  eexists. split; [reflexivity |].
  destruct (heap w !! mainframe_body w) as [[| | | a] |]; simpl;
    (split; [by eapply py_remove_length | done]).
Qed.

(** * More about the code *)

(** ** Widgets are kept *)

Lemma widget_kept_refl o : widget_kept o o.
Proof. destruct o; simpl; auto. Qed.

Lemma widget_kept_trans o1 o2 o3 :
  widget_kept o1 o2 -> widget_kept o2 o3 -> widget_kept o1 o3.
Proof.
  destruct o1, o2, o3; simpl; try done; try congruence.
  intros (L2 & G2 & W2 & C2 & S2) (L3 & G3 & W3 & C3 & S3).
  repeat split; try congruence; [by etrans | lia | auto].
Qed.


#[local] Instance heap_kept_refl : Reflexive heap_kept.
Proof.
  intros w. split; [done |]. intros r o Hr. exists o. split; [done |].
  apply widget_kept_refl.
Qed.

#[local] Instance heap_kept_trans : Transitive heap_kept.
Proof.
  intros w1 w2 w3 [M12 H12] [M23 H23]. split; [congruence |].
  intros r o Hr. destruct (H12 r o Hr) as (o2 & Hr2 & K2).
  destruct (H23 r o2 Hr2) as (o3 & Hr3 & K3).
  exists o3. split; [done |]. by eapply widget_kept_trans.
Qed.

Lemma heap_kept_same_heap (w w' : World) :
  main_list w' = main_list w -> heap w' = heap w -> heap_kept w w'.
Proof.
  intros Hm Hh. split; [done |]. intros r o Hr. exists o.
  split; [by rewrite Hh | apply widget_kept_refl].
Qed.

(** Replacing one widget by a kept one keeps the heap. *)
Lemma heap_kept_insert (w w' : World) (r : nat) (o o' : obj) :
  main_list w' = main_list w ->
  heap w' = <[r := o']> (heap w) ->
  heap w !! r = Some o ->
  widget_kept o o' ->
  heap_kept w w'.
Proof.
  intros Hm Hh Hr Hk. split; [done |]. intros r0 o0 Hr0. rewrite Hh.
  destruct (decide (r0 = r)) as [-> | Hne].
  - rewrite list_lookup_insert_eq by by eapply lookup_lt_Some.
    exists o'. split; [done |]. congruence.
  - rewrite list_lookup_insert_ne by done. exists o0.
    split; [done | apply widget_kept_refl].
Qed.

Lemma emit_heap_kept e : preserves heap_kept (emit e).
Proof. intros w. by apply heap_kept_same_heap. Qed.

Lemma with_body_heap_kept x : preserves heap_kept (modify (with_body x)).
Proof. intros w. by apply heap_kept_same_heap. Qed.

Lemma with_widgets_heap_kept (f : World -> list nat) :
  preserves heap_kept (modify (fun w => with_widgets (f w) w)).
Proof. intros w. by apply heap_kept_same_heap. Qed.

Lemma alloc_heap_kept o : preserves heap_kept (alloc o).
Proof.
  intros w. split; [done |]. intros r o0 Hr. exists o0. simpl.
  split; [| apply widget_kept_refl].
  rewrite lookup_app_l; [done |]. by eapply lookup_lt_Some.
Qed.

Lemma set_stop_kept a : widget_kept (AsyncBox a) (AsyncBox (set_stop a)).
Proof. simpl. repeat split; auto. Qed.

Lemma destroy_heap_kept self : preserves heap_kept (UI.destroy self).
Proof.
  intros w. unfold UI.destroy. unfold_m. simpl.
  destruct (heap w !! self) as [[| | | b] |] eqn:Hself; simpl;
    try by apply heap_kept_same_heap.
  eapply (heap_kept_insert w _ self); [done | done | exact Hself |].
  apply set_stop_kept.
Qed.

Lemma draw_screen_heap_kept : preserves heap_kept UI.draw_screen.
Proof. apply emit_heap_kept. Qed.

#[local] Hint Resolve emit_heap_kept with_body_heap_kept
  with_widgets_heap_kept alloc_heap_kept destroy_heap_kept
  draw_screen_heap_kept : preserves.

Lemma _set_main_widget_heap_kept x redraw :
  preserves heap_kept (UI._set_main_widget x redraw).
Proof. unfold UI._set_main_widget. preserves_go. Qed.

#[local] Hint Resolve _set_main_widget_heap_kept : preserves.

Lemma add_and_set_main_widget_heap_kept x redraw :
  preserves heap_kept (UI.add_and_set_main_widget x redraw).
Proof. unfold UI.add_and_set_main_widget. preserves_go. Qed.

Lemma pick_main_widget_heap_kept i :
  preserves heap_kept (UI.pick_main_widget i).
Proof. unfold UI.pick_main_widget, UI.widgets_getitem. preserves_go. Qed.

Lemma current_widget_index_heap_kept :
  preserves heap_kept UI.current_widget_index.
Proof. unfold UI.current_widget_index, UI.current_widget. preserves_go. Qed.

Lemma remove_current_widget_heap_kept :
  preserves heap_kept UI.remove_current_widget.
Proof.
  intros w. unfold UI.remove_current_widget, UI.current_widget. unfold_m.
  destruct (mainframe_body w =? main_list w)%nat; simpl;
    [by apply heap_kept_same_heap |].
  destruct (py_remove (mainframe_body w) (widgets w)) as [ws |]; simpl;
    [| reflexivity].
  unfold UI.getattr_destroy. unfold_m. simpl.
  destruct (heap w !! mainframe_body w) as [[| | | b] |] eqn:Hobj; simpl;
    try by apply heap_kept_same_heap.
  rewrite Hobj. simpl.
  eapply (heap_kept_insert w _ (mainframe_body w)); [done | done | exact Hobj |].
  apply set_stop_kept.
Qed.

#[local] Hint Resolve add_and_set_main_widget_heap_kept
  pick_main_widget_heap_kept current_widget_index_heap_kept
  remove_current_widget_heap_kept : preserves.

Lemma unhandled_input_heap_kept key :
  preserves heap_kept (UI.unhandled_input key).
Proof. unfold UI.unhandled_input. preserves_go. Qed.

Lemma focus_docker_object_heap_kept self :
  preserves heap_kept (MainListBox.focus_docker_object self).
Proof. unfold MainListBox.focus_docker_object. preserves_go. Qed.

Lemma call_heap_kept {A} c (answer : list event -> exn + A) :
  preserves heap_kept (MainListBox.call c answer).
Proof. unfold MainListBox.call. preserves_go. Qed.

Lemma super_keypress_heap_kept env self size key :
  preserves heap_kept (MainListBox.super_keypress env self size key).
Proof.
  intros w. unfold MainListBox.super_keypress. unfold_m.
  destruct (heap w !! self) as [[| body focus | |] |] eqn:Hself; simpl;
    try reflexivity.
  destruct (listbox_keypress env size key (length body) focus)
    as [focus' key']. simpl.
  by eapply (heap_kept_insert w _ self).
Qed.

Lemma ScrollableListBox_init_heap_kept text :
  preserves heap_kept (ScrollableListBox.__init__ text).
Proof. unfold ScrollableListBox.__init__. preserves_go. Qed.

Lemma AsyncScrollableListBox_init_heap_kept static_data generator :
  preserves heap_kept
    (AsyncScrollableListBox.__init__ static_data generator).
Proof. unfold AsyncScrollableListBox.__init__. preserves_go. Qed.

#[local] Hint Resolve focus_docker_object_heap_kept call_heap_kept
  super_keypress_heap_kept ScrollableListBox_init_heap_kept
  AsyncScrollableListBox_init_heap_kept : preserves.

Lemma keypress_heap_kept env self size key :
  preserves heap_kept (MainListBox.keypress env self size key).
Proof. unfold MainListBox.keypress. preserves_go. Qed.

Lemma box_step_kept a a' :
  box_step a = Some a' -> widget_kept (AsyncBox a) (AsyncBox a').
Proof.
  unfold box_step. destruct a as [lt wk wf st g c pc]. simpl.
  destruct pc as [| line | line | | | |]; simpl; try done;
    try destruct (g c); try destruct st; intros [= <-]; simpl;
    repeat split; auto; try lia; try reflexivity.
  all: by apply prefix_app_r.
Qed.

Lemma fetch_logs_step_heap_kept self w w' :
  AsyncScrollableListBox.fetch_logs_step self w = Some w' -> heap_kept w w'.
Proof.
  intros Hstep.
  destruct (fetch_logs_step_heap _ _ _ Hstep) as (a & a' & Ha & Hb & Hh).
  assert (Hml : main_list w' = main_list w).
  { revert Hstep. unfold AsyncScrollableListBox.fetch_logs_step.
    rewrite Ha. destruct (thread a); try done;
      try destruct (generator a (consumed a)); try destruct (stop a);
      intros [= <-]; try done.
    all: unfold UI.add_and_set_main_widget, UI._set_main_widget,
      UI.draw_screen; unfold_m; simpl; by destruct (py_in _ _). }
  eapply heap_kept_insert; [exact Hml | exact Hh | exact Ha |].
  by apply box_step_kept.
Qed.

Lemma steps_heap_kept env w w' : rtc (step env) w w' -> heap_kept w w'.
Proof.
  induction 1 as [w | w w1 w' Hstep Hsteps IH]; [reflexivity |].
  etrans; [| exact IH].
  destruct Hstep as [self size key w | key w | self w w1 Hth].
  - apply keypress_heap_kept.
  - apply unhandled_input_heap_kept.
  - by eapply fetch_logs_step_heap_kept.
Qed.

(** ** What the controller leaves alone *)

#[local] Instance stack_shrinks_refl : Reflexive stack_shrinks.
Proof. intros w. unfold stack_shrinks. reflexivity. Qed.

#[local] Instance stack_shrinks_trans : Transitive stack_shrinks.
Proof. intros w1 w2 w3 H12 H23. unfold stack_shrinks in *. by etrans. Qed.

Lemma stack_shrinks_same (w w' : World) :
  widgets w' = widgets w -> stack_shrinks w w'.
Proof. intros Hw. unfold stack_shrinks. by rewrite Hw. Qed.

Lemma py_remove_sublist x l l' : py_remove x l = Some l' -> l' `sublist_of` l.
Proof.
  revert l'. induction l as [| y l IH]; intros l'; simpl; [done |].
  destruct (Nat.eqb y x).
  - intros [= ->]. by apply sublist_cons.
  - destruct (py_remove x l) as [l0 |]; simpl; [| done].
    intros [= <-]. apply sublist_skip. by apply IH.
Qed.

Lemma emit_stack_shrinks e : preserves stack_shrinks (emit e).
Proof. intros w. by apply stack_shrinks_same. Qed.

Lemma pick_main_widget_stack_shrinks i :
  preserves stack_shrinks (UI.pick_main_widget i).
Proof.
  intros w. apply stack_shrinks_same.
  destruct (decide (length (widgets w) = 1%nat)) as [Hone | Hmany].
  - unfold UI.pick_main_widget. unfold_m. by rewrite Hone.
  - rewrite pick_main_widget_unfold by done.
    destruct (py_getitem (widgets w) i); [done |].
    by destruct (widgets w !! 0%nat).
Qed.

Lemma current_widget_index_stack_shrinks :
  preserves stack_shrinks UI.current_widget_index.
Proof. unfold UI.current_widget_index, UI.current_widget. preserves_go. Qed.

Lemma remove_current_widget_stack_shrinks :
  preserves stack_shrinks UI.remove_current_widget.
Proof.
  intros w. unfold UI.remove_current_widget, UI.current_widget. unfold_m.
  destruct (mainframe_body w =? main_list w)%nat; simpl;
    [by apply stack_shrinks_same |].
  destruct (py_remove (mainframe_body w) (widgets w)) as [ws |] eqn:Hrm;
    simpl; [| reflexivity].
  unfold UI.getattr_destroy. unfold_m. simpl.
  destruct (heap w !! mainframe_body w) as [[| | | b] |] eqn:Hobj; simpl;
    rewrite ?Hobj; simpl; by eapply py_remove_sublist.
Qed.

#[local] Hint Resolve emit_stack_shrinks pick_main_widget_stack_shrinks
  current_widget_index_stack_shrinks remove_current_widget_stack_shrinks
  : preserves.

Lemma unhandled_input_stack_shrinks key :
  preserves stack_shrinks (UI.unhandled_input key).
Proof. unfold UI.unhandled_input. preserves_go. Qed.

#[local] Instance backend_quiet_refl : Reflexive backend_quiet.
Proof. intros w. reflexivity. Qed.

#[local] Instance backend_quiet_trans : Transitive backend_quiet.
Proof. intros w1 w2 w3 H12 H23. unfold backend_quiet in *. congruence. Qed.

Lemma backend_quiet_same (w w' : World) :
  trace w' = trace w -> backend_quiet w w'.
Proof. intros Ht. unfold backend_quiet. by rewrite Ht. Qed.

Lemma emit_log_backend_quiet lvl fmt :
  preserves backend_quiet (emit (Log lvl fmt)).
Proof.
  intros w. unfold backend_quiet. simpl. rewrite backend_calls_app. simpl.
  by rewrite app_nil_r.
Qed.

Lemma draw_screen_backend_quiet : preserves backend_quiet UI.draw_screen.
Proof.
  intros w. unfold backend_quiet. simpl. rewrite backend_calls_app. simpl.
  by rewrite app_nil_r.
Qed.

Lemma with_body_backend_quiet x :
  preserves backend_quiet (modify (with_body x)).
Proof. intros w. by apply backend_quiet_same. Qed.

Lemma with_widgets_backend_quiet (f : World -> list nat) :
  preserves backend_quiet (modify (fun w => with_widgets (f w) w)).
Proof. intros w. by apply backend_quiet_same. Qed.

Lemma destroy_backend_quiet self : preserves backend_quiet (UI.destroy self).
Proof.
  intros w. unfold backend_quiet, UI.destroy. unfold_m. simpl.
  destruct (heap w !! self) as [[| | | b] |]; simpl;
    rewrite backend_calls_app; simpl; by rewrite app_nil_r.
Qed.

#[local] Hint Resolve emit_log_backend_quiet draw_screen_backend_quiet
  with_body_backend_quiet with_widgets_backend_quiet destroy_backend_quiet
  : preserves.

Lemma _set_main_widget_backend_quiet x redraw :
  preserves backend_quiet (UI._set_main_widget x redraw).
Proof. unfold UI._set_main_widget. preserves_go. Qed.

#[local] Hint Resolve _set_main_widget_backend_quiet : preserves.

Lemma add_and_set_main_widget_backend_quiet x redraw :
  preserves backend_quiet (UI.add_and_set_main_widget x redraw).
Proof. unfold UI.add_and_set_main_widget. preserves_go. Qed.

Lemma pick_main_widget_backend_quiet i :
  preserves backend_quiet (UI.pick_main_widget i).
Proof. unfold UI.pick_main_widget, UI.widgets_getitem. preserves_go. Qed.

Lemma current_widget_index_backend_quiet :
  preserves backend_quiet UI.current_widget_index.
Proof. unfold UI.current_widget_index, UI.current_widget. preserves_go. Qed.

Lemma remove_current_widget_backend_quiet :
  preserves backend_quiet UI.remove_current_widget.
Proof.
  intros w. unfold UI.remove_current_widget, UI.current_widget. unfold_m.
  destruct (mainframe_body w =? main_list w)%nat; simpl;
    [apply (emit_log_backend_quiet Warning _ w) |].
  destruct (py_remove (mainframe_body w) (widgets w)) as [ws |]; simpl;
    [| reflexivity].
  unfold UI.getattr_destroy. unfold_m. simpl. unfold backend_quiet.
  destruct (heap w !! mainframe_body w) as [[| | | b] |] eqn:Hobj; simpl;
    rewrite ?Hobj; simpl; rewrite ?backend_calls_app; simpl;
    by rewrite ?app_nil_r.
Qed.

#[local] Hint Resolve add_and_set_main_widget_backend_quiet
  pick_main_widget_backend_quiet current_widget_index_backend_quiet
  remove_current_widget_backend_quiet : preserves.

Lemma unhandled_input_backend_quiet key :
  preserves backend_quiet (UI.unhandled_input key).
Proof. unfold UI.unhandled_input. preserves_go. Qed.

Lemma fetch_logs_step_backend_quiet self w w' :
  AsyncScrollableListBox.fetch_logs_step self w = Some w' ->
  backend_quiet w w'.
Proof.
  unfold AsyncScrollableListBox.fetch_logs_step.
  destruct (heap w !! self) as [[| | | a] |]; try done.
  destruct (thread a); try done;
    try destruct (generator a (consumed a)); try destruct (stop a);
    intros [= <-]; try by apply backend_quiet_same.
  all: first
    [ apply (emit_log_backend_quiet Debug _
               (AsyncScrollableListBox.store self _ w))
    | apply (add_and_set_main_widget_backend_quiet self true
               (AsyncScrollableListBox.store self _ w)) ].
Qed.

Lemma super_keypress_backend_quiet env self size key :
  preserves backend_quiet (MainListBox.super_keypress env self size key).
Proof.
  intros w. unfold MainListBox.super_keypress. unfold_m.
  destruct (heap w !! self) as [[| body focus | |] |]; simpl;
    try reflexivity.
  destruct (listbox_keypress env size key (length body) focus).
  by apply backend_quiet_same.
Qed.

(** ** What a key on the main list does to the stack *)

(** [add_and_set_main_widget] in full. *)
Lemma add_and_set_main_widget_unfold x redraw w :
  UI.add_and_set_main_widget x redraw w
  = Return tt
      {| main_list := main_list w;
         mainframe_body := x;
         widgets := if py_in x (widgets w) then widgets w
                    else widgets w ++ [x];
         heap := heap w;
         trace := trace w
                  ++ (if py_in x (widgets w) then []
                      else [Log Debug (u "adding new widget %r")])
                  ++ (if redraw then [DrawScreen] else []) |}.
Proof.
  unfold UI.add_and_set_main_widget, UI._set_main_widget, UI.draw_screen.
  unfold_m. unfold modify.
  destruct (py_in x (widgets w)), redraw; simpl;
    unfold with_trace, with_body, with_widgets; simpl;
    rewrite ?app_nil_r, <- ?app_assoc; reflexivity.
Qed.

(** A key on the main list leaves the stack and the displayed view as
    they are, or it builds one list box, at the end of the heap, and
    displays it. *)
Lemma keypress_stack env self size key w :
  (widgets (world_of (MainListBox.keypress env self size key w)) = widgets w
   /\ mainframe_body (world_of (MainListBox.keypress env self size key w))
      = mainframe_body w)
  \/ exists o,
      is_view o = true
      /\ heap (world_of (MainListBox.keypress env self size key w))
         = heap w ++ [o]
      /\ mainframe_body (world_of (MainListBox.keypress env self size key w))
         = length (heap w)
      /\ widgets (world_of (MainListBox.keypress env self size key w))
         = (if py_in (length (heap w)) (widgets w) then widgets w
            else widgets w ++ [length (heap w)]).
Proof.
  unfold MainListBox.keypress, MainListBox.focus_docker_object,
    MainListBox.call, MainListBox.super_keypress,
    ScrollableListBox.__init__, AsyncScrollableListBox.__init__, alloc.
  unfold_m. simpl.
  destruct (bool_decide (key = u "i")); simpl.
  - destruct (heap w !! self) as [[| body focus | |] |]; simpl; auto.
    destruct (body !! focus) as [row |]; simpl; auto.
    destruct (original_widget row) as [line |]; simpl; auto.
    destruct (docker_object_of line) as [id t n | id t n c st |]; simpl; auto.
    + destruct (inspect_image _ _ _) as [e | payload]; simpl; auto.
      rewrite add_and_set_main_widget_unfold. simpl. right.
      eexists. split; [| done]. done.
    + destruct (inspect_container _ _ _) as [e | payload]; simpl; auto.
      rewrite add_and_set_main_widget_unfold. simpl. right.
      eexists. split; [| done]. done.
  - destruct (bool_decide (key = u "l")); simpl.
    + destruct (heap w !! self) as [[| body focus | |] |]; simpl; auto.
      destruct (body !! focus) as [row |]; simpl; auto.
      destruct (original_widget row) as [line |]; simpl; auto.
      destruct (docker_object_of line) as [id t n | id t n c st |]; simpl;
        auto.
      destruct (logs _ _ _) as [e | [logs_data logs_generator]]; simpl; auto.
      destruct (decode_utf8 logs_data) as [decoded |]; simpl; auto.
      rewrite add_and_set_main_widget_unfold. simpl. right.
      eexists. split; [| done]. done.
    + destruct (heap w !! self) as [[| body focus | |] |]; simpl; auto.
      destruct (listbox_keypress env size key (length body) focus).
      simpl. auto.
Qed.

(** ** The stack holds each view once *)









(** ** Moving between the views *)

(** [n] and [p] look up the displayed view and pick its neighbour. *)
Lemma unhandled_input_n (w : World) (i : nat) :
  NoDup (widgets w) ->
  widgets w !! i = Some (mainframe_body w) ->
  UI.unhandled_input (u "n") w
  = UI.pick_main_widget (Z.of_nat i + 1)
      (with_trace (trace w ++ [Log Debug (u "got %r")]) w).
Proof.
  intros Hnd Hi. unfold UI.unhandled_input. unfold_m. simpl.
  rewrite (current_widget_index_at
             (with_trace (trace w ++ [Log Debug (u "got %r")]) w) i)
    by done.
  reflexivity.
Qed.

Lemma unhandled_input_p (w : World) (i : nat) :
  NoDup (widgets w) ->
  widgets w !! i = Some (mainframe_body w) ->
  UI.unhandled_input (u "p") w
  = UI.pick_main_widget (Z.of_nat i - 1)
      (with_trace (trace w ++ [Log Debug (u "got %r")]) w).
Proof.
  intros Hnd Hi. unfold UI.unhandled_input. unfold_m. simpl.
  rewrite (current_widget_index_at
             (with_trace (trace w ++ [Log Debug (u "got %r")]) w) i)
    by done.
  reflexivity.
Qed.

(** Where [n] and [p] lead on a stack of more than one view. *)
Lemma unhandled_input_n_shows (w : World) (i : nat) (x : nat) :
  NoDup (widgets w) ->
  (1 < length (widgets w))%nat ->
  widgets w !! i = Some (mainframe_body w) ->
  widgets w !! ((i + 1) mod length (widgets w))%nat = Some x ->
  UI.unhandled_input (u "n") w
  = Return tt
      (with_trace (trace w ++ [Log Debug (u "got %r"); DrawScreen])
         (with_body x w)).
Proof.
  intros Hnd HN Hi Hx. rewrite (unhandled_input_n w i) by done.
  rewrite pick_main_widget_unfold by (simpl; lia). simpl.
  pose proof (lookup_lt_Some _ _ _ Hi) as Hlt.
  destruct (decide (i + 1 < length (widgets w))%nat) as [Hin | Hout].
  - rewrite Nat.mod_small in Hx by done.
    rewrite py_getitem_nonneg by lia.
    replace (Z.to_nat (Z.of_nat i + 1)) with (i + 1)%nat by lia.
    rewrite Hx. unfold with_trace, with_body. simpl.
    by rewrite <- app_assoc.
  - replace (i + 1)%nat with (length (widgets w)) in Hx by lia.
    rewrite Nat.Div0.mod_same in Hx.
    rewrite py_getitem_past_end by lia. rewrite Hx.
    unfold with_trace, with_body. simpl. by rewrite <- app_assoc.
Qed.

Lemma unhandled_input_p_shows (w : World) (i : nat) (x : nat) :
  NoDup (widgets w) ->
  (1 < length (widgets w))%nat ->
  widgets w !! i = Some (mainframe_body w) ->
  widgets w !! ((i + length (widgets w) - 1) mod length (widgets w))%nat
  = Some x ->
  UI.unhandled_input (u "p") w
  = Return tt
      (with_trace (trace w ++ [Log Debug (u "got %r"); DrawScreen])
         (with_body x w)).
Proof.
  intros Hnd HN Hi Hx. rewrite (unhandled_input_p w i) by done.
  rewrite pick_main_widget_unfold by (simpl; lia). simpl.
  pose proof (lookup_lt_Some _ _ _ Hi) as Hlt.
  destruct i as [| i].
  - rewrite Nat.add_0_l, Nat.mod_small in Hx by lia.
    rewrite py_getitem_negative by lia.
    replace (Z.to_nat (Z.of_nat (length (widgets w)) + (Z.of_nat 0 - 1)))
      with (length (widgets w) - 1)%nat by lia.
    rewrite Hx. unfold with_trace, with_body. simpl.
    by rewrite <- app_assoc.
  - replace (S i + length (widgets w) - 1)%nat
      with (i + 1 * length (widgets w))%nat in Hx by lia.
    rewrite Nat.Div0.mod_add, Nat.mod_small in Hx by lia.
    rewrite py_getitem_nonneg by lia.
    replace (Z.to_nat (Z.of_nat (S i) - 1)) with i by lia.
    rewrite Hx. unfold with_trace, with_body. simpl.
    by rewrite <- app_assoc.
Qed.

(** X2: on a stack of [N > 1] views, none of them twice, with the view
    at index [i] displayed, [n] displays the view at index
    [(i + 1) mod N] and [p] the view at index [(i + N - 1) mod N]; the
    stack is untouched and one redraw is requested. *)
Theorem next_and_previous_wrap (w : World) (i : nat) :
  NoDup (widgets w) ->
  (1 < length (widgets w))%nat ->
  widgets w !! i = Some (mainframe_body w) ->
  (exists w',
      UI.unhandled_input (u "n") w = Return tt w'
      /\ widgets w' = widgets w
      /\ UI.current_widget_index w'
         = Return ((i + 1) mod length (widgets w))%nat w'
      /\ trace w' = trace w ++ [Log Debug (u "got %r"); DrawScreen])
  /\ (exists w',
      UI.unhandled_input (u "p") w = Return tt w'
      /\ widgets w' = widgets w
      /\ UI.current_widget_index w'
         = Return ((i + length (widgets w) - 1) mod length (widgets w))%nat w'
      /\ trace w' = trace w ++ [Log Debug (u "got %r"); DrawScreen]).
Proof.
  intros Hnd HN Hi. split.
  - destruct (widgets w !! ((i + 1) mod length (widgets w))%nat)
      as [x |] eqn:Hx.
    + rewrite (unhandled_input_n_shows w i x) by done.
      eexists. split; [done |]. split; [done |]. split; [| done].
      by apply current_widget_index_at.
    + apply lookup_ge_None in Hx.
      pose proof (Nat.mod_upper_bound (i + 1) (length (widgets w))). lia.
  - destruct (widgets w
                !! ((i + length (widgets w) - 1) mod length (widgets w))%nat)
      as [x |] eqn:Hx.
    + rewrite (unhandled_input_p_shows w i x) by done.
      eexists. split; [done |]. split; [done |]. split; [| done].
      by apply current_widget_index_at.
    + apply lookup_ge_None in Hx.
      pose proof (Nat.mod_upper_bound (i + length (widgets w) - 1)
                    (length (widgets w))). lia.
Qed.

Lemma next_and_previous_wrap_witness :
  exists w1 w2,
    UI.unhandled_input (u "n") (with_body 3%nat sample_stack) = Return tt w1
    /\ UI.current_widget_index w1 = Return 0%nat w1
    /\ UI.unhandled_input (u "p") (with_body 0%nat sample_stack)
       = Return tt w2
    /\ UI.current_widget_index w2 = Return 2%nat w2.
Proof.
  assert (Hnd : NoDup [0; 2; 3]%nat).
  { repeat (apply NoDup_cons; split;
            [rewrite <- py_in_true; discriminate |]).
    apply NoDup_nil_2. }
  assert (HN : (1 < length [0; 2; 3]%nat)%nat) by (simpl; lia).
  destruct (next_and_previous_wrap (with_body 3%nat sample_stack) 2
              Hnd HN eq_refl) as [(w1 & Hn & _ & In & _) _].
  destruct (next_and_previous_wrap (with_body 0%nat sample_stack) 0
              Hnd HN eq_refl) as [_ (w2 & Hp & _ & Ip & _)].
  exists w1, w2. split; [exact Hn |]. split; [exact In |].
  split; [exact Hp | exact Ip].
Defined.

(** X3: on such a stack [n] followed by [p], and [p] followed by [n],
    lead back to the view that was displayed, with the stack as it
    was. *)
Theorem next_then_previous_returns (w : World) (i : nat) :
  NoDup (widgets w) ->
  (1 < length (widgets w))%nat ->
  widgets w !! i = Some (mainframe_body w) ->
  (exists w1 w2,
      UI.unhandled_input (u "n") w = Return tt w1
      /\ UI.unhandled_input (u "p") w1 = Return tt w2
      /\ mainframe_body w2 = mainframe_body w
      /\ widgets w2 = widgets w)
  /\ (exists w1 w2,
      UI.unhandled_input (u "p") w = Return tt w1
      /\ UI.unhandled_input (u "n") w1 = Return tt w2
      /\ mainframe_body w2 = mainframe_body w
      /\ widgets w2 = widgets w).
Proof.
  intros Hnd HN Hi. pose proof (lookup_lt_Some _ _ _ Hi) as Hlt.
  set (N := length (widgets w)) in *.
  assert (Hnext : (((i + 1) mod N + N - 1) mod N = i)%nat).
  { destruct (decide (i + 1 < N)%nat) as [Hin | Hout].
    - rewrite (Nat.mod_small (i + 1)) by done.
      replace (i + 1 + N - 1)%nat with (i + 1 * N)%nat by lia.
      rewrite Nat.Div0.mod_add. by apply Nat.mod_small.
    - replace (i + 1)%nat with N by lia. rewrite Nat.Div0.mod_same.
      rewrite Nat.add_0_l, Nat.mod_small by lia. lia. }
  assert (Hprev : (((i + N - 1) mod N + 1) mod N = i)%nat).
  { destruct i as [| j].
    - rewrite Nat.add_0_l, (Nat.mod_small (N - 1)) by lia.
      replace (N - 1 + 1)%nat with N by lia. apply Nat.Div0.mod_same.
    - replace (S j + N - 1)%nat with (j + 1 * N)%nat by lia.
      rewrite Nat.Div0.mod_add, (Nat.mod_small j) by lia.
      replace (j + 1)%nat with (S j) by lia. by apply Nat.mod_small. }
  split.
  - destruct (widgets w !! ((i + 1) mod N)%nat) as [x |] eqn:Hx;
      [| apply lookup_ge_None in Hx;
         pose proof (Nat.mod_upper_bound (i + 1) N); lia].
    rewrite (unhandled_input_n_shows w i x) by done.
    eexists. eexists. split; [done |].
    rewrite (unhandled_input_p_shows _ ((i + 1) mod N)%nat (mainframe_body w));
      [done | done | done | done |].
    simpl. fold N. by rewrite Hnext.
  - destruct (widgets w !! ((i + N - 1) mod N)%nat) as [x |] eqn:Hx;
      [| apply lookup_ge_None in Hx;
         pose proof (Nat.mod_upper_bound (i + N - 1) N); lia].
    rewrite (unhandled_input_p_shows w i x) by done.
    eexists. eexists. split; [done |].
    rewrite (unhandled_input_n_shows _ ((i + N - 1) mod N)%nat
               (mainframe_body w)); [done | done | done | done |].
    simpl. fold N. by rewrite Hprev.
Qed.

Lemma next_then_previous_returns_witness :
  exists w1 w2,
    UI.unhandled_input (u "n") (with_body 3%nat sample_stack) = Return tt w1
    /\ UI.unhandled_input (u "p") w1 = Return tt w2
    /\ mainframe_body w2 = 3%nat.
Proof.
  assert (Hnd : NoDup [0; 2; 3]%nat).
  { repeat (apply NoDup_cons; split;
            [rewrite <- py_in_true; discriminate |]).
    apply NoDup_nil_2. }
  assert (HN : (1 < length [0; 2; 3]%nat)%nat) by (simpl; lia).
  destruct (next_then_previous_returns (with_body 3%nat sample_stack) 2
              Hnd HN eq_refl) as [(w1 & w2 & Hn & Hp & Hb & _) _].
  exists w1, w2. split; [exact Hn |]. split; [exact Hp | exact Hb].
Defined.

(** X4: on a stack of [N > 1] views, none of them twice, the index of
    the displayed view after [show(i)] is [i] for [0 <= i < N] and
    [N + i] for [-N <= i < 0]. *)
Theorem show_then_current_index (w : World) (i : Z) :
  NoDup (widgets w) ->
  (1 < length (widgets w))%nat ->
  - Z.of_nat (length (widgets w)) <= i < Z.of_nat (length (widgets w)) ->
  exists w',
    UI.pick_main_widget i w = Return tt w'
    /\ UI.current_widget_index w'
       = Return (Z.to_nat (if 0 <=? i then i
                           else Z.of_nat (length (widgets w)) + i)) w'.
Proof.
  intros Hnd HN Hi. rewrite pick_main_widget_unfold by lia.
  destruct (Z.leb_spec 0 i).
  - rewrite py_getitem_nonneg by done.
    destruct (widgets w !! Z.to_nat i) as [x |] eqn:Hx;
      [| apply lookup_ge_None in Hx; lia].
    eexists. split; [done |]. by apply current_widget_index_at.
  - rewrite py_getitem_negative by lia.
    destruct (widgets w !! Z.to_nat (Z.of_nat (length (widgets w)) + i))
      as [x |] eqn:Hx; [| apply lookup_ge_None in Hx; lia].
    eexists. split; [done |]. by apply current_widget_index_at.
Qed.

Lemma show_then_current_index_witness :
  exists w1 w2,
    UI.pick_main_widget 1 sample_stack = Return tt w1
    /\ UI.current_widget_index w1 = Return 1%nat w1
    /\ UI.pick_main_widget (-3) sample_stack = Return tt w2
    /\ UI.current_widget_index w2 = Return 0%nat w2.
Proof.
  assert (Hnd : NoDup (widgets sample_stack)).
  { repeat (apply NoDup_cons; split;
            [rewrite <- py_in_true; discriminate |]).
    apply NoDup_nil_2. }
  assert (HN : (1 < length (widgets sample_stack))%nat) by (simpl; lia).
  destruct (show_then_current_index sample_stack 1 Hnd HN)
    as (w1 & H1 & I1); [simpl; lia |].
  destruct (show_then_current_index sample_stack (-3) Hnd HN)
    as (w2 & H2 & I2); [simpl; lia |].
  exists w1, w2. split; [exact H1 |]. split; [exact I1 |].
  split; [exact H2 | exact I2].
Defined.

(** X5: on a stack of exactly one view [show(i)] does nothing for any
    [i], not even a redraw; on an empty stack it raises [IndexError]
    for any [i], out of its own handler, and changes nothing. *)
Theorem show_on_small_stack (w : World) (i : Z) :
  (length (widgets w) = 1%nat -> UI.pick_main_widget i w = Return tt w)
  /\ (widgets w = [] -> UI.pick_main_widget i w = Raise IndexError w).
Proof.
  split.
  - intros Hone. unfold UI.pick_main_widget. unfold_m. by rewrite Hone.
  - intros Hnil. rewrite pick_main_widget_unfold by (rewrite Hnil; done).
    rewrite Hnil. unfold py_getitem. simpl.
    destruct (0 <=? i); [by rewrite lookup_nil |].
    destruct (- Z.of_nat 0 <=? i); [by rewrite lookup_nil | done].
Qed.

Lemma show_on_small_stack_witness :
  UI.pick_main_widget 7 (sample_started 0) = Return tt (sample_started 0)
  /\ UI.pick_main_widget (-1) (UI__init__ sample_env)
     = Raise IndexError (UI__init__ sample_env).
Proof.
  split.
  - apply (proj1 (show_on_small_stack (sample_started 0) 7)). reflexivity.
  - apply (proj2 (show_on_small_stack (UI__init__ sample_env) (-1))).
    reflexivity.
Defined.

(** X6: while the displayed view is not on the stack, as before
    [run()], the keys [n] and [p] raise [ValueError] out of
    [widgets.index], and so does [x] out of [widgets.remove] unless the
    displayed view is the main list; nothing changes but the debug
    log. *)
Theorem keys_raise_when_view_not_on_stack (w : World) :
  mainframe_body w ∉ widgets w ->
  UI.unhandled_input (u "n") w
  = Raise ValueError (with_trace (trace w ++ [Log Debug (u "got %r")]) w)
  /\ UI.unhandled_input (u "p") w
     = Raise ValueError (with_trace (trace w ++ [Log Debug (u "got %r")]) w)
  /\ (mainframe_body w ≠ main_list w ->
      UI.unhandled_input (u "x") w
      = Raise ValueError
          (with_trace (trace w ++ [Log Debug (u "got %r")]) w)).
Proof.
  intros Hout.
  assert (Hidx : py_index (mainframe_body w) (widgets w) = None).
  { revert Hout. generalize (mainframe_body w) as x.
    induction (widgets w) as [| y l IH]; intros x Hout; simpl; [done |].
    destruct (Nat.eqb_spec y x) as [-> | Hne];
      [exfalso; apply Hout; by left |].
    rewrite IH; [done |]. intros Hin. apply Hout. by right. }
  unfold UI.unhandled_input, UI.current_widget_index, UI.current_widget.
  unfold_m. simpl. rewrite Hidx. split; [done |]. split; [done |].
  intros Hother.
  by rewrite (remove_current_widget_unregistered
                (with_trace (trace w ++ [Log Debug (u "got %r")]) w)).
Qed.

Lemma keys_raise_when_view_not_on_stack_witness :
  (mainframe_body (UI__init__ sample_env)
   ∉ widgets (UI__init__ sample_env))
  /\ UI.unhandled_input (u "x") (UI__init__ sample_env)
     = Raise ValueError
         (with_trace [Log Debug (u "got %r")] (UI__init__ sample_env)).
Proof.
  assert (Hout : mainframe_body (UI__init__ sample_env)
                 ∉ widgets (UI__init__ sample_env))
    by (simpl; apply not_elem_of_nil).
  split; [exact Hout |].
  destruct (keys_raise_when_view_not_on_stack _ Hout) as (_ & _ & Hx).
  apply Hx. simpl. lia.
Defined.

Lemma py_remove_filter x l l' :
  NoDup l ->
  py_remove x l = Some l' ->
  l' = List.filter (fun y => negb (Nat.eqb y x)) l.
Proof.
  intros Hnd. revert l'.
  induction Hnd as [| y l Hy Hnd IH]; intros l'; simpl; [done |].
  destruct (Nat.eqb_spec y x) as [-> | Hne]; simpl.
  - intros [= <-]. symmetry. apply forallb_filter_id.
    apply forallb_forall. intros z Hz. apply negb_true_iff, Nat.eqb_neq.
    intros ->. apply Hy. by apply list_elem_of_In.
  - destruct (py_remove x l) as [l0 |]; simpl; [| done].
    intros [= <-]. f_equal. by apply IH.
Qed.

(** X7: on a stack that holds no view twice, closing a displayed view
    that is on the stack and is not the main list leaves exactly the
    other views, in their order, and the closed view is on the stack
    no more. *)
Theorem close_keeps_the_others_in_order (w : World) :
  NoDup (widgets w) ->
  mainframe_body w ≠ main_list w ->
  mainframe_body w ∈ widgets w ->
  exists w',
    UI.remove_current_widget w = Return tt w'
    /\ widgets w'
       = List.filter (fun y => negb (Nat.eqb y (mainframe_body w))) (widgets w)
    /\ (mainframe_body w ∉ widgets w')
    /\ NoDup (widgets w').
Proof.
  intros Hnd Hother Hin. destruct (py_remove_Some _ _ Hin) as [ws Hrm].
  rewrite (remove_current_widget_on_other_view w ws Hother Hrm).
  pose proof (py_remove_filter _ _ _ Hnd Hrm) as Hws.
  eexists. split; [reflexivity |].
  assert (Hgoal :
    ws = List.filter (fun y => negb (Nat.eqb y (mainframe_body w)))
           (widgets w)
    /\ (mainframe_body w ∉ ws) /\ NoDup ws).
  { split; [done |]. split.
    - rewrite Hws. intros Hx. apply list_elem_of_In, filter_In in Hx.
      destruct Hx as [_ Hx]. by rewrite Nat.eqb_refl in Hx.
    - eapply sublist_NoDup; [exact Hnd | by eapply py_remove_sublist]. }
  by destruct (heap w !! mainframe_body w) as [[| | | a] |].
Qed.

Lemma close_keeps_the_others_in_order_witness :
  exists w',
    UI.remove_current_widget sample_stack = Return tt w'
    /\ widgets w' = [0; 3]%nat.
Proof.
  assert (Hnd : NoDup (widgets sample_stack)).
  { repeat (apply NoDup_cons; split;
            [rewrite <- py_in_true; discriminate |]).
    apply NoDup_nil_2. }
  assert (Hother : mainframe_body sample_stack ≠ main_list sample_stack)
    by (simpl; lia).
  assert (Hin : mainframe_body sample_stack ∈ widgets sample_stack)
    by (apply py_in_true; reflexivity).
  destruct (close_keeps_the_others_in_order sample_stack Hnd Hother Hin)
    as (w' & Hrun & Hws & _).
  exists w'. split; [exact Hrun | exact Hws].
Defined.

(** ** Opening views from the main list *)

Lemma py_in_fresh (w : World) :
  Forall (fun r => exists o, heap w !! r = Some o /\ is_view o = true)
    (widgets w) ->
  py_in (length (heap w)) (widgets w) = false.
Proof.
  intros Hall. destruct (py_in (length (heap w)) (widgets w)) eqn:Hin;
    [| done].
  apply py_in_true in Hin.
  destruct (proj1 (Forall_forall _ _) Hall _ Hin) as (o & Ho & _).
  apply lookup_lt_Some in Ho. lia.
Qed.

(** [i] answered by the backend, in full. *)
Lemma keypress_i_answered
    (env : Env) (self : nat) (size : nat * nat) (w : World)
    (body : list AttrMap) (focus : nat) (row : AttrMap)
    (line : DockerImageColumns) (payload : json env) :
  heap w !! self = Some (MainListBox body focus) ->
  body !! focus = Some row ->
  original_widget row = Some line ->
  inspect_answer env (trace w ++ [Log Debug (u "size %r, key %r")])
    (docker_object_of line) = Some (inr payload) ->
  Forall (fun r => exists o, heap w !! r = Some o /\ is_view o = true)
    (widgets w) ->
  MainListBox.keypress env self size (u "i") w
  = Return None
      {| main_list := main_list w;
         mainframe_body := length (heap w);
         widgets := widgets w ++ [length (heap w)];
         heap := heap w
                 ++ [ScrollableListBox [line_text (json_dumps env payload)]];
         trace := trace w
                  ++ Log Debug (u "size %r, key %r")
                  :: (Backend <$> inspect_call (docker_object_of line))
                  ++ [Log Debug (u "adding new widget %r"); DrawScreen] |}.
Proof.
  intros Hself Hrow Hline Hans Hall.
  unfold MainListBox.keypress. unfold_m. simpl.
  erewrite focus_docker_object_bound by (simpl; eassumption).
  unfold MainListBox.call, ScrollableListBox.__init__, alloc. unfold_m.
  destruct (docker_object_of line) as [id t n | id t n c st |]; simpl in *;
    [| | done];
    injection Hans as Hans; rewrite Hans; simpl;
    rewrite add_and_set_main_widget_unfold; simpl;
    rewrite (py_in_fresh w Hall); simpl;
    by rewrite <- !app_assoc.
Qed.

(** X8: [i] on a row bound to an image or a container that the backend
    inspects returns with the key used; where every view on the stack
    is in the heap, one new static view holding the rendered payload
    has been built, put at the end of the stack and displayed, after
    one backend call, and drawn once; no other widget has changed. *)
Theorem inspect_pushes_a_static_view
    (env : Env) (self : nat) (size : nat * nat) (w : World)
    (body : list AttrMap) (focus : nat) (row : AttrMap)
    (line : DockerImageColumns) (payload : json env) :
  heap w !! self = Some (MainListBox body focus) ->
  body !! focus = Some row ->
  original_widget row = Some line ->
  inspect_answer env (trace w ++ [Log Debug (u "size %r, key %r")])
    (docker_object_of line) = Some (inr payload) ->
  Forall (fun r => exists o, heap w !! r = Some o /\ is_view o = true)
    (widgets w) ->
  exists w',
    MainListBox.keypress env self size (u "i") w = Return None w'
    /\ widgets w' = widgets w ++ [length (heap w)]
    /\ mainframe_body w' = length (heap w)
    /\ heap w'
       = heap w ++ [ScrollableListBox [line_text (json_dumps env payload)]]
    /\ backend_calls (trace w')
       = backend_calls (trace w) ++ inspect_call (docker_object_of line)
    /\ length (List.filter
                 (fun e => match e with DrawScreen => true | _ => false end)
                 (trace w'))
       = S (length (List.filter
                      (fun e =>
                         match e with DrawScreen => true | _ => false end)
                      (trace w))).
Proof.
  intros Hself Hrow Hline Hans Hall.
  rewrite (keypress_i_answered env self size w body focus row line payload)
    by done.
  eexists. split; [reflexivity |]. simpl.
  split; [done |]. split; [done |]. split; [done |]. split.
  - rewrite backend_calls_app. simpl. rewrite backend_calls_app. simpl.
    rewrite app_nil_r. f_equal.
    by destruct (docker_object_of line).
  - rewrite !List.filter_app. simpl. rewrite !List.filter_app. simpl.
    rewrite !length_app. simpl.
    assert (Hnone : List.filter
              (fun e => match e with DrawScreen => true | _ => false end)
              (Backend <$> inspect_call (docker_object_of line)) = [])
      by by destruct (docker_object_of line).
    rewrite Hnone. simpl. lia.
Qed.

Lemma inspect_pushes_a_static_view_witness :
  exists w',
    MainListBox.keypress sample_env 0 (80, 24)%nat (u "i") (sample_started 0)
    = Return None w'
    /\ widgets w' = [0; 2]%nat
    /\ mainframe_body w' = 2%nat.
Proof.
  destruct (inspect_pushes_a_static_view sample_env 0 (80, 24)%nat
              (sample_started 0) _ 0%nat _ _ (u "{}")
              eq_refl eq_refl eq_refl eq_refl)
    as (w' & Hrun & Hws & Hb & _).
  { apply Forall_singleton. by eexists. }
  exists w'. split; [exact Hrun |]. split; [exact Hws | exact Hb].
Defined.

(** [l] answered by the backend with a block that decodes, in full. *)
Lemma keypress_l_answered
    (env : Env) (self : nat) (size : nat * nat) (w : World)
    (body : list AttrMap) (focus : nat) (row : AttrMap)
    (line : DockerImageColumns) (id t n c st : str)
    (logs_data : bytes) (logs_generator : nat -> option str)
    (decoded : str) :
  heap w !! self = Some (MainListBox body focus) ->
  body !! focus = Some row ->
  original_widget row = Some line ->
  docker_object_of line = DockerContainer id t n c st ->
  logs (d env) (trace w ++ [Log Debug (u "size %r, key %r")]) id
  = inr (logs_data, logs_generator) ->
  decode_utf8 logs_data = Some decoded ->
  Forall (fun r => exists o, heap w !! r = Some o /\ is_view o = true)
    (widgets w) ->
  MainListBox.keypress env self size (u "l") w
  = Return None
      {| main_list := main_list w;
         mainframe_body := length (heap w);
         widgets := widgets w ++ [length (heap w)];
         heap := heap w
                 ++ [AsyncBox
                       {| log_texts := line_text <$> initial_lines decoded;
                          walker := line_text <$> initial_lines decoded;
                          walker_focus := 0;
                          stop := false;
                          generator := logs_generator;
                          consumed := 0;
                          thread := AtNext |}];
         trace := trace w
                  ++ [Log Debug (u "size %r, key %r"); Backend (Logs id);
                      Log Debug (u "adding new widget %r"); DrawScreen] |}.
Proof.
  intros Hself Hrow Hline Hobj Hlogs Hdec Hall.
  unfold MainListBox.keypress. unfold_m. simpl.
  erewrite focus_docker_object_bound by (simpl; eassumption).
  rewrite Hobj. unfold MainListBox.call. unfold_m. simpl.
  rewrite Hlogs. simpl.
  unfold AsyncScrollableListBox.__init__, alloc. rewrite Hdec. simpl.
  rewrite add_and_set_main_widget_unfold; simpl.
  rewrite (py_in_fresh w Hall); simpl.
  rewrite seed_log_texts_initial_lines. by rewrite <- !app_assoc.
Qed.

(** X9: [l] on a row bound to a container whose logs the backend
    returns, with an initial block that is valid UTF-8, returns with
    the key used; where every view on the stack is in the heap, one
    new streaming view has been built, put at the end of the stack and
    displayed: its buffer holds the non-empty trimmed lines of the
    block, its flag is clear and its thread stands before the first
    line of the generator. *)
Theorem logs_push_a_streaming_view
    (env : Env) (self : nat) (size : nat * nat) (w : World)
    (body : list AttrMap) (focus : nat) (row : AttrMap)
    (line : DockerImageColumns) (id t n c st : str)
    (logs_data : bytes) (logs_generator : nat -> option str)
    (decoded : str) :
  heap w !! self = Some (MainListBox body focus) ->
  body !! focus = Some row ->
  original_widget row = Some line ->
  docker_object_of line = DockerContainer id t n c st ->
  logs (d env) (trace w ++ [Log Debug (u "size %r, key %r")]) id
  = inr (logs_data, logs_generator) ->
  decode_utf8 logs_data = Some decoded ->
  Forall (fun r => exists o, heap w !! r = Some o /\ is_view o = true)
    (widgets w) ->
  exists w' a,
    MainListBox.keypress env self size (u "l") w = Return None w'
    /\ widgets w' = widgets w ++ [length (heap w)]
    /\ mainframe_body w' = length (heap w)
    /\ heap w' = heap w ++ [AsyncBox a]
    /\ text <$> walker a = initial_lines decoded
    /\ generator a = logs_generator
    /\ stop a = false
    /\ consumed a = 0%nat
    /\ thread a = AtNext
    /\ backend_calls (trace w') = backend_calls (trace w) ++ [Logs id].
Proof.
  intros Hself Hrow Hline Hobj Hlogs Hdec Hall.
  rewrite (keypress_l_answered env self size w body focus row line
             id t n c st logs_data logs_generator decoded) by done.
  eexists. eexists. split; [reflexivity |]. simpl.
  split; [done |]. split; [done |]. split; [done |]. simpl.
  split; [apply text_line_text |]. repeat (split; [done |]).
  rewrite backend_calls_app. simpl. done.
Qed.

Lemma logs_push_a_streaming_view_witness :
  exists w' a,
    MainListBox.keypress sample_env 0 (80, 24)%nat (u "l") (sample_started 1)
    = Return None w'
    /\ widgets w' = [0; 2]%nat
    /\ heap w' = heap (sample_started 1) ++ [AsyncBox a]
    /\ text <$> walker a = [u "a"; u "b"]
    /\ thread a = AtNext.
Proof.
  destruct (logs_push_a_streaming_view sample_env 0 (80, 24)%nat
              (sample_started 1) _ 1%nat _ _ _ _ _ _ _ _ _ _
              eq_refl eq_refl eq_refl eq_refl eq_refl eq_refl)
    as (w' & a & Hrun & Hws & _ & Hh & Hw & _ & _ & _ & Hpc & _).
  { apply Forall_singleton. by eexists. }
  exists w', a. split; [exact Hrun |]. split; [exact Hws |].
  split; [exact Hh |]. split; [exact Hw | exact Hpc].
Defined.

(** X10: [l] on a container row raises, without building a view and
    with the stack, the displayed view and the widgets as they were,
    when the backend fails to return the logs (the exception of the
    backend) and when the initial block is not valid UTF-8
    ([UnicodeDecodeError]); the backend call has been made. *)
Theorem logs_failure_raises
    (env : Env) (self : nat) (size : nat * nat) (w : World)
    (body : list AttrMap) (focus : nat) (row : AttrMap)
    (line : DockerImageColumns) (id t n c st : str) :
  heap w !! self = Some (MainListBox body focus) ->
  body !! focus = Some row ->
  original_widget row = Some line ->
  docker_object_of line = DockerContainer id t n c st ->
  (forall e,
      logs (d env) (trace w ++ [Log Debug (u "size %r, key %r")]) id = inl e ->
      MainListBox.keypress env self size (u "l") w
      = Raise e
          (with_trace
             (trace w ++ [Log Debug (u "size %r, key %r"); Backend (Logs id)])
             w))
  /\ (forall logs_data logs_generator,
         logs (d env) (trace w ++ [Log Debug (u "size %r, key %r")]) id
         = inr (logs_data, logs_generator) ->
         decode_utf8 logs_data = None ->
         MainListBox.keypress env self size (u "l") w
         = Raise UnicodeDecodeError
             (with_trace
                (trace w
                 ++ [Log Debug (u "size %r, key %r"); Backend (Logs id)])
                w)).
Proof.
  intros Hself Hrow Hline Hobj. split.
  - intros e Hlogs. unfold MainListBox.keypress. unfold_m. simpl.
    erewrite focus_docker_object_bound by (simpl; eassumption).
    rewrite Hobj. unfold MainListBox.call. unfold_m. simpl.
    rewrite Hlogs. simpl. unfold with_trace. simpl. by rewrite <- app_assoc.
  - intros logs_data logs_generator Hlogs Hdec.
    unfold MainListBox.keypress. unfold_m. simpl.
    erewrite focus_docker_object_bound by (simpl; eassumption).
    rewrite Hobj. unfold MainListBox.call. unfold_m. simpl.
    rewrite Hlogs. simpl.
    unfold AsyncScrollableListBox.__init__, raise. rewrite Hdec. simpl.
    unfold with_trace. simpl. by rewrite <- app_assoc.
Qed.

Lemma logs_failure_raises_witness :
  MainListBox.keypress sample_env_bad_logs 0 (80, 24)%nat (u "l")
    (sample_started 1)
  = Raise UnicodeDecodeError
      (with_trace
         [Log Debug (u "adding new widget %r");
          Log Debug (u "size %r, key %r");
          Backend (Logs (u "0123456789abcdef0123456789abcdef"))]
         (sample_started 1)).
Proof.
  exact (proj2 (logs_failure_raises sample_env_bad_logs 0 (80, 24)%nat
                  (sample_started 1) _ 1%nat _ _ _ _ _ _ _
                  eq_refl eq_refl eq_refl eq_refl)
           [255]%N (generator_of []) eq_refl eq_refl).
Defined.

(** X11: [l] on a row bound to anything but a container uses the key
    and does nothing else: no backend call, no view, only the debug
    log. *)
Theorem logs_ignored_off_containers
    (env : Env) (self : nat) (size : nat * nat) (w : World)
    (body : list AttrMap) (focus : nat) (row : AttrMap)
    (line : DockerImageColumns) :
  heap w !! self = Some (MainListBox body focus) ->
  body !! focus = Some row ->
  original_widget row = Some line ->
  (forall id t n c st, docker_object_of line ≠ DockerContainer id t n c st) ->
  MainListBox.keypress env self size (u "l") w
  = Return None
      (with_trace (trace w ++ [Log Debug (u "size %r, key %r")]) w).
Proof.
  intros Hself Hrow Hline Hobj.
  unfold MainListBox.keypress. unfold_m. simpl.
  erewrite focus_docker_object_bound by (simpl; eassumption).
  destruct (docker_object_of line) as [id t n | id t n c st |]; simpl;
    [done | | done].
  by destruct (Hobj id t n c st).
Qed.

Lemma logs_ignored_off_containers_witness :
  MainListBox.keypress sample_env 0 (80, 24)%nat (u "l") (sample_started 0)
  = Return None
      (with_trace
         [Log Debug (u "adding new widget %r");
          Log Debug (u "size %r, key %r")]
         (sample_started 0)).
Proof.
  apply (logs_ignored_off_containers sample_env 0 (80, 24)%nat
           (sample_started 0) _ 0%nat _ _ eq_refl eq_refl eq_refl).
  intros id t n c st. discriminate.
Defined.

Lemma keypress_other_key env self size key w :
  key ≠ u "i" ->
  key ≠ u "l" ->
  MainListBox.keypress env self size key w
  = MainListBox.super_keypress env self size key
      (with_trace (trace w ++ [Log Debug (u "size %r, key %r")]) w).
Proof.
  intros Hi Hl. unfold MainListBox.keypress. unfold_m. simpl.
  by rewrite !bool_decide_eq_false_2 by done.
Qed.

(** X12: a key on the main list never takes a view off the stack and
    never reorders it: the stack afterwards is the stack before, with
    at most one view added at the end; and a key other than [i] and [l]
    leaves the stack and the displayed view as they are, makes no
    backend call, and changes no widget but the main list, whose rows
    stay. *)
Theorem key_on_main_list_only_pushes
    (env : Env) (self : nat) (size : nat * nat) (key : str) (w : World) :
  widgets w
    `prefix_of` widgets (world_of (MainListBox.keypress env self size key w))
  /\ (length (widgets (world_of (MainListBox.keypress env self size key w)))
      <= length (widgets w) + 1)%nat
  /\ (key ≠ u "i" ->
      key ≠ u "l" ->
      widgets (world_of (MainListBox.keypress env self size key w))
      = widgets w
      /\ mainframe_body (world_of (MainListBox.keypress env self size key w))
         = mainframe_body w
      /\ backend_calls
           (trace (world_of (MainListBox.keypress env self size key w)))
         = backend_calls (trace w)
      /\ forall r o,
          heap w !! r = Some o ->
          heap (world_of (MainListBox.keypress env self size key w)) !! r
          = Some o
          \/ exists rows focus focus',
              o = MainListBox rows focus
              /\ heap (world_of (MainListBox.keypress env self size key w))
                 !! r = Some (MainListBox rows focus')).
Proof.
  split; [| split].
  - destruct (keypress_stack env self size key w)
      as [[-> _] | (o & _ & _ & _ & ->)]; [done |].
    destruct (py_in _ _); [done | by apply prefix_app_r].
  - destruct (keypress_stack env self size key w)
      as [[-> _] | (o & _ & _ & _ & ->)]; [lia |].
    destruct (py_in _ _); [lia |]. rewrite length_app. simpl. lia.
  - intros Hi Hl. rewrite keypress_other_key by done.
    unfold MainListBox.super_keypress. unfold_m. simpl.
    destruct (heap w !! self) as [[| body focus | |] |] eqn:Hself; simpl;
      try (split; [done |]; split; [done |]; split;
           [rewrite backend_calls_app; simpl; by rewrite app_nil_r
           | by left]).
    destruct (listbox_keypress env size key (length body) focus)
      as [focus' key']. simpl.
    split; [done |]. split; [done |]. split;
      [rewrite backend_calls_app; simpl; by rewrite app_nil_r |].
    intros r o Hr. destruct (decide (r = self)) as [-> | Hne].
    + right. exists body, focus, focus'.
      split; [congruence |]. apply list_lookup_insert_eq.
      by eapply lookup_lt_Some.
    + left. by rewrite list_lookup_insert_ne.
Qed.

Lemma key_on_main_list_only_pushes_witness :
  widgets (world_of (MainListBox.keypress sample_env 0 (80, 24)%nat
                       (u "down") (sample_started 0)))
  = widgets (sample_started 0)
  /\ backend_calls
       (trace (world_of (MainListBox.keypress sample_env 0 (80, 24)%nat
                           (u "down") (sample_started 0))))
     = [].
Proof.
  destruct (key_on_main_list_only_pushes sample_env 0 (80, 24)%nat
              (u "down") (sample_started 0)) as (_ & _ & Hother).
  destruct Hother as (Hws & _ & Hcalls & _); [discriminate | discriminate |].
  split; [exact Hws | exact Hcalls].
Defined.

(** X13: the main list has one row for each object of the inventory,
    in the order of the inventory: the row at a position is bound to
    the object at that position when that is an image or a container,
    and carries no line when it is neither. *)
Theorem main_list_rows_follow_inventory
    {json : Type} (d : DockerBackend json) :
  length (MainListBox._assemble_initial_content d)
  = length (initial_content d)
  /\ forall i o,
      initial_content d !! i = Some o ->
      exists row,
        MainListBox._assemble_initial_content d !! i = Some row
        /\ match o with
           | OtherObject => original_widget row = None
           | _ =>
             exists line,
               original_widget row = Some line /\ docker_object_of line = o
           end.
Proof.
  rewrite _assemble_initial_content_rows. split; [by rewrite length_fmap |].
  intros i o Hi. rewrite list_lookup_fmap, Hi. simpl.
  eexists. split; [done |]. destruct o; simpl; [by eexists | by eexists | done].
Qed.

Lemma main_list_rows_follow_inventory_witness :
  exists row line,
    MainListBox._assemble_initial_content (d sample_env) !! 1%nat = Some row
    /\ original_widget row = Some line
    /\ docker_object_of line = sample_container.
Proof.
  destruct (proj2 (main_list_rows_follow_inventory (d sample_env))
              1%nat sample_container eq_refl)
    as (row & Hrow & line & Hline & Hobj).
  exists row, line. split; [exact Hrow |]. split; [exact Hline | exact Hobj].
Defined.

(** ** The thread and the screen *)

(** A step of a thread other than its call of the controller touches
    its own box only. *)
Lemma fetch_logs_step_own_box r w a a' :
  heap w !! r = Some (AsyncBox a) ->
  box_step a = Some a' ->
  thread a ≠ AtNotify ->
  exists w',
    AsyncScrollableListBox.fetch_logs_step r w = Some w'
    /\ heap w' = <[r := AsyncBox a']> (heap w)
    /\ widgets w' = widgets w
    /\ mainframe_body w' = mainframe_body w
    /\ main_list w' = main_list w.
Proof.
  intros Hr Hb Hpc. unfold AsyncScrollableListBox.fetch_logs_step.
  rewrite Hr. unfold box_step in Hb.
  destruct (thread a); try done;
    try destruct (generator a (consumed a)); try destruct (stop a);
    injection Hb as <-; eexists; (split; [reflexivity |]); done.
Qed.

Lemma fetch_logs_step_notify r w a :
  heap w !! r = Some (AsyncBox a) ->
  thread a = AtNotify ->
  AsyncScrollableListBox.fetch_logs_step r w
  = Some
      {| main_list := main_list w;
         mainframe_body := r;
         widgets := if py_in r (widgets w) then widgets w
                    else widgets w ++ [r];
         heap := <[r := AsyncBox (set_thread AtNext a)]> (heap w);
         trace := trace w
                  ++ (if py_in r (widgets w) then []
                      else [Log Debug (u "adding new widget %r")])
                  ++ [DrawScreen] |}.
Proof.
  intros Hr Hpc. unfold AsyncScrollableListBox.fetch_logs_step.
  rewrite Hr, Hpc. by rewrite add_and_set_main_widget_unfold.
Qed.

(** X14: when the thread of a streaming view has appended a line and
    calls the controller, that view becomes the displayed view,
    whatever was displayed and whether or not its flag is set; it is
    put at the end of the stack if it was not on it, the stack is
    otherwise as it was, and one redraw is requested. *)
Theorem streamed_line_takes_the_screen
    (r : nat) (w : World) (a : AsyncScrollableListBox) :
  heap w !! r = Some (AsyncBox a) ->
  thread a = AtNotify ->
  exists w',
    AsyncScrollableListBox.fetch_logs_step r w = Some w'
    /\ mainframe_body w' = r
    /\ r ∈ widgets w'
    /\ (r ∈ widgets w -> widgets w' = widgets w)
    /\ (r ∉ widgets w -> widgets w' = widgets w ++ [r])
    /\ last (trace w') = Some DrawScreen.
Proof.
  intros Hr Hpc. rewrite (fetch_logs_step_notify r w a Hr Hpc).
  eexists. split; [reflexivity |]. simpl. split; [done |].
  destruct (py_in r (widgets w)) eqn:Hin.
  - apply py_in_true in Hin. split; [done |]. split; [done |].
    split; [done |]. by rewrite app_nil_l, last_snoc.
  - assert (Hout : r ∉ widgets w).
    { intros Hx. apply py_in_true in Hx. congruence. }
    split; [apply elem_of_app; right; by apply list_elem_of_singleton |].
    split; [done |]. split; [done |].
    by rewrite app_assoc, last_snoc.
Qed.

Lemma streamed_line_takes_the_screen_witness :
  exists w',
    AsyncScrollableListBox.fetch_logs_step 3 (run_thread 2 3 sample_in_flight)
    = Some w'
    /\ mainframe_body w' = 3%nat.
Proof.
  destruct (streamed_line_takes_the_screen 3
              (run_thread 2 3 sample_in_flight) _ eq_refl eq_refl)
    as (w' & Hstep & Hbody & _).
  exists w'. split; [exact Hstep | exact Hbody].
Defined.

(** X15: a streaming view that is closed while its thread is past the
    check with a line comes back: closing takes it off the stack,
    displays the main list and sets the flag, and the next three steps
    of the thread append the line, trimmed, put the view back at the
    end of the stack and display it. *)
Theorem closed_view_comes_back
    (w : World) (a : AsyncScrollableListBox) (line : str) :
  NoDup (widgets w) ->
  mainframe_body w ≠ main_list w ->
  mainframe_body w ∈ widgets w ->
  heap w !! mainframe_body w = Some (AsyncBox a) ->
  thread a = AtAppend line ->
  exists w1 a2,
    UI.remove_current_widget w = Return tt w1
    /\ (mainframe_body w ∉ widgets w1)
    /\ mainframe_body w1 = main_list w
    /\ mainframe_body (run_thread 3 (mainframe_body w) w1) = mainframe_body w
    /\ widgets (run_thread 3 (mainframe_body w) w1)
       = widgets w1 ++ [mainframe_body w]
    /\ heap (run_thread 3 (mainframe_body w) w1) !! mainframe_body w
       = Some (AsyncBox a2)
    /\ stop a2 = true
    /\ walker a2 = walker a ++ [line_text (strip line)].
Proof.
  intros Hnd Hother Hin Hr Hpc. set (r := mainframe_body w) in *.
  destruct (py_remove_Some _ _ Hin) as [ws Hrm].
  rewrite (remove_current_widget_on_other_view w ws Hother Hrm).
  fold r. rewrite Hr.
  assert (Hout : r ∉ ws).
  { rewrite (py_remove_filter _ _ _ Hnd Hrm). intros Hx.
    apply list_elem_of_In, filter_In in Hx. destruct Hx as [_ Hx].
    by rewrite Nat.eqb_refl in Hx. }
  set (w1 := {| main_list := main_list w; mainframe_body := main_list w;
                widgets := ws;
                heap := <[r := AsyncBox (set_stop a)]> (heap w);
                trace := trace w ++ [Destroy r; DrawScreen] |}).
  assert (Hr1 : heap w1 !! r = Some (AsyncBox (set_stop a))).
  { simpl. apply list_lookup_insert_eq. by eapply lookup_lt_Some. }
  destruct a as [lt wk wf st g c pc]. simpl in Hpc. subst pc.
  edestruct (fetch_logs_step_own_box r w1) as (w2 & Hs2 & Hh2 & Hw2 & Hb2 & _);
    [exact Hr1 | reflexivity | done |].
  assert (Hr2 : heap w2 !! r = Some (AsyncBox
            (set_thread AtSetFocus
               (set_walker (wk ++ [line_text (strip line)])
                  (set_stop
                     {| log_texts := lt; walker := wk; walker_focus := wf;
                        stop := st; generator := g; consumed := c;
                        thread := AtAppend line |}))))).
  { rewrite Hh2. apply list_lookup_insert_eq. by eapply lookup_lt_Some. }
  edestruct (fetch_logs_step_own_box r w2) as (w3 & Hs3 & Hh3 & Hw3 & Hb3 & _);
    [exact Hr2 | reflexivity | done |].
  assert (Hr3 : heap w3 !! r = Some (AsyncBox
            {| log_texts := lt; walker := wk ++ [line_text (strip line)];
               walker_focus := length (wk ++ [line_text (strip line)]) - 1;
               stop := true; generator := g; consumed := c;
               thread := AtNotify |})).
  { rewrite Hh3. apply list_lookup_insert_eq. by eapply lookup_lt_Some. }
  pose proof (fetch_logs_step_notify r w3 _ Hr3 eq_refl) as Hs4.
  exists w1. eexists. split; [reflexivity |].
  split; [exact Hout |]. split; [done |].
  simpl run_thread. rewrite Hs2, Hs3, Hs4. simpl.
  rewrite Hw3, Hw2. simpl.
  assert (Hfresh : py_in r ws = false).
  { destruct (py_in r ws) eqn:E; [| done]. apply py_in_true in E. done. }
  rewrite Hfresh. split; [done |]. split; [done |].
  split; [apply list_lookup_insert_eq; by eapply lookup_lt_Some |].
  done.
Qed.

Lemma closed_view_comes_back_witness :
  exists w1,
    UI.remove_current_widget sample_in_flight = Return tt w1
    /\ widgets w1 = [0; 2]%nat
    /\ widgets (run_thread 3 3 w1) = [0; 2; 3]%nat
    /\ mainframe_body (run_thread 3 3 w1) = 3%nat.
Proof.
  assert (Hnd : NoDup (widgets sample_in_flight)).
  { repeat (apply NoDup_cons; split;
            [rewrite <- py_in_true; discriminate |]).
    apply NoDup_nil_2. }
  assert (Hother : mainframe_body sample_in_flight
                   ≠ main_list sample_in_flight) by (simpl; lia).
  assert (Hin : mainframe_body sample_in_flight ∈ widgets sample_in_flight)
    by (apply py_in_true; reflexivity).
  destruct (closed_view_comes_back sample_in_flight _ (u " c ")
              Hnd Hother Hin eq_refl eq_refl)
    as (w1 & a2 & Hrun & _ & _ & Hbody & Hws & _).
  exists w1. split; [exact Hrun |].
  injection Hrun as <-. split; [reflexivity |].
  split; [exact Hws | exact Hbody].
Defined.

Lemma run_thread_ended n r w a :
  heap w !! r = Some (AsyncBox a) ->
  thread a = Broke \/ thread a = Exhausted ->
  AsyncScrollableListBox.fetch_logs_step r w = None
  /\ run_thread n r w = w.
Proof.
  intros Hr Hpc.
  assert (Hnone : AsyncScrollableListBox.fetch_logs_step r w = None).
  { unfold AsyncScrollableListBox.fetch_logs_step. rewrite Hr.
    by destruct Hpc as [-> | ->]. }
  split; [done |]. destruct n; simpl; [done |]. by rewrite Hnone.
Qed.

Lemma box_step_steps_left a :
  stop a = true ->
  steps_left a ≠ 0%nat ->
  exists a',
    box_step a = Some a'
    /\ stop a' = true
    /\ (steps_left a' < steps_left a)%nat.
Proof.
  unfold box_step, steps_left. destruct a as [lt wk wf st g c pc]. simpl.
  intros -> Hleft.
  destruct pc as [| line | line | | | |]; simpl in *; try done;
    try destruct (g c); eexists; (split; [reflexivity |]); simpl;
    split; try done; lia.
Qed.

Lemma run_thread_cancelled n r :
  forall w a,
    heap w !! r = Some (AsyncBox a) ->
    stop a = true ->
    (steps_left a <= n)%nat ->
    exists a',
      heap (run_thread n r w) !! r = Some (AsyncBox a')
      /\ (thread a' = Broke \/ thread a' = Exhausted).
Proof.
  induction n as [| n IH]; intros w a Hr Hs Hleft.
  - exists a. split; [done |]. unfold steps_left in Hleft.
    destruct (thread a); auto; lia.
  - destruct (decide (steps_left a = 0%nat)) as [Hz | Hnz].
    + assert (Hpc : thread a = Broke \/ thread a = Exhausted).
      { unfold steps_left in Hz. destruct (thread a); auto; lia. }
      rewrite (proj2 (run_thread_ended (S n) r w a Hr Hpc)). by exists a.
    + destruct (box_step_steps_left a Hs Hnz) as (a1 & Hb & Hs1 & Hlt).
      destruct (run_thread_step n r w a a1 Hr Hb) as (w1 & Hr1 & ->).
      eapply IH; [exact Hr1 | exact Hs1 | lia].
Qed.

(** X16: once the flag of a streaming view is set, its thread, if the
    generator does not block it, ends within five of its own steps:
    it has left the loop or found the generator at its end, and takes
    no further step. *)
Theorem cancelled_thread_ends
    (r : nat) (w : World) (a : AsyncScrollableListBox) :
  heap w !! r = Some (AsyncBox a) ->
  stop a = true ->
  exists a',
    heap (run_thread 5 r w) !! r = Some (AsyncBox a')
    /\ (thread a' = Broke \/ thread a' = Exhausted)
    /\ AsyncScrollableListBox.fetch_logs_step r (run_thread 5 r w) = None.
Proof.
  intros Hr Hs. destruct (run_thread_cancelled 5 r w a Hr Hs)
    as (a' & Hr' & Hpc).
  { unfold steps_left. destruct (thread a); lia. }
  exists a'. split; [done |]. split; [done |].
  exact (proj1 (run_thread_ended 0 r _ a' Hr' Hpc)).
Qed.

Lemma cancelled_thread_ends_witness :
  exists a',
    heap (run_thread 5 3 (world_of (UI.destroy 3 sample_in_flight))) !! 3%nat
    = Some (AsyncBox a')
    /\ (thread a' = Broke \/ thread a' = Exhausted).
Proof.
  destruct (cancelled_thread_ends 3
              (world_of (UI.destroy 3 sample_in_flight)) _ eq_refl eq_refl)
    as (a' & Hr & Hpc & _).
  exists a'. split; [exact Hr | exact Hpc].
Defined.

(** ** What a run never changes *)

(** X17: across any run of the program every widget stays where it
    is: a static view keeps its text, a main list keeps its rows
    (only its focus may move), and the main list of the controller
    stays the same widget. *)
Theorem static_views_and_rows_never_change
    (env : Env) (w w' : World) (r : nat) :
  rtc (step env) w w' ->
  main_list w' = main_list w
  /\ (forall body,
         heap w !! r = Some (ScrollableListBox body) ->
         heap w' !! r = Some (ScrollableListBox body))
  /\ (forall rows focus,
         heap w !! r = Some (MainListBox rows focus) ->
         exists focus', heap w' !! r = Some (MainListBox rows focus'))
  /\ (heap w !! r = Some SolidFill -> heap w' !! r = Some SolidFill).
Proof.
  intros Hsteps. destruct (steps_heap_kept env w w' Hsteps) as [Hm Hk].
  split; [done |]. split; [| split].
  - intros body Hr. destruct (Hk r _ Hr) as (o' & Hr' & Hkept).
    destruct o'; simpl in Hkept; try done. by subst.
  - intros rows focus Hr. destruct (Hk r _ Hr) as (o' & Hr' & Hkept).
    destruct o'; simpl in Hkept; try done. subst. by eexists.
  - intros Hr. destruct (Hk r _ Hr) as (o' & Hr' & Hkept).
    by destruct o'.
Qed.

Lemma static_views_and_rows_never_change_witness :
  heap (world_of (MainListBox.keypress sample_env 0 (80, 24)%nat (u "l")
                    (world_of (UI.unhandled_input (u "x") sample_stack))))
    !! 2%nat
  = Some (ScrollableListBox [line_text (u "{}")]).
Proof.
  assert (Hsteps : rtc (step sample_env) sample_stack
            (world_of (MainListBox.keypress sample_env 0 (80, 24)%nat (u "l")
                         (world_of (UI.unhandled_input (u "x")
                                      sample_stack))))).
  { eapply rtc_l; [apply (step_unhandled_input sample_env (u "x")) |].
    eapply rtc_l; [| apply rtc_refl].
    apply (step_keypress sample_env 0 (80, 24)%nat (u "l")). }
  destruct (static_views_and_rows_never_change sample_env _ _ 2%nat Hsteps)
    as (_ & Hstatic & _).
  apply Hstatic. reflexivity.
Defined.

(** X18: across any run of the program a streaming view is only ever
    appended to: its earlier buffer is the head of its later buffer,
    its initial lines and its generator are the same, it has taken no
    fewer lines, and its flag, once set, stays set. *)
Theorem streaming_buffer_only_grows
    (env : Env) (w w' : World) (r : nat) (a : AsyncScrollableListBox) :
  rtc (step env) w w' ->
  heap w !! r = Some (AsyncBox a) ->
  exists a',
    heap w' !! r = Some (AsyncBox a')
    /\ walker a `prefix_of` walker a'
    /\ log_texts a' = log_texts a
    /\ generator a' = generator a
    /\ (consumed a <= consumed a')%nat
    /\ (stop a = true -> stop a' = true).
Proof.
  intros Hsteps Hr. destruct (steps_heap_kept env w w' Hsteps) as [_ Hk].
  destruct (Hk r _ Hr) as (o' & Hr' & Hkept).
  destruct o' as [| | | a']; simpl in Hkept; try done.
  destruct Hkept as (Hl & Hg & Hw & Hc & Hs). by exists a'.
Qed.

Lemma streaming_buffer_only_grows_witness :
  exists a',
    heap (run_thread 3 3 sample_in_flight) !! 3%nat = Some (AsyncBox a')
    /\ [line_text (u "a")] `prefix_of` walker a'.
Proof.
  destruct (streaming_buffer_only_grows sample_env sample_in_flight
              (run_thread 3 3 sample_in_flight) 3 _
              (run_thread_steps sample_env 3 3 sample_in_flight) eq_refl)
    as (a' & Hr & Hw & _).
  exists a'. split; [exact Hr | exact Hw].
Defined.

(** ** Adding a view, and the keys of the controller *)

Lemma py_index_app_new x l :
  py_index x l = None -> py_index x (l ++ [x]) = Some (length l).
Proof.
  induction l as [| y l IH]; simpl; [by rewrite Nat.eqb_refl |].
  destruct (Nat.eqb y x); [done |].
  destruct (py_index x l); simpl; [done |]. intros _. by rewrite IH.
Qed.

Lemma py_index_in x l : py_in x l = true -> is_Some (py_index x l).
Proof.
  induction l as [| y l IH]; simpl; [done |].
  rewrite Nat.eqb_sym. destruct (Nat.eqb y x); simpl; [by eexists |].
  intros Hin. destruct (IH Hin) as [i ->]. by eexists.
Qed.

Lemma py_index_not_in x l : py_in x l = false -> py_index x l = None.
Proof.
  induction l as [| y l IH]; simpl; [done |].
  rewrite Nat.eqb_sym. destruct (Nat.eqb y x); simpl; [done |].
  intros Hin. by rewrite (IH Hin).
Qed.

(** X19: after [addAndShow(v)] the index of the displayed view is the
    first position of [v] on the old stack when it was there, and the
    stack is the old one; otherwise it is the old length of the stack,
    and the stack is the old one with [v] at the end. *)
Theorem add_then_current_index (v : nat) (redraw : bool) (w : World) :
  exists w',
    UI.add_and_set_main_widget v redraw w = Return tt w'
    /\ match py_index v (widgets w) with
       | Some i =>
         widgets w' = widgets w
         /\ UI.current_widget_index w' = Return i w'
       | None =>
         widgets w' = widgets w ++ [v]
         /\ UI.current_widget_index w' = Return (length (widgets w)) w'
       end.
Proof.
  rewrite add_and_set_main_widget_unfold. eexists. split; [reflexivity |].
  unfold UI.current_widget_index, UI.current_widget. unfold_m. simpl.
  destruct (py_in v (widgets w)) eqn:Hin.
  - destruct (py_index_in _ _ Hin) as [i Hi]. by rewrite Hi.
  - rewrite (py_index_not_in _ _ Hin).
    by rewrite (py_index_app_new _ _ (py_index_not_in _ _ Hin)).
Qed.

Lemma keypress_calls env self size key w :
  exists calls,
    backend_calls
      (trace (world_of (MainListBox.keypress env self size key w)))
    = backend_calls (trace w) ++ calls
    /\ (length calls <= 1)%nat.
Proof.
  unfold MainListBox.keypress, MainListBox.focus_docker_object,
    MainListBox.call, MainListBox.super_keypress,
    ScrollableListBox.__init__, AsyncScrollableListBox.__init__, alloc.
  unfold_m. simpl.
  assert (Hnone : forall t,
    backend_calls (t ++ [Log Debug (u "size %r, key %r")])
    = backend_calls t ++ []).
  { intros t. by rewrite backend_calls_app. }
  destruct (bool_decide (key = u "i")); simpl.
  - destruct (heap w !! self) as [[| body focus | |] |]; simpl;
      try (exists []; split; [apply Hnone | simpl; lia]).
    destruct (body !! focus) as [row |]; simpl;
      try (exists []; split; [apply Hnone | simpl; lia]).
    destruct (original_widget row) as [line |]; simpl;
      try (exists []; split; [apply Hnone | simpl; lia]).
    destruct (docker_object_of line) as [id t n | id t n c st |]; simpl;
      try (exists []; split; [apply Hnone | simpl; lia]).
    + exists [InspectImage id]. split; [| simpl; lia].
      destruct (inspect_image _ _ _) as [e | payload]; simpl;
        rewrite ?add_and_set_main_widget_unfold; simpl;
        try destruct (py_in (length (heap w)) (widgets w)); simpl;
        rewrite ?backend_calls_app; simpl; by rewrite ?app_nil_r.
    + exists [InspectContainer id]. split; [| simpl; lia].
      destruct (inspect_container _ _ _) as [e | payload]; simpl;
        rewrite ?add_and_set_main_widget_unfold; simpl;
        try destruct (py_in (length (heap w)) (widgets w)); simpl;
        rewrite ?backend_calls_app; simpl; by rewrite ?app_nil_r.
  - destruct (bool_decide (key = u "l")); simpl.
    + destruct (heap w !! self) as [[| body focus | |] |]; simpl;
        try (exists []; split; [apply Hnone | simpl; lia]).
      destruct (body !! focus) as [row |]; simpl;
        try (exists []; split; [apply Hnone | simpl; lia]).
      destruct (original_widget row) as [line |]; simpl;
        try (exists []; split; [apply Hnone | simpl; lia]).
      destruct (docker_object_of line) as [id t n | id t n c st |]; simpl;
        try (exists []; split; [apply Hnone | simpl; lia]).
      exists [Logs id]. split; [| simpl; lia].
      destruct (logs _ _ _) as [e | [logs_data logs_generator]]; simpl;
        try destruct (decode_utf8 logs_data); simpl;
        rewrite ?add_and_set_main_widget_unfold; simpl;
        try destruct (py_in (length (heap w)) (widgets w)); simpl;
        rewrite ?backend_calls_app; simpl; by rewrite ?app_nil_r.
    + exists []. split; [| simpl; lia].
      destruct (heap w !! self) as [[| body focus | |] |]; simpl;
        try apply Hnone.
      destruct (listbox_keypress env size key (length body) focus).
      simpl. apply Hnone.
Qed.

(** X20: the backend is called from the main list only: a key on the
    main list makes at most one call, and neither a key handled by the
    controller nor a step of a streaming thread makes any. *)
Theorem backend_called_from_main_list_only (env : Env) :
  (forall self size key w,
      exists calls,
        backend_calls
          (trace (world_of (MainListBox.keypress env self size key w)))
        = backend_calls (trace w) ++ calls
        /\ (length calls <= 1)%nat)
  /\ (forall key w,
         backend_calls (trace (world_of (UI.unhandled_input key w)))
         = backend_calls (trace w))
  /\ (forall self w w',
         AsyncScrollableListBox.fetch_logs_step self w = Some w' ->
         backend_calls (trace w') = backend_calls (trace w)).
Proof.
  split; [| split].
  - intros self size key w. apply keypress_calls.
  - intros key w. apply unhandled_input_backend_quiet.
  - intros self w w' Hstep.
    by apply (fetch_logs_step_backend_quiet self).
Qed.

Lemma pick_main_widget_widgets i w :
  widgets (world_of (UI.pick_main_widget i w)) = widgets w.
Proof.
  destruct (decide (length (widgets w) = 1%nat)) as [Hone | Hmany].
  - unfold UI.pick_main_widget. unfold_m. by rewrite Hone.
  - rewrite pick_main_widget_unfold by done.
    destruct (py_getitem (widgets w) i); [done |].
    by destruct (widgets w !! 0%nat).
Qed.

(** X21: a key handled by the controller never adds a view and never
    reorders the stack; any key but [x] leaves the stack as it is; [q]
    and [Q] raise [ExitMainLoop], and a key that is none of [q], [Q],
    [p], [n], [x] returns after the debug log with nothing changed. *)
Theorem controller_keys_never_add (key : str) (w : World) :
  widgets (world_of (UI.unhandled_input key w)) `sublist_of` widgets w
  /\ (key ≠ u "x" ->
      widgets (world_of (UI.unhandled_input key w)) = widgets w)
  /\ (key = u "q" \/ key = u "Q" ->
      UI.unhandled_input key w
      = Raise ExitMainLoop
          (with_trace (trace w ++ [Log Debug (u "got %r")]) w))
  /\ (key ≠ u "q" -> key ≠ u "Q" -> key ≠ u "p" -> key ≠ u "n" ->
      key ≠ u "x" ->
      UI.unhandled_input key w
      = Return tt (with_trace (trace w ++ [Log Debug (u "got %r")]) w)).
Proof.
  split; [apply unhandled_input_stack_shrinks |].
  split; [| split].
  - intros Hx. unfold UI.unhandled_input. unfold_m. simpl.
    destruct (bool_decide (key = u "q") || bool_decide (key = u "Q"));
      [done |].
    rewrite (bool_decide_eq_false_2 (key = u "x")) by done.
    unfold UI.current_widget_index, UI.current_widget. unfold_m. simpl.
    destruct (bool_decide (key = u "p")); simpl.
    + destruct (py_index (mainframe_body w) (widgets w)); simpl; [| done].
      apply (pick_main_widget_widgets _
               (with_trace (trace w ++ [Log Debug (u "got %r")]) w)).
    + destruct (bool_decide (key = u "n")); simpl; [| done].
      destruct (py_index (mainframe_body w) (widgets w)); simpl; [| done].
      apply (pick_main_widget_widgets _
               (with_trace (trace w ++ [Log Debug (u "got %r")]) w)).
  - intros Hq. unfold UI.unhandled_input. unfold_m. simpl.
    destruct Hq as [-> | ->]; reflexivity.
  - intros Hq HQ Hp Hn Hx. unfold UI.unhandled_input. unfold_m. simpl.
    by rewrite !bool_decide_eq_false_2 by done.
Qed.

(** ** The lines of the initial block *)

Lemma lstrip_suffix (s : str) : lstrip s `suffix_of` s.
Proof.
  induction s as [| c s IH]; simpl; [done |].
  destruct (is_space c); [by apply suffix_cons_r | done].
Qed.

Lemma lstrip_head (s : str) (c : N) :
  head (lstrip s) = Some c -> is_space c = false.
Proof.
  induction s as [| c0 s IH]; simpl; [done |].
  destruct (is_space c0) eqn:Hc0; [done |]. simpl. by intros [= <-].
Qed.

Lemma rstrip_prefix (s : str) : rstrip s `prefix_of` s.
Proof.
  unfold rstrip. apply prefix_suffix_reverse.
  rewrite reverse_involutive. apply lstrip_suffix.
Qed.

Lemma rstrip_last (s : str) (c : N) :
  last (rstrip s) = Some c -> is_space c = false.
Proof. unfold rstrip. rewrite last_reverse. apply lstrip_head. Qed.

Lemma strip_head (s : str) (c : N) :
  head (strip s) = Some c -> is_space c = false.
Proof.
  unfold strip. intros Hc. apply (lstrip_head s).
  destruct (rstrip_prefix (lstrip s)) as [k Hk].
  destruct (rstrip (lstrip s)) as [| c0 r]; [done |].
  simpl in Hc. injection Hc as ->. by rewrite Hk.
Qed.

Lemma strip_elem_of (s : str) (c : N) : c ∈ strip s -> c ∈ s.
Proof.
  unfold strip. intros Hc.
  eapply elem_of_suffix; [| apply lstrip_suffix].
  eapply elem_of_prefix; [exact Hc | apply rstrip_prefix].
Qed.

Lemma split_newline_pieces (s : str) :
  Forall (fun piece => 10%N ∉ piece) (split_newline s).
Proof.
  induction s as [| c s IH]; simpl.
  - apply Forall_singleton, not_elem_of_nil.
  - destruct (N.eqb_spec c 10) as [-> | Hc].
    + apply Forall_cons. split; [apply not_elem_of_nil | done].
    + destruct (split_newline s) as [| piece pieces].
      * apply Forall_singleton. intros Hin.
        apply list_elem_of_singleton in Hin. done.
      * apply Forall_cons in IH as [Hp Hps]. apply Forall_cons.
        split; [| done]. intros Hin.
        apply elem_of_cons in Hin as [Hin | Hin]; [done | by apply Hp].
Qed.

(** X22: the buffer a streaming view starts with holds text widgets
    whose lines are not empty, begin and end with a character that is
    not white space and contain no line break; an empty initial block
    gives an empty buffer. *)
Theorem seeded_lines_are_trimmed
    (static_data : bytes) (gen : nat -> option str) (w w1 : World)
    (r : nat) :
  AsyncScrollableListBox.__init__ static_data gen w = Return r w1 ->
  exists a,
    heap w1 !! r = Some (AsyncBox a)
    /\ Forall
         (fun t =>
            t = line_text (text t)
            /\ text t ≠ []
            /\ (forall c, head (text t) = Some c -> is_space c = false)
            /\ (forall c, last (text t) = Some c -> is_space c = false)
            /\ 10%N ∉ text t)
         (walker a)
    /\ (static_data = [] -> walker a = []).
Proof.
  intros Hinit.
  destruct (AsyncScrollableListBox_init_box _ _ _ _ _ Hinit)
    as (decoded & a & Hdec & Hr & Hlt & Hwk & _).
  exists a. split; [done |]. rewrite Hwk, Hlt. split.
  - apply Forall_fmap, Forall_forall. intros l Hl. simpl.
    unfold initial_lines in Hl.
    apply list_elem_of_In, filter_In in Hl. destruct Hl as [Hl Htruthy].
    apply list_elem_of_In, list_elem_of_fmap in Hl.
    destruct Hl as (piece & -> & Hpiece).
    split; [done |]. split; [by destruct (strip piece) |].
    split; [apply strip_head |]. split.
    + unfold strip. apply rstrip_last.
    + intros Hnl. apply strip_elem_of in Hnl.
      by apply (proj1 (Forall_forall _ _) (split_newline_pieces decoded)
                  piece Hpiece).
  - intros ->. simpl in Hdec. by injection Hdec as <-.
Qed.

Lemma seeded_lines_are_trimmed_witness :
  exists a,
    heap (world_of (AsyncScrollableListBox.__init__
                      [32; 97; 32; 10; 32; 10; 98; 13; 10]%N
                      (generator_of []) (sample_started 0))) !! 2%nat
    = Some (AsyncBox a)
    /\ text <$> walker a = [u "a"; u "b"].
Proof.
  destruct (seeded_lines_are_trimmed [32; 97; 32; 10; 32; 10; 98; 13; 10]%N
              (generator_of []) (sample_started 0) _ 2%nat eq_refl)
    as (a & Hr & _ & _).
  exists a. split; [exact Hr |]. injection Hr as <-. reflexivity.
Defined.

(** ** Opening, then closing *)

Lemma py_remove_app_new x l :
  py_in x l = false -> py_remove x (l ++ [x]) = Some l.
Proof.
  induction l as [| y l IH]; simpl; [by rewrite Nat.eqb_refl |].
  rewrite Nat.eqb_sym. destruct (Nat.eqb y x); simpl; [done |].
  intros Hin. by rewrite (IH Hin).
Qed.

Lemma unhandled_input_x (w : World) :
  UI.unhandled_input (u "x") w
  = UI.remove_current_widget
      (with_trace (trace w ++ [Log Debug (u "got %r")]) w).
Proof. reflexivity. Qed.

(** X23: [x] closes at most one view however often it is pressed:
    after [x] has closed a view the main list is displayed, and a
    second [x] is refused with a warning and leaves the stack as the
    first one left it. *)
Theorem close_twice_closes_once (w : World) :
  mainframe_body w ≠ main_list w ->
  mainframe_body w ∈ widgets w ->
  exists w1 w2,
    UI.unhandled_input (u "x") w = Return tt w1
    /\ UI.unhandled_input (u "x") w1 = Return tt w2
    /\ S (length (widgets w1)) = length (widgets w)
    /\ widgets w2 = widgets w1
    /\ mainframe_body w2 = main_list w
    /\ heap w2 = heap w1
    /\ last (trace w2)
       = Some (Log Warning (u "you can't remove main list widget")).
Proof.
  intros Hother Hin. destruct (py_remove_Some _ _ Hin) as [ws Hrm].
  rewrite unhandled_input_x.
  rewrite (remove_current_widget_on_other_view _ ws); [| done | done].
  eexists. eexists. split; [reflexivity |].
  rewrite unhandled_input_x.
  rewrite remove_current_widget_on_main_list
    by (simpl; by destruct (heap w !! mainframe_body w) as [[| | | a] |]).
  split; [reflexivity |]. simpl.
  pose proof (py_remove_length _ _ _ Hrm) as Hlen.
  destruct (heap w !! mainframe_body w) as [[| | | a] |]; simpl;
    (split; [done |]); (split; [done |]); (split; [done |]);
    (split; [done |]); by rewrite last_snoc.
Qed.

Lemma close_twice_closes_once_witness :
  exists w1 w2,
    UI.unhandled_input (u "x") sample_stack = Return tt w1
    /\ UI.unhandled_input (u "x") w1 = Return tt w2
    /\ widgets w2 = widgets w1
    /\ mainframe_body w2 = 0%nat.
Proof.
  assert (Hother : mainframe_body sample_stack ≠ main_list sample_stack)
    by (simpl; lia).
  assert (Hin : mainframe_body sample_stack ∈ widgets sample_stack)
    by (apply py_in_true; reflexivity).
  destruct (close_twice_closes_once sample_stack Hother Hin)
    as (w1 & w2 & H1 & H2 & _ & Hws & Hb & _).
  exists w1, w2. split; [exact H1 |]. split; [exact H2 |].
  split; [exact Hws | exact Hb].
Defined.

(** X24: opening the inspection of the focused row with [i] and
    closing it with [x] brings the stack back: where every view on the
    stack is in the heap, and so is the main list, the stack after the
    two keys is the stack before them, the main list is displayed, and
    nothing was destroyed on the way. *)
Theorem inspect_then_close_restores_the_stack
    (env : Env) (self : nat) (size : nat * nat) (w : World)
    (body : list AttrMap) (focus : nat) (row : AttrMap)
    (line : DockerImageColumns) (payload : json env) :
  heap w !! self = Some (MainListBox body focus) ->
  body !! focus = Some row ->
  original_widget row = Some line ->
  inspect_answer env (trace w ++ [Log Debug (u "size %r, key %r")])
    (docker_object_of line) = Some (inr payload) ->
  Forall (fun r => exists o, heap w !! r = Some o /\ is_view o = true)
    (widgets w) ->
  (main_list w < length (heap w))%nat ->
  exists w1 w2,
    MainListBox.keypress env self size (u "i") w = Return None w1
    /\ UI.unhandled_input (u "x") w1 = Return tt w2
    /\ length (widgets w1) = S (length (widgets w))
    /\ widgets w2 = widgets w
    /\ mainframe_body w2 = main_list w
    /\ trace w2
       = trace w
         ++ Log Debug (u "size %r, key %r")
         :: (Backend <$> inspect_call (docker_object_of line))
         ++ [Log Debug (u "adding new widget %r"); DrawScreen;
             Log Debug (u "got %r"); DrawScreen].
Proof.
  intros Hself Hrow Hline Hans Hall Hml.
  rewrite (keypress_i_answered env self size w body focus row line payload)
    by done.
  eexists. eexists. split; [reflexivity |].
  rewrite unhandled_input_x.
  rewrite (remove_current_widget_on_other_view _ (widgets w));
    [| simpl; lia
     | simpl; apply py_remove_app_new; by apply py_in_fresh].
  simpl. rewrite list_lookup_middle by done.
  split; [reflexivity |]. simpl.
  split; [rewrite length_app; simpl; lia |]. split; [done |].
  split; [done |].
  rewrite <- !app_assoc. simpl. rewrite <- !app_assoc. done.
Qed.

Lemma inspect_then_close_restores_the_stack_witness :
  exists w1 w2,
    MainListBox.keypress sample_env 0 (80, 24)%nat (u "i") (sample_started 0)
    = Return None w1
    /\ UI.unhandled_input (u "x") w1 = Return tt w2
    /\ widgets w2 = [0%nat]
    /\ mainframe_body w2 = 0%nat.
Proof.
  destruct (inspect_then_close_restores_the_stack sample_env 0 (80, 24)%nat
              (sample_started 0) _ 0%nat _ _ (u "{}")
              eq_refl eq_refl eq_refl eq_refl)
    as (w1 & w2 & H1 & H2 & _ & Hws & Hb & _).
  { apply Forall_singleton. by eexists. }
  { simpl. lia. }
  exists w1, w2. split; [exact H1 |]. split; [exact H2 |].
  split; [exact Hws | exact Hb].
Defined.

(** X25: opening the logs of the focused container with [l] and
    closing them with [x] brings the stack back and cancels the
    stream: where every view on the stack is in the heap, and so is
    the main list, the stack after the two keys is the stack before
    them, the main list is displayed, [destroy] was called once on the
    new view, and its flag is set while its thread had not taken a
    line. *)
Theorem logs_then_close_cancels_the_stream
    (env : Env) (self : nat) (size : nat * nat) (w : World)
    (body : list AttrMap) (focus : nat) (row : AttrMap)
    (line : DockerImageColumns) (id t n c st : str)
    (logs_data : bytes) (logs_generator : nat -> option str)
    (decoded : str) :
  heap w !! self = Some (MainListBox body focus) ->
  body !! focus = Some row ->
  original_widget row = Some line ->
  docker_object_of line = DockerContainer id t n c st ->
  logs (d env) (trace w ++ [Log Debug (u "size %r, key %r")]) id
  = inr (logs_data, logs_generator) ->
  decode_utf8 logs_data = Some decoded ->
  Forall (fun r => exists o, heap w !! r = Some o /\ is_view o = true)
    (widgets w) ->
  (main_list w < length (heap w))%nat ->
  exists w1 w2 a,
    MainListBox.keypress env self size (u "l") w = Return None w1
    /\ UI.unhandled_input (u "x") w1 = Return tt w2
    /\ widgets w2 = widgets w
    /\ mainframe_body w2 = main_list w
    /\ heap w2 !! length (heap w) = Some (AsyncBox a)
    /\ stop a = true
    /\ consumed a = 0%nat
    /\ text <$> walker a = initial_lines decoded
    /\ trace w2
       = trace w
         ++ [Log Debug (u "size %r, key %r"); Backend (Logs id);
             Log Debug (u "adding new widget %r"); DrawScreen;
             Log Debug (u "got %r"); Destroy (length (heap w));
             DrawScreen].
Proof.
  intros Hself Hrow Hline Hobj Hlogs Hdec Hall Hml.
  rewrite (keypress_l_answered env self size w body focus row line
             id t n c st logs_data logs_generator decoded) by done.
  eexists. eexists. eexists. split; [reflexivity |].
  rewrite unhandled_input_x.
  rewrite (remove_current_widget_on_other_view _ (widgets w));
    [| simpl; lia
     | simpl; apply py_remove_app_new; by apply py_in_fresh].
  simpl. rewrite list_lookup_middle by done.
  split; [reflexivity |]. simpl.
  split; [done |]. split; [done |].
  split; [apply list_lookup_insert_eq; rewrite length_app; simpl; lia |].
  simpl. split; [done |]. split; [done |].
  split; [apply text_line_text |].
  rewrite <- !app_assoc. done.
Qed.

Lemma logs_then_close_cancels_the_stream_witness :
  exists w1 w2 a,
    MainListBox.keypress sample_env 0 (80, 24)%nat (u "l") (sample_started 1)
    = Return None w1
    /\ UI.unhandled_input (u "x") w1 = Return tt w2
    /\ widgets w2 = [0%nat]
    /\ heap w2 !! 2%nat = Some (AsyncBox a)
    /\ stop a = true.
Proof.
  destruct (logs_then_close_cancels_the_stream sample_env 0 (80, 24)%nat
              (sample_started 1) _ 1%nat _ _ _ _ _ _ _ _ _ _
              eq_refl eq_refl eq_refl eq_refl eq_refl eq_refl)
    as (w1 & w2 & a & H1 & H2 & Hws & _ & Hr & Hs & _).
  { apply Forall_singleton. by eexists. }
  { simpl. lia. }
  exists w1, w2, a. split; [exact H1 |]. split; [exact H2 |].
  split; [exact Hws |]. split; [exact Hr | exact Hs].
Defined.

Lemma backend_called_from_main_list_only_witness :
  backend_calls (trace (run_thread 1 3 sample_in_flight))
  = backend_calls (trace sample_in_flight)
  /\ backend_calls
       (trace (world_of (UI.unhandled_input (u "x") sample_in_flight)))
     = backend_calls (trace sample_in_flight).
Proof.
  destruct (backend_called_from_main_list_only sample_env)
    as (_ & Hkeys & Hthread).
  split.
  - apply (Hthread 3%nat sample_in_flight). reflexivity.
  - apply Hkeys.
Defined.

Lemma controller_keys_never_add_witness :
  UI.unhandled_input (u "Q") sample_stack
  = Raise ExitMainLoop (with_trace [Log Debug (u "got %r")] sample_stack)
  /\ UI.unhandled_input (u "z") sample_stack
     = Return tt (with_trace [Log Debug (u "got %r")] sample_stack).
Proof.
  destruct (controller_keys_never_add (u "Q") sample_stack)
    as (_ & _ & Hquit & _).
  destruct (controller_keys_never_add (u "z") sample_stack)
    as (_ & _ & _ & Hother).
  split.
  - apply Hquit. by right.
  - apply Hother; discriminate.
Defined.
